(** * Gesture-controlled applications: pipeline back end

    A shallow embedding of the Python back end (package [backend]) and the
    properties of its pipeline: the capture buffer, the inference engine,
    the three classifiers, the One-Euro filter, the event dispatcher and
    the orchestrator's processing loop.

    Conventions of the embedding.
    - A Python [float] is a rational number ([Q]); arithmetic is exact, so
      statements about floats are statements about the ideal values the
      code computes.  A division by zero raises [ZeroDivisionError], and is
      modelled by a result in [option].  Where a property depends on the
      rounding of the program's binary64 floats, the arithmetic is given
      once more on primitive floats (modules [Binary64] and
      [VolumeControlBinary64]), and the examples there show what the
      rounding changes: a bound that holds of the ideal values can be
      missed by one unit in the last place.
    - [time.time()] and [time.perf_counter()] are readings of the
      environment: a function that calls them takes the reading as an
      argument.
    - A Python object with mutable attributes is a record, and a method is
      a function from the record to the new record and the returned value.
    - A Python [dict] with string keys and no dependence on the order of
      its keys is a [gmap string _]; a dict that is iterated is an
      association list in insertion order; a [list] is a [list]. *)

From Stdlib Require Import ZArith QArith Qabs Qround Qminmax Lia Lra Lqa Psatz.
From Stdlib Require Import Floats.
From stdpp Require Import base option list strings gmap.

Local Open Scope Z_scope.

(** ** Python floats as rationals *)

Module PyFloat.

(** [a < b], [a <= b] and [a == b] on floats, as booleans. *)
Definition ltb (a b : Q) : bool := negb (Qle_bool b a).
Definition leb (a b : Q) : bool := Qle_bool a b.
Definition eqb (a b : Q) : bool := Qeq_bool a b.

(** [max(a, b)] and [min(a, b)]: Python returns the first argument
    unless the second is strictly larger (smaller). *)
Definition max (a b : Q) : Q := if ltb a b then b else a.
Definition min (a b : Q) : Q := if ltb b a then b else a.

(** [a / b], which raises [ZeroDivisionError] when [b] is zero. *)
Definition div (a b : Q) : option Q :=
  if eqb b 0 then None else Some (a / b)%Q.

(** [int(a)]: truncation toward zero. *)
Definition int (a : Q) : Z := Z.quot (Qnum a) (Zpos (Qden a)).

(** [math.sqrt]: the square root of a non-negative rational, exact on the
    squares of rationals and otherwise rounded down at twelve decimal
    places (the code only compares its results with thresholds). *)
Definition sqrt (a : Q) : Q :=
  let n := Qnum a in
  let d := Zpos (Qden a) in
  Qmake (Z.sqrt (n * d * 10 ^ 24)) (Z.to_pos (d * 10 ^ 12)).

(** [math.pi] is the double nearest to pi; its exact value is this
    binary fraction. *)
Definition pi : Q := 884279719003555 # 281474976710656.

Lemma ltb_lt a b : ltb a b = true <-> (a < b)%Q.
Proof.
  unfold ltb. rewrite negb_true_iff, <- not_true_iff_false, Qle_bool_iff.
  split; [apply Qnot_le_lt | apply Qlt_not_le].
Qed.

Lemma ltb_ge a b : ltb a b = false <-> (b <= a)%Q.
Proof.
  unfold ltb. rewrite negb_false_iff, Qle_bool_iff. reflexivity.
Qed.

Lemma leb_le a b : leb a b = true <-> (a <= b)%Q.
Proof. apply Qle_bool_iff. Qed.

Lemma leb_gt a b : leb a b = false <-> (b < a)%Q.
Proof.
  unfold leb. rewrite <- not_true_iff_false, Qle_bool_iff.
  split; [apply Qnot_le_lt | apply Qlt_not_le].
Qed.

Lemma eqb_eq a b : eqb a b = true <-> (a == b)%Q.
Proof. apply Qeq_bool_iff. Qed.

Lemma eqb_neq a b : eqb a b = false <-> ~ (a == b)%Q.
Proof.
  unfold eqb. rewrite <- not_true_iff_false, Qeq_bool_iff. reflexivity.
Qed.

End PyFloat.

(** ** core/types.py *)

Inductive HandLabel : Type := LEFT | RIGHT.

Inductive GestureType : Type :=
| NONE | FINGER_COUNT | PINCH
| SWIPE_LEFT | SWIPE_RIGHT | SWIPE_UP | SWIPE_DOWN
| THUMBS_UP | THUMBS_DOWN | FIST | OPEN_PALM | PEACE | OK_SIGN | POINTING.

(** [GestureType.value] and [HandLabel.value]. *)
Definition gesture_value (g : GestureType) : string :=
  match g with
  | NONE => "none" | FINGER_COUNT => "finger_count" | PINCH => "pinch"
  | SWIPE_LEFT => "swipe_left" | SWIPE_RIGHT => "swipe_right"
  | SWIPE_UP => "swipe_up" | SWIPE_DOWN => "swipe_down"
  | THUMBS_UP => "thumbs_up" | THUMBS_DOWN => "thumbs_down"
  | FIST => "fist" | OPEN_PALM => "open_palm" | PEACE => "peace"
  | OK_SIGN => "ok_sign" | POINTING => "pointing"
  end.

Definition label_value (l : HandLabel) : string :=
  match l with LEFT => "Left" | RIGHT => "Right" end.

Record Landmark : Type := mkLandmark {
  lm_x : Q;
  lm_y : Q;
  lm_z : Q;
  pixel_x : Z;
  pixel_y : Z;
  visibility : Q
}.

Record HandLandmarks : Type := mkHand {
  hand_label : HandLabel;
  landmarks : list Landmark;
  hand_confidence : Q
}.

Record FingerStates : Type := mkFingerStates {
  thumb : bool;
  index : bool;
  middle : bool;
  ring : bool;
  pinky : bool
}.

(** [FingerStates()] and the [count] property. *)
Definition FingerStates_default : FingerStates :=
  mkFingerStates false false false false false.

Definition fs_count (s : FingerStates) : Z :=
  Z.b2z (thumb s) + Z.b2z (index s) + Z.b2z (middle s)
  + Z.b2z (ring s) + Z.b2z (pinky s).

Record ExtractionResult : Type := mkExtraction {
  hands : list HandLandmarks;
  extraction_latency_ms : Q;
  model_confidence : Q;
  frame_timestamp : Q
}.

Definition hands_detected (e : ExtractionResult) : Z :=
  Z.of_nat (length (hands e)).

(** The values a classifier stores in [raw_output]. *)
#[warnings="-register-all"]
Inductive PyVal : Type :=
| VFloat (q : Q)
| VInt (n : Z)
| VBool (b : bool)
| VStr (s : string)
| VList (l : list PyVal)
| VDict (d : list (string * PyVal)).

Record InferenceResult : Type := mkInference {
  gesture_type : GestureType;
  confidence : Q;
  raw_output : gmap string PyVal;
  inference_latency_ms : Q;
  finger_count : option Z;
  finger_states : option FingerStates;
  pinch_distance : option Q;
  gesture_velocity : option Q
}.

Record CapturedFrame : Type := mkFrame {
  frame : list Z;
  timestamp : Q;
  frame_number : Z;
  capture_latency_ms : Q;
  width : Z;
  height : Z;
  channels : Z
}.

(** ** asyncio.Queue, as the capture thread uses it *)

Module Queue.

Inductive error : Type := QueueFull | QueueEmpty.

Record t (A : Type) : Type := mk { maxsize : Z; items : list A }.
Arguments mk {A}.
Arguments maxsize {A}.
Arguments items {A}.

Section Ops.
Context {A : Type}.

Definition qsize (q : t A) : Z := Z.of_nat (length (items q)).

Definition empty (q : t A) : bool :=
  match items q with [] => true | _ => false end.

(** A queue with [maxsize <= 0] is never full. *)
Definition full (q : t A) : bool :=
  if maxsize q <=? 0 then false else maxsize q <=? qsize q.

Definition put_nowait (q : t A) (item : A) : error + t A :=
  if full q then inl QueueFull
  else inr (mk (maxsize q) (items q ++ [item])).

Definition get_nowait (q : t A) : error + (A * t A) :=
  match items q with
  | [] => inl QueueEmpty
  | item :: rest => inr (item, mk (maxsize q) rest)
  end.
End Ops.

End Queue.

(** ** pipelines/ingestion/camera.py *)

Module CameraIngestion.

Inductive CaptureState : Type :=
| IDLE | INITIALIZING | CAPTURING | PAUSED | STOPPING | STOPPED | ERROR.

Record t : Type := mk {
  state : CaptureState;
  frame_buffer : Queue.t CapturedFrame;
  frame_count : Z;
  dropped_frames : Z;
  capture_times : list Q
}.

(** [__init__] followed by the part of [start] that creates the buffer:
    [asyncio.Queue(maxsize=buffer_size)]. *)
Definition started (buffer_size : Z) : t :=
  mk CAPTURING (Queue.mk buffer_size []) 0 0 [].

Definition with_buffer (s : t) (q : Queue.t CapturedFrame) : t :=
  mk (state s) q (frame_count s) (dropped_frames s) (capture_times s).

(** Lines 279-290 of [_capture_loop]: try to put the frame; on
    [QueueFull] drop the oldest one and put again. The inner bare
    [except: pass] swallows any failure of these two calls. *)
Definition enqueue (s : t) (captured : CapturedFrame) : t :=
  match Queue.put_nowait (frame_buffer s) captured with
  | inr q =>
      mk (state s) q (frame_count s + 1) (dropped_frames s) (capture_times s)
  | inl _ =>
      match Queue.get_nowait (frame_buffer s) with
      | inl _ => s
      | inr (_, q1) =>
          match Queue.put_nowait q1 captured with
          | inl _ => with_buffer s q1
          | inr q2 =>
              mk (state s) q2 (frame_count s) (dropped_frames s + 1)
                 (capture_times s)
          end
      end
  end.

(** One iteration of [_capture_loop] whose [read()] succeeded: the frame
    is stamped with the current [_frame_count] and enqueued.  [pixels],
    [now], [latency] and the shape are what the camera and the clocks
    returned. *)
Definition capture (s : t) (pixels : list Z) (now latency : Q)
    (w h c : Z) : t :=
  let s1 := mk (state s) (frame_buffer s) (frame_count s)
               (dropped_frames s) (capture_times s ++ [latency]) in
  enqueue s1 (mkFrame pixels now (frame_count s) latency w h c).

(** [get_frame], when the consumer finds a frame within its timeout (or
    [None] when not capturing or the buffer stays empty). *)
Definition get_frame (s : t) : option CapturedFrame * t :=
  match state s with
  | CAPTURING =>
      match Queue.get_nowait (frame_buffer s) with
      | inl _ => (None, s)
      | inr (f, q) => (Some f, with_buffer s q)
      end
  | _ => (None, s)
  end.

End CameraIngestion.

(** ** Exceptions and the clock *)

Inductive PyExn : Type :=
| ZeroDivisionError
| ValueError
| TypeError
| RuntimeError (msg : string)
| InferenceError (cause : PyExn)
| OutputError (cause : PyExn).

(** What one call of [classify] reads from the clocks: [time.time()], and
    the time between its two [time.perf_counter()] readings, in ms. *)
Record Clock : Type := mkClock {
  time_time : Q;
  perf_elapsed_ms : Q
}.

(** ** pipelines/inference/engine.py *)

(** The abstract base class [GestureClassifier].  [classify] returns the
    result or the exception it raised, and the object as the call left
    it. *)
Class GestureClassifier (C : Type) : Type := {
  name : C -> string;
  supported_gestures : C -> list GestureType;
  classify : C -> Clock -> ExtractionResult -> (PyExn + InferenceResult) * C;
  reset : C -> C
}.

(** A Python dict that is iterated: keys in insertion order. *)
Module PyDict.
Section Ops.
Context {V : Type}.

Fixpoint get (k : string) (d : list (string * V)) : option V :=
  match d with
  | [] => None
  | (k', v) :: rest => if String.eqb k k' then Some v else get k rest
  end.

(** [d[k] = v]: an existing key keeps its place. *)
Fixpoint set (k : string) (v : V) (d : list (string * V))
    : list (string * V) :=
  match d with
  | [] => [(k, v)]
  | (k', v') :: rest =>
      if String.eqb k k' then (k, v) :: rest else (k', v') :: set k v rest
  end.

(** [del d[k]]. *)
Fixpoint del (k : string) (d : list (string * V)) : list (string * V) :=
  match d with
  | [] => []
  | (k', v') :: rest =>
      if String.eqb k k' then rest else (k', v') :: del k rest
  end.

Definition values (d : list (string * V)) : list V := map snd d.
End Ops.
End PyDict.

Module InferenceEngine.

(** Classifier objects live in a store and the engine holds references
    to them. *)
Definition loc : Type := nat.

(** The method calls the engine makes on classifier objects. *)
Inductive call : Type :=
| CallReset (l : loc)
| CallClassify (l : loc).

Record t : Type := mk {
  classifiers : list (string * loc);
  active_classifier : option string;
  inference_times : list Q
}.

(** [InferenceEngine()]. *)
Definition init : t := mk [] None [].

Section WithClassifiers.
Context {C : Type} `{GestureClassifier C}.

(** The engine, the store of classifier objects, and the calls made so
    far. *)
Record world : Type := mkWorld {
  engine : t;
  heap : gmap loc C;
  calls : list call
}.

Definition register_classifier (l : loc) (w : world) : world :=
  match heap w !! l with
  | None => w
  | Some c =>
      let e := engine w in
      let cs := PyDict.set (name c) l (classifiers e) in
      (* Auto-activate if this is the first classifier *)
      let act := match active_classifier e with
                 | None => Some (name c)
                 | Some a => Some a
                 end in
      mkWorld (mk cs act (inference_times e)) (heap w) (calls w)
  end.

Definition unregister_classifier (n : string) (w : world) : bool * world :=
  let e := engine w in
  match PyDict.get n (classifiers e) with
  | Some _ =>
      let cs := PyDict.del n (classifiers e) in
      let act := match active_classifier e with
                 | Some a => if String.eqb a n then None else Some a
                 | None => None
                 end in
      (true, mkWorld (mk cs act (inference_times e)) (heap w) (calls w))
  | None => (false, w)
  end.

(** [self._classifiers[name].reset()] on the object behind [l]. *)
Definition call_reset (l : loc) (w : world) : world :=
  mkWorld (engine w) (alter reset l (heap w)) (calls w ++ [CallReset l]).

Definition set_active_classifier (n : string) (w : world) : bool * world :=
  let e := engine w in
  match PyDict.get n (classifiers e) with
  | None => (false, w)
  | Some l =>
      let w1 := mkWorld (mk (classifiers e) (Some n) (inference_times e))
                        (heap w) (calls w) in
      (* Reset the new classifier's state *)
      (true, call_reset l w1)
  end.

Definition get_classifier (n : string) (w : world) : option loc :=
  PyDict.get n (classifiers (engine w)).

(** The object [infer] hands the frame to: none when the active name
    is [None] or the empty string ([not self._active_classifier]), or
    when the dict has no such key. *)
Definition routed (e : t) : option loc :=
  match active_classifier e with
  | None => None
  | Some a => if String.eqb a "" then None else PyDict.get a (classifiers e)
  end.

(** [infer]: [elapsed] is the engine's own latency measurement. *)
Definition infer (clk : Clock) (elapsed : Q) (ex : ExtractionResult)
    (w : world) : (PyExn + option InferenceResult) * world :=
  match routed (engine w) with
  | None => (inr None, w)
  | Some l =>
      match heap w !! l with
      | None => (inr None, w)
      | Some c =>
          let '(r, c') := classify c clk ex in
          let h := <[l := c']> (heap w) in
          let log := calls w ++ [CallClassify l] in
          match r with
          | inl e => (inl (InferenceError e), mkWorld (engine w) h log)
          | inr res =>
              let e := engine w in
              let e' := mk (classifiers e) (active_classifier e)
                           (inference_times e ++ [elapsed]) in
              (* Update latency in result if not set *)
              let res' :=
                if PyFloat.eqb (inference_latency_ms res) 0 then
                  mkInference (gesture_type res) (confidence res)
                    (raw_output res) elapsed (finger_count res)
                    (finger_states res) (pinch_distance res)
                    (gesture_velocity res)
                else res in
              (inr (Some res'), mkWorld e' h log)
          end
      end
  end.

Definition reset_all (w : world) : world :=
  let w1 := foldl (fun acc l => call_reset l acc) w
                  (PyDict.values (classifiers (engine w))) in
  let e := engine w1 in
  mkWorld (mk (classifiers e) (active_classifier e) []) (heap w1) (calls w1).

(** The operations a client of the engine can issue. *)
Inductive op : Type :=
| Register (l : loc)
| Unregister (n : string)
| SetActive (n : string)
| Infer (clk : Clock) (elapsed : Q) (ex : ExtractionResult)
| ResetAll.

Definition step (o : op) (w : world) : world :=
  match o with
  | Register l => register_classifier l w
  | Unregister n => snd (unregister_classifier n w)
  | SetActive n => snd (set_active_classifier n w)
  | Infer clk el ex => snd (infer clk el ex w)
  | ResetAll => reset_all w
  end.

Definition run (ops : list op) (w : world) : world :=
  foldl (fun acc o => step o acc) w ops.

End WithClassifiers.

Arguments world C : clear implicits.

End InferenceEngine.

(** ** pipelines/orchestrator.py *)

Module PipelineOrchestrator.

Inductive OrchestratorState : Type :=
| IDLE | INITIALIZING | RUNNING | PAUSED | STOPPING | STOPPED | ERROR.

Record OrchestratorConfig : Type := mkConfig {
  target_fps : Z;
  max_consecutive_errors : Z;
  error_cooldown_seconds : Q;
  enable_profiling : bool
}.

Definition default_config : OrchestratorConfig :=
  mkConfig 30 10 1 false.

Record PipelineMetrics : Type := mkMetrics {
  total_latency_ms : Q;
  ingestion_latency_ms : Q;
  preprocessing_latency_ms : Q;
  extraction_latency_ms : Q;
  inference_latency_ms : Q;
  output_latency_ms : Q;
  frames_processed : Z;
  frames_dropped : Z;
  errors_count : Z;
  fps : Q
}.

(** [PipelineMetrics()]. *)
Definition fresh_metrics : PipelineMetrics :=
  mkMetrics 0 0 0 0 0 0 0 0 0 0.

(** The orchestrator, and the state of the capture source it drives
    ([self.ingestion.state]). *)
Record t : Type := mk {
  config : OrchestratorConfig;
  state : OrchestratorState;
  current_project : option string;
  running : bool;
  paused : bool;
  metrics : PipelineMetrics;
  consecutive_errors : Z;
  frame_times : list Q;
  ingestion : CameraIngestion.CaptureState
}.

(** [__init__]. *)
Definition init (cfg : OrchestratorConfig) : t :=
  mk cfg IDLE None false false fresh_metrics 0 [] CameraIngestion.IDLE.

Definition with_metrics (o : t) (m : PipelineMetrics) : t :=
  mk (config o) (state o) (current_project o) (running o) (paused o) m
     (consecutive_errors o) (frame_times o) (ingestion o).

Definition count_error (m : PipelineMetrics) : PipelineMetrics :=
  mkMetrics (total_latency_ms m) (ingestion_latency_ms m)
    (preprocessing_latency_ms m) (extraction_latency_ms m)
    (inference_latency_ms m) (output_latency_ms m) (frames_processed m)
    (frames_dropped m) (errors_count m + 1) (fps m).

(** [start]: [camera_ok] tells whether [ingestion.start()] returned
    [True] or raised (which leaves the capture source in its error
    state).  [_consecutive_errors] is not assigned. *)
Definition start (project : string) (camera_ok : bool) (o : t)
    : (PyExn + bool) * t :=
  match state o with
  | RUNNING => (inr true, o)
  | _ =>
      if camera_ok then
        (inr true,
         mk (config o) RUNNING (Some project) true false fresh_metrics
            (consecutive_errors o) (frame_times o) CameraIngestion.CAPTURING)
      else
        (inl (RuntimeError "Failed to open camera"),
         mk (config o) ERROR (Some project) (running o) (paused o)
            (metrics o) (consecutive_errors o) (frame_times o)
            CameraIngestion.ERROR)
  end.

(** [stop]: cancels the task, stops the capture source, cleans up the
    output. *)
Definition stop (o : t) : t :=
  match state o with
  | STOPPED => o
  | _ =>
      mk (config o) STOPPED None false (paused o) (metrics o)
         (consecutive_errors o) (frame_times o) CameraIngestion.STOPPED
  end.

Definition pause (o : t) : t :=
  match state o with
  | RUNNING =>
      mk (config o) PAUSED (current_project o) (running o) true (metrics o)
         (consecutive_errors o) (frame_times o) (ingestion o)
  | _ => o
  end.

Definition resume (o : t) : t :=
  match state o with
  | PAUSED =>
      mk (config o) RUNNING (current_project o) (running o) false (metrics o)
         (consecutive_errors o) (frame_times o) (ingestion o)
  | _ => o
  end.

(** What the four stages did with one frame: the latencies of the stages
    that returned, and the exception if one raised.  [inf] is the
    inference latency when [infer] returned a result, in which case the
    output stage ran. *)
Inductive stages : Type :=
| PreprocessingRaised (e : PyExn)
| ExtractionRaised (pre : Q) (e : PyExn)
| InferenceRaised (pre ext : Q) (e : PyExn)
| OutputRaised (pre ext inf : Q) (e : PyExn)
| Processed (pre ext : Q) (inf : option Q) (total : Q).

Definition set_latencies (m : PipelineMetrics) (pre ext inf : option Q)
    : PipelineMetrics :=
  mkMetrics (total_latency_ms m) (ingestion_latency_ms m)
    (default (preprocessing_latency_ms m) pre)
    (default (extraction_latency_ms m) ext)
    (default (inference_latency_ms m) inf)
    (output_latency_ms m) (frames_processed m) (frames_dropped m)
    (errors_count m) (fps m).

(** [_process_frame]: the metrics of the stages that ran are stored; an
    exception is counted and raised again. *)
Definition _process_frame (captured : CapturedFrame) (r : stages) (o : t)
    : (PyExn + unit) * t :=
  let m := metrics o in
  match r with
  | PreprocessingRaised e =>
      (inl e, with_metrics o (count_error m))
  | ExtractionRaised pre e =>
      (inl e, with_metrics o (count_error (set_latencies m (Some pre) None None)))
  | InferenceRaised pre ext e =>
      (inl e, with_metrics o
                (count_error (set_latencies m (Some pre) (Some ext) None)))
  | OutputRaised pre ext inf e =>
      (inl e, with_metrics o
                (count_error (set_latencies m (Some pre) (Some ext) (Some inf))))
  | Processed pre ext inf total =>
      let m1 := set_latencies m (Some pre) (Some ext) inf in
      (inr tt, with_metrics o
         (mkMetrics total (capture_latency_ms captured)
            (preprocessing_latency_ms m1) (extraction_latency_ms m1)
            (inference_latency_ms m1) (output_latency_ms m1)
            (frames_processed m1 + 1) (frames_dropped m1)
            (errors_count m1) (fps m1)))
  end.

(** [_handle_error]. *)
Definition _handle_error (o : t) : t :=
  let n := consecutive_errors o + 1 in
  let m := count_error (metrics o) in
  if max_consecutive_errors (config o) <=? n then
    mk (config o) ERROR (current_project o) false (paused o) m n
       (frame_times o) (ingestion o)
  else
    mk (config o) (state o) (current_project o) (running o) (paused o) m n
       (frame_times o) (ingestion o).

(** [_update_fps], with [now] the reading of [time.time()]. *)
Definition _update_fps (now : Q) (o : t) : t :=
  let times := filter (fun t => PyFloat.ltb (now - 1) t = true)
                      (frame_times o ++ [now]) in
  let m := metrics o in
  let m' :=
    if 2 <=? Z.of_nat (length times) then
      mkMetrics (total_latency_ms m) (ingestion_latency_ms m)
        (preprocessing_latency_ms m) (extraction_latency_ms m)
        (inference_latency_ms m) (output_latency_ms m) (frames_processed m)
        (frames_dropped m) (errors_count m)
        (inject_Z (Z.of_nat (length times)))
    else m in
  mk (config o) (state o) (current_project o) (running o) (paused o) m'
     (consecutive_errors o) times (ingestion o).

(** What one turn of the [while self._running] loop meets. *)
Inductive iteration : Type :=
| NoFrame
| GetFrameRaised (e : PyExn)
| Frame (captured : CapturedFrame) (r : stages) (now : Q)
| Cancelled.

(** The body of the loop; [false] in the second component is [break]. *)
Definition loop_body (i : iteration) (o : t) : t * bool :=
  match i with
  | Cancelled => (o, false)
  | _ =>
      if paused o then (o, true)
      else
        match i with
        | NoFrame | Cancelled => (o, true)
        | GetFrameRaised e => (_handle_error o, true)
        | Frame captured r now =>
            match _process_frame captured r o with
            | (inl e, o1) => (_handle_error o1, true)
            | (inr _, o1) =>
                let o2 := _update_fps now o1 in
                (* Reset error counter on successful frame *)
                (mk (config o2) (state o2) (current_project o2) (running o2)
                    (paused o2) (metrics o2) 0 (frame_times o2)
                    (ingestion o2), true)
            end
        end
  end.

(** The [while self._running] loop of [_processing_loop] on the turns
    the environment offers; the loop ends when [_running] is false, on
    [break], or (here) when the trace ends. *)
Fixpoint while_running (turns : list iteration) (o : t) : t :=
  match turns with
  | [] => o
  | i :: rest =>
      if running o then
        let '(o', continue) := loop_body i o in
        if continue then while_running rest o' else o'
      else o
  end.

(** [_processing_loop]: the frame interval [1.0 / target_fps] is computed
    before the loop is entered, outside its [try]; it only sets the time
    the loop sleeps after a frame. *)
Definition _processing_loop (turns : list iteration) (o : t) : PyExn + t :=
  match PyFloat.div 1 (inject_Z (target_fps (config o))) with
  | None => inl ZeroDivisionError
  | Some frame_interval => inr (while_running turns o)
  end.

End PipelineOrchestrator.

(** ** pipelines/output/dispatcher.py *)

Record OutputEvent : Type := mkEvent {
  event_type : string;
  project : string;
  event_timestamp : Q;
  data : gmap string PyVal
}.

Module EventDispatcher.

(** A listener is a Python callable; [list.remove] and the tables compare
    callables by identity, which is a number here. *)
Definition listener : Type := nat.

Record t : Type := mk {
  _listeners : gmap string (list listener);
  _async_listeners : gmap string (list listener);
  _global_listeners : list listener;
  _async_global_listeners : list listener
}.

(** [EventDispatcher()]. *)
Definition init : t := mk ∅ ∅ [] [].

(** *** Subscribing and the unsubscribe closures *)








Definition clear (d : t) : t := init.

(** *** Dispatch *)

(** What a dispatch leaves behind: the listeners whose body ran, in
    order, the errors written to the logger, and the tasks that
    [asyncio.gather] made of coroutines. *)
Inductive entry : Type :=
| Invoked (l : listener)
| LoggedError (e : PyExn)
| Scheduled (l : listener).

(** Code that appends to the trace and may raise. *)
Definition M (A : Type) : Type := list entry -> (PyExn + A) * list entry.

Definition ret {A} (a : A) : M A := fun tr => (inr a, tr).

Definition bind {A B} (m : M A) (k : A -> M B) : M B :=
  fun tr =>
    match m tr with
    | (inl e, tr') => (inl e, tr')
    | (inr a, tr') => k a tr'
    end.

Definition raise {A} (e : PyExn) : M A := fun tr => (inl e, tr).

(** [try: body except Exception as e: handler(e)]. *)
Definition try_except {A} (body : M A) (handler : PyExn -> M A) : M A :=
  fun tr =>
    match body tr with
    | (inl e, tr') => handler e tr'
    | (inr a, tr') => (inr a, tr')
    end.

Definition logger_error (e : PyExn) : M unit :=
  fun tr => (inr tt, tr ++ [LoggedError e]).

(** [for x in xs: body(x)]: an exception that leaves [body] ends the
    loop. *)
Fixpoint for_each {X} (xs : list X) (body : X -> M unit) : M unit :=
  match xs with
  | [] => ret tt
  | x :: rest => bind (body x) (fun _ => for_each rest body)
  end.

(** The coroutines that are awaited, each with its listener: awaiting
    the coroutine runs the body, which returns or raises. *)
Definition run (l : listener) (result : option PyExn) : M unit :=
  fun tr =>
    match result with
    | None => (inr tt, tr ++ [Invoked l])
    | Some e => (inl e, tr ++ [Invoked l])
    end.

(** The tasks of a gather run to their end (here in the order of the
    list), and with [return_exceptions=True] an exception becomes the
    task's result. *)
Fixpoint gather_return_exceptions (tasks : list (M unit))
    : M (list (PyExn + unit)) :=
  match tasks with
  | [] => ret []
  | task :: rest =>
      fun tr =>
        let '(r, tr1) := task tr in
        let '(rs, tr2) := gather_return_exceptions rest tr1 in
        match rs with
        | inl e => (inl e, tr2)
        | inr results => (inr (r :: results), tr2)
        end
  end.

(** What the call [listener(event)] gives back: a value that is no
    awaitable, or the coroutine of a listener. *)
Inductive value : Type :=
| NoAwaitable
| Coroutine (l : listener) (result : option PyExn).

(** [asyncio.gather] first makes a future of each argument, in order:
    a coroutine becomes a task, which the event loop will run, and a
    value that is no awaitable raises [TypeError]. *)
Fixpoint ensure_futures (args : list value)
    : M (list (listener * option PyExn)) :=
  match args with
  | [] => ret []
  | NoAwaitable :: _ => raise TypeError
  | Coroutine l result :: rest =>
      fun tr =>
        match ensure_futures rest (tr ++ [Scheduled l]) with
        | (inl e, tr') => (inl e, tr')
        | (inr tasks, tr') => (inr ((l, result) :: tasks), tr')
        end
  end.

(** [await asyncio.gather] of the tasks with [return_exceptions=True]. *)
Definition gather (args : list value) : M (list (PyExn + unit)) :=
  bind (ensure_futures args) (fun tasks =>
  gather_return_exceptions (map (fun t => run (fst t) (snd t)) tasks)).

Section Dispatch.

(** What the call [listener(event)] of each callable does.  A plain
    function runs its body, and returns a value that is no awaitable or
    raises; a coroutine function returns a coroutine, whose body runs
    when it is awaited and then returns or raises.  The tables do not
    tell them apart: any callable can be registered with any of the
    four [add_*] methods.  Listeners do not touch the dispatcher's
    tables. *)
Inductive outcome : Type :=
| Returns
| Raises (e : PyExn)
| ReturnsCoroutine (result : option PyExn).

Context (behaviour : listener -> OutputEvent -> outcome).

(** The call [listener(event)]. *)
Definition call (l : listener) (event : OutputEvent) : M value :=
  fun tr =>
    match behaviour l event with
    | Returns => (inr NoAwaitable, tr ++ [Invoked l])
    | Raises e => (inl e, tr ++ [Invoked l])
    | ReturnsCoroutine result => (inr (Coroutine l result), tr)
    end.

(** The call as a statement: what it returns is dropped. *)
Definition invoke (l : listener) (event : OutputEvent) : M unit :=
  bind (call l event) (fun _ => ret tt).

(** [tasks.append(listener(event))] for each listener, and the list
    comprehension of the global listeners: a call that raises ends the
    loop. *)
Fixpoint call_each (ls : list listener) (event : OutputEvent)
    : M (list value) :=
  match ls with
  | [] => ret []
  | l :: rest =>
      bind (call l event) (fun task =>
      bind (call_each rest event) (fun tasks => ret (task :: tasks)))
  end.

Definition dispatch (event : OutputEvent) (d : t) : M unit :=
  (* Call sync listeners for this event type *)
  bind (match _listeners d !! event_type event with
        | Some ls =>
            for_each ls (fun l =>
              try_except (invoke l event) logger_error)
        | None => ret tt
        end) (fun _ =>
  (* Call async listeners for this event type *)
  bind (match _async_listeners d !! event_type event with
        | Some ls =>
            bind (call_each ls event) (fun tasks =>
            match tasks with
            | [] => ret tt
            | _ => bind (gather tasks) (fun _ => ret tt)
            end)
        | None => ret tt
        end) (fun _ =>
  (* Call global listeners *)
  bind (for_each (_global_listeners d) (fun l =>
          try_except (invoke l event) logger_error)) (fun _ =>
  (* Call async global listeners *)
  match _async_global_listeners d with
  | [] => ret tt
  | ls =>
      bind (call_each ls event) (fun tasks =>
      bind (gather tasks) (fun _ => ret tt))
  end))).


(** The listeners whose body ran, read off a trace. *)
Definition invoked (tr : list entry) : list listener :=
  omap (fun e => match e with Invoked l => Some l | _ => None end) tr.

End Dispatch.

End EventDispatcher.

(** ** features/virtual_mouse/filters.py

    The filters on the ideal values: [alpha * value + (1 - alpha) * s]
    is computed exactly, where the program rounds each operation to
    binary64.  Module [Binary64] below has the same filters on floats. *)

Module LowPassFilter.

Record t : Type := mk {
  _alpha : Q;
  _y : option Q;
  _s : option Q
}.

(** [LowPassFilter()]. *)
Definition init : t := mk 1 None None.

(** [filter(value, alpha)]; every call in this package passes [alpha].
    [_y] and [_s] are assigned together, and [None * float] would be a
    [TypeError]. *)
Definition filter (value alpha : Q) (f : t) : (PyExn + Q) * t :=
  match _y f with
  | None => (inr value, mk alpha (Some value) (Some value))
  | Some _ =>
      match _s f with
      | None => (inl TypeError, mk alpha (_y f) (_s f))
      | Some s =>
          let s' := (alpha * value + (1 - alpha) * s)%Q in
          (inr s', mk alpha (Some value) (Some s'))
      end
  end.

Definition has_last_value (f : t) : bool :=
  match _y f with Some _ => true | None => false end.

Definition last_value (f : t) : option Q := _y f.

Definition reset (f : t) : t := mk (_alpha f) None None.

End LowPassFilter.

Module OneEuroFilter.

Record t : Type := mk {
  _freq : Q;
  _min_cutoff : Q;
  _beta : Q;
  _d_cutoff : Q;
  _x : LowPassFilter.t;
  _dx : LowPassFilter.t;
  _last_time : option Q
}.

(** [OneEuroFilter(freq, min_cutoff, beta, d_cutoff)]. *)
Definition init (freq min_cutoff beta d_cutoff : Q) : t :=
  mk freq min_cutoff beta d_cutoff LowPassFilter.init LowPassFilter.init None.

(** The static method [_alpha]:
    [tau = 1.0 / (2 * math.pi * cutoff)], [te = 1.0 / freq],
    [1.0 / (1.0 + tau / te)]. *)
Definition _alpha (cutoff freq : Q) : option Q :=
  tau ← PyFloat.div 1 (2 * PyFloat.pi * cutoff)%Q;
  te ← PyFloat.div 1 freq;
  ratio ← PyFloat.div tau te;
  PyFloat.div 1 (1 + ratio)%Q.

(** [timestamp or time.time()]: [None] and [0.0] are both false. *)
Definition timestamp_or (timestamp : option Q) (now : Q) : Q :=
  match timestamp with
  | None => now
  | Some ts => if PyFloat.eqb ts 0 then now else ts
  end.

(** [filter(x, timestamp)]; [now] is the reading of [time.time()] that
    is used when the timestamp is missing. *)
Definition filter (x : Q) (timestamp : option Q) (now : Q) (f : t)
    : (PyExn + Q) * t :=
  (* Update frequency based on timestamp *)
  let freq :=
    match timestamp, _last_time f with
    | Some ts, Some last =>
        let dt := (ts - last)%Q in
        if PyFloat.ltb 0 dt then (1 / dt)%Q else _freq f
    | _, _ => _freq f
    end in
  let last := Some (timestamp_or timestamp now) in
  (* Calculate derivative *)
  let prev_x := default x (LowPassFilter.last_value (_x f)) in
  let dx := ((x - prev_x) * freq)%Q in
  let f1 := mk freq (_min_cutoff f) (_beta f) (_d_cutoff f) (_x f) (_dx f)
               last in
  (* Filter derivative *)
  match _alpha (_d_cutoff f) freq with
  | None => (inl ZeroDivisionError, f1)
  | Some ed_alpha =>
      match LowPassFilter.filter dx ed_alpha (_dx f) with
      | (inl e, fdx) =>
          (inl e, mk freq (_min_cutoff f) (_beta f) (_d_cutoff f) (_x f)
                     fdx last)
      | (inr edx, fdx) =>
          let f2 := mk freq (_min_cutoff f) (_beta f) (_d_cutoff f) (_x f)
                       fdx last in
          (* Calculate cutoff *)
          let cutoff := (_min_cutoff f + _beta f * Qabs edx)%Q in
          (* Filter signal *)
          match _alpha cutoff freq with
          | None => (inl ZeroDivisionError, f2)
          | Some alpha =>
              let '(r, fx) := LowPassFilter.filter x alpha (_x f) in
              (r, mk freq (_min_cutoff f) (_beta f) (_d_cutoff f) fx fdx
                     last)
          end
      end
  end.

Definition reset (f : t) : t :=
  mk (_freq f) (_min_cutoff f) (_beta f) (_d_cutoff f)
     (LowPassFilter.reset (_x f)) (LowPassFilter.reset (_dx f)) None.

(** One sample of an input signal: the value, the timestamp argument and
    the clock. *)
Record sample : Type := mkSample {
  value : Q;
  stamp : option Q;
  clock : Q
}.

(** Feeding a signal sample by sample: the outputs, until the first
    exception if there is one. *)
Fixpoint feed (signal : list sample) (f : t) : list Q * (option PyExn * t) :=
  match signal with
  | [] => ([], (None, f))
  | smp :: rest =>
      match filter (value smp) (stamp smp) (clock smp) f with
      | (inl e, f') => ([], (Some e, f'))
      | (inr out, f') =>
          let '(outs, final) := feed rest f' in
          (out :: outs, final)
      end
  end.

End OneEuroFilter.

Module OneEuroFilter2D.

Record t : Type := mk {
  _filter_x : OneEuroFilter.t;
  _filter_y : OneEuroFilter.t
}.

Definition init (freq min_cutoff beta d_cutoff : Q) : t :=
  mk (OneEuroFilter.init freq min_cutoff beta d_cutoff)
     (OneEuroFilter.init freq min_cutoff beta d_cutoff).

Definition filter (x y : Q) (timestamp : option Q) (now : Q) (f : t)
    : (PyExn + Q * Q) * t :=
  match OneEuroFilter.filter x timestamp now (_filter_x f) with
  | (inl e, fx) => (inl e, mk fx (_filter_y f))
  | (inr x', fx) =>
      match OneEuroFilter.filter y timestamp now (_filter_y f) with
      | (inl e, fy) => (inl e, mk fx fy)
      | (inr y', fy) => (inr (x', y'), mk fx fy)
      end
  end.

Definition reset (f : t) : t :=
  mk (OneEuroFilter.reset (_filter_x f)) (OneEuroFilter.reset (_filter_y f)).

End OneEuroFilter2D.

(** ** features/virtual_mouse/filters.py in binary64

    The two filters once more, with the floats of the program: every
    operation rounds to the nearest binary64 value, as the interpreter's
    does.  The definitions above are these with exact arithmetic. *)

Module Binary64.

(** [a / b] on floats, which raises [ZeroDivisionError] when [b] is
    [0.0] or [-0.0]. *)
Definition div (a b : float) : option float :=
  if PrimFloat.eqb b 0 then None else Some (a / b)%float.

(** [math.pi]. *)
Definition pi : float := 0x1.921fb54442d18p+1%float.

Module LowPassFilter.

Record t : Type := mk {
  _alpha : float;
  _y : option float;
  _s : option float
}.

(** [LowPassFilter()]. *)
Definition init : t := mk 1 None None.

Definition filter (value alpha : float) (f : t) : (PyExn + float) * t :=
  match _y f with
  | None => (inr value, mk alpha (Some value) (Some value))
  | Some _ =>
      match _s f with
      | None => (inl TypeError, mk alpha (_y f) (_s f))
      | Some s =>
          let s' := (alpha * value + (1 - alpha) * s)%float in
          (inr s', mk alpha (Some value) (Some s'))
      end
  end.

Definition last_value (f : t) : option float := _y f.

End LowPassFilter.

Module OneEuroFilter.

Record t : Type := mk {
  _freq : float;
  _min_cutoff : float;
  _beta : float;
  _d_cutoff : float;
  _x : LowPassFilter.t;
  _dx : LowPassFilter.t;
  _last_time : option float
}.

(** [OneEuroFilter(freq, min_cutoff, beta, d_cutoff)]. *)
Definition init (freq min_cutoff beta d_cutoff : float) : t :=
  mk freq min_cutoff beta d_cutoff LowPassFilter.init LowPassFilter.init None.

Definition _alpha (cutoff freq : float) : option float :=
  tau ← div 1 (2 * pi * cutoff)%float;
  te ← div 1 freq;
  ratio ← div tau te;
  div 1 (1 + ratio)%float.

(** [timestamp or time.time()]: [None], [0.0] and [-0.0] are false. *)
Definition timestamp_or (timestamp : option float) (now : float) : float :=
  match timestamp with
  | None => now
  | Some ts => if PrimFloat.eqb ts 0 then now else ts
  end.

Definition filter (x : float) (timestamp : option float) (now : float)
    (f : t) : (PyExn + float) * t :=
  (* Update frequency based on timestamp *)
  let freq :=
    match timestamp, _last_time f with
    | Some ts, Some last =>
        let dt := (ts - last)%float in
        if PrimFloat.ltb 0 dt then (1 / dt)%float else _freq f
    | _, _ => _freq f
    end in
  let last := Some (timestamp_or timestamp now) in
  (* Calculate derivative *)
  let prev_x := default x (LowPassFilter.last_value (_x f)) in
  let dx := ((x - prev_x) * freq)%float in
  let f1 := mk freq (_min_cutoff f) (_beta f) (_d_cutoff f) (_x f) (_dx f)
               last in
  (* Filter derivative *)
  match _alpha (_d_cutoff f) freq with
  | None => (inl ZeroDivisionError, f1)
  | Some ed_alpha =>
      match LowPassFilter.filter dx ed_alpha (_dx f) with
      | (inl e, fdx) =>
          (inl e, mk freq (_min_cutoff f) (_beta f) (_d_cutoff f) (_x f)
                     fdx last)
      | (inr edx, fdx) =>
          let f2 := mk freq (_min_cutoff f) (_beta f) (_d_cutoff f) (_x f)
                       fdx last in
          (* Calculate cutoff *)
          let cutoff := (_min_cutoff f + _beta f * PrimFloat.abs edx)%float in
          (* Filter signal *)
          match _alpha cutoff freq with
          | None => (inl ZeroDivisionError, f2)
          | Some alpha =>
              let '(r, fx) := LowPassFilter.filter x alpha (_x f) in
              (r, mk freq (_min_cutoff f) (_beta f) (_d_cutoff f) fx fdx
                     last)
          end
      end
  end.

(** One sample of an input signal: the value, the timestamp argument and
    the clock. *)
Record sample : Type := mkSample {
  value : float;
  stamp : option float;
  clock : float
}.

(** Feeding a signal sample by sample: the outputs, until the first
    exception if there is one. *)
Fixpoint feed (signal : list sample) (f : t)
    : list float * (option PyExn * t) :=
  match signal with
  | [] => ([], (None, f))
  | smp :: rest =>
      match filter (value smp) (stamp smp) (clock smp) f with
      | (inl e, f') => ([], (Some e, f'))
      | (inr out, f') =>
          let '(outs, final) := feed rest f' in
          (out :: outs, final)
      end
  end.

End OneEuroFilter.

End Binary64.


(** ** Landmark access shared by the classifiers *)

(** [landmarks[i]]; every use is behind a [len(landmarks) < 21] guard. *)
Definition landmark_at (ls : list Landmark) (i : nat) : Landmark :=
  nth i ls (mkLandmark 0 0 0 0 0 1).

(** The Euclidean distance of two landmarks in normalized coordinates. *)
Definition landmark_distance (a b : Landmark) : Q :=
  PyFloat.sqrt ((lm_x a - lm_x b) * (lm_x a - lm_x b)
                + (lm_y a - lm_y b) * (lm_y a - lm_y b))%Q.

(** The hand selection both feature classifiers use
    ([_get_preferred_hand], [_get_tracking_hand]). *)
Definition select_hand (preferred : string) (ex : ExtractionResult)
    : option HandLandmarks :=
  match hands ex with
  | [] => None
  | first :: _ =>
      if String.eqb preferred "Any" then Some first
      else
        match List.find (fun h => String.eqb (label_value (hand_label h)) preferred)
                        (hands ex) with
        | Some h => Some h
        | None => Some first
        end
  end.

(** ** features/volume_control *)

Module VolumeControlClassifier.

Record VolumeControlConfig : Type := mkConfig {
  min_confidence : Q;
  pinch_threshold_min : Q;
  pinch_threshold_max : Q;
  volume_min : Q;
  volume_max : Q;
  smoothing_factor : Q;
  smoothing_enabled : bool;
  action_cooldown_ms : Z;
  mute_enabled : bool;
  mute_hold_duration_ms : Z;
  preferred_hand : string;
  show_volume_level : bool;
  show_pinch_distance : bool
}.

Definition default_config : VolumeControlConfig :=
  mkConfig (75 # 100) (3 # 100) (15 # 100) 0 1 (3 # 10) true 100 true 1000
           "Right" true false.

Record PinchState : Type := mkPinchState {
  distance : Q;
  is_pinched : bool;
  mapped_volume : Q;
  pinch_hand_label : string
}.

Record t : Type := mk {
  config : VolumeControlConfig;
  _current_volume : Q;
  _fist_start_time : option Q;
  _is_muted : bool;
  _last_pinch_distance : Q
}.

(** [VolumeControlClassifier(config)]. *)
Definition init (cfg : VolumeControlConfig) : t :=
  mk cfg (1 # 2) None false 0.

Definition THUMB_TIP : nat := 4.
Definition INDEX_TIP : nat := 8.

(** The keyword arguments of [_create_result]. *)
Record kwargs : Type := mkKwargs {
  kw_pinch_distance : option Q;
  kw_volume_level : option Q;
  kw_is_muted : option bool;
  kw_mute_toggled : option bool;
  kw_fist_hold_progress : option Q
}.

Definition no_kwargs : kwargs := mkKwargs None None None None None.

Definition insert_opt (k : string) (v : option PyVal)
    (m : gmap string PyVal) : gmap string PyVal :=
  match v with
  | Some x => <[k := x]> m
  | None => m
  end.

Definition _create_result (c : t) (elapsed : Q) (gesture : GestureType)
    (conf : Q) (kw : kwargs) : InferenceResult :=
  let volume := default (_current_volume c) (kw_volume_level kw) in
  let raw : gmap string PyVal :=
    insert_opt "fist_hold_progress" (VFloat <$> kw_fist_hold_progress kw)
      (insert_opt "mute_toggled" (VBool <$> kw_mute_toggled kw)
         (<["pinch_distance" :=
              VFloat (default (_last_pinch_distance c) (kw_pinch_distance kw))]>
            (<["is_muted" := VBool (default (_is_muted c) (kw_is_muted kw))]>
               (<["volume_percent" := VInt (PyFloat.int (volume * 100))]>
                  (<["volume_level" := VFloat volume]> ∅))))) in
  mkInference gesture conf raw elapsed None None (kw_pinch_distance kw) None.

Definition _get_preferred_hand (c : t) (ex : ExtractionResult)
    : option HandLandmarks :=
  select_hand (preferred_hand (config c)) ex.

(** [_calculate_pinch_state]; dividing by an empty threshold range
    raises.  The mapped volume is the ideal value; the program's float
    is [VolumeControlBinary64.mapped_volume]. *)
Definition _calculate_pinch_state (c : t) (dist : Q) (hand : HandLandmarks)
    : option PinchState :=
  let cfg := config c in
  (* Clamp distance to range *)
  let clamped := PyFloat.max (pinch_threshold_min cfg)
                   (PyFloat.min dist (pinch_threshold_max cfg)) in
  let range_size := (pinch_threshold_max cfg - pinch_threshold_min cfg)%Q in
  normalized ← PyFloat.div (clamped - pinch_threshold_min cfg)%Q range_size;
  (* Map to volume range *)
  let volume_range := (volume_max cfg - volume_min cfg)%Q in
  let mapped := (volume_min cfg + normalized * volume_range)%Q in
  Some (mkPinchState dist (PyFloat.ltb dist (pinch_threshold_min cfg)) mapped
          (label_value (hand_label hand))).

(** [_check_fist]: no non-thumb fingertip is above its PIP joint. *)
Definition _check_fist (ls : list Landmark) : bool :=
  forallb (fun '(tip, pip) =>
             negb (PyFloat.ltb (lm_y (landmark_at ls tip))
                               (lm_y (landmark_at ls pip))))
          [(8, 6); (12, 10); (16, 14); (20, 18)]%nat.

(** [_handle_fist], with [now] the reading of [time.time()]. *)
Definition _handle_fist (c : t) (now elapsed conf : Q)
    : (PyExn + InferenceResult) * t :=
  let started := default now (_fist_start_time c) in
  let c1 := mk (config c) (_current_volume c) (Some started) (_is_muted c)
               (_last_pinch_distance c) in
  (* Check if held long enough *)
  let hold_duration := ((now - started) * 1000)%Q in
  let hold_ms := inject_Z (mute_hold_duration_ms (config c)) in
  if PyFloat.leb hold_ms hold_duration then
    (* Toggle mute *)
    let c2 := mk (config c) (_current_volume c) None (negb (_is_muted c))
                 (_last_pinch_distance c) in
    (inr (_create_result c2 elapsed FIST conf
            (mkKwargs None (Some (_current_volume c2)) (Some (_is_muted c2))
                      (Some true) None)), c2)
  else
    match PyFloat.div hold_duration hold_ms with
    | None => (inl ZeroDivisionError, c1)
    | Some progress =>
        (inr (_create_result c1 elapsed FIST conf
                (mkKwargs None (Some (_current_volume c1))
                          (Some (_is_muted c1)) None (Some progress))), c1)
    end.

(** [_smooth_volume], on the ideal values; the program's float is
    [VolumeControlBinary64._smooth_volume]. *)
Definition _smooth_volume (c : t) (target : Q) : Q :=
  let alpha := smoothing_factor (config c) in
  (alpha * target + (1 - alpha) * _current_volume c)%Q.

Definition classify (c : t) (clk : Clock) (ex : ExtractionResult)
    : (PyExn + InferenceResult) * t :=
  let elapsed := perf_elapsed_ms clk in
  match _get_preferred_hand c ex with
  | None => (inr (_create_result c elapsed NONE 0 no_kwargs), c)
  | Some hand =>
      let ls := landmarks hand in
      if (length ls <? 21)%nat then
        (inr (_create_result c elapsed NONE 0 no_kwargs), c)
      else
        let dist := landmark_distance (landmark_at ls THUMB_TIP)
                                      (landmark_at ls INDEX_TIP) in
        let c1 := mk (config c) (_current_volume c) (_fist_start_time c)
                     (_is_muted c) dist in
        (* Check for fist gesture (mute) *)
        if mute_enabled (config c) && _check_fist ls then
          _handle_fist c1 (time_time clk) elapsed (hand_confidence hand)
        else
          (* Map pinch distance to volume *)
          match _calculate_pinch_state c1 dist hand with
          | None => (inl ZeroDivisionError, c1)
          | Some pinch_state =>
              (* Apply smoothing *)
              let volume :=
                if smoothing_enabled (config c)
                then _smooth_volume c1 (mapped_volume pinch_state)
                else mapped_volume pinch_state in
              let c2 := mk (config c) volume (_fist_start_time c)
                           (_is_muted c) dist in
              let gesture := if is_pinched pinch_state then PINCH else NONE in
              (inr (_create_result c2 elapsed gesture (hand_confidence hand)
                      (mkKwargs (Some dist) (Some volume)
                                (Some (_is_muted c2)) None None)), c2)
          end
  end.

Definition reset (c : t) : t :=
  mk (config c) (1 # 2) None false (_last_pinch_distance c).

#[global] Instance classifier : GestureClassifier t :=
  Build_GestureClassifier t (fun _ => "volume_control")
    (fun _ => [PINCH; FIST]) classify reset.

(** The flags a client reads from [raw_output]. *)
Definition mute_toggled (r : InferenceResult) : bool :=
  match raw_output r !! "mute_toggled" with
  | Some (VBool b) => b
  | _ => false
  end.

Definition volume_level (r : InferenceResult) : option Q :=
  match raw_output r !! "volume_level" with
  | Some (VFloat v) => Some v
  | _ => None
  end.

End VolumeControlClassifier.

(** ** features/volume_control/classifier.py in binary64

    The arithmetic of [_calculate_pinch_state] and [_smooth_volume]
    once more, with the floats of the program.  The definitions of
    [VolumeControlClassifier] are these with exact arithmetic. *)

Module VolumeControlBinary64.

Record VolumeControlConfig : Type := mkConfig {
  pinch_threshold_min : float;
  pinch_threshold_max : float;
  volume_min : float;
  volume_max : float;
  smoothing_factor : float
}.

(** [max(a, b)] and [min(a, b)]. *)
Definition max (a b : float) : float := if PrimFloat.ltb a b then b else a.
Definition min (a b : float) : float := if PrimFloat.ltb b a then b else a.

(** The [mapped_volume] of [_calculate_pinch_state]. *)
Definition mapped_volume (cfg : VolumeControlConfig) (distance : float)
    : option float :=
  (* Clamp distance to range *)
  let clamped := max (pinch_threshold_min cfg)
                     (min distance (pinch_threshold_max cfg)) in
  let range_size := (pinch_threshold_max cfg - pinch_threshold_min cfg)%float in
  normalized ← Binary64.div (clamped - pinch_threshold_min cfg)%float range_size;
  (* Map to volume range *)
  let volume_range := (volume_max cfg - volume_min cfg)%float in
  Some (volume_min cfg + normalized * volume_range)%float.

Definition _smooth_volume (cfg : VolumeControlConfig) (current target : float)
    : float :=
  let alpha := smoothing_factor cfg in
  (alpha * target + (1 - alpha) * current)%float.

(** The volume after [n] frames of a hand at the same pinch distance,
    with smoothing enabled. *)
Fixpoint smoothed (n : nat) (cfg : VolumeControlConfig) (distance : float)
    (current : float) : option float :=
  match n with
  | O => Some current
  | S k =>
      target ← mapped_volume cfg distance;
      smoothed k cfg distance (_smooth_volume cfg current target)
  end.

End VolumeControlBinary64.

(** ** features/virtual_mouse *)

Module VirtualMouseClassifier.

Inductive MouseState : Type := IDLE | MOVING | CLICKING | DRAGGING.

Definition state_value (s : MouseState) : string :=
  match s with
  | IDLE => "idle" | MOVING => "moving"
  | CLICKING => "clicking" | DRAGGING => "dragging"
  end.

Record CursorCommand : Type := mkCommand {
  cmd_x : Z;
  cmd_y : Z;
  cmd_state : MouseState;
  click : bool;
  drag : bool;
  release : bool
}.

Record VirtualMouseConfig : Type := mkConfig {
  min_confidence : Q;
  screen_width : option Z;
  screen_height : option Z;
  screen_margin : Z;
  gesture_zone_x : Q * Q;
  gesture_zone_y : Q * Q;
  smoothing_enabled : bool;
  smoothing_min_cutoff : Q;
  smoothing_beta : Q;
  smoothing_d_cutoff : Q;
  click_threshold : Q;
  click_hold_duration_ms : Z;
  double_click_interval_ms : Z;
  drag_start_delay_ms : Z;
  preferred_hand : string;
  use_index_finger : bool;
  use_palm_for_stabilization : bool;
  movement_speed_limit : Q;
  require_pointing_gesture : bool
}.

Definition default_config : VirtualMouseConfig :=
  mkConfig (8 # 10) None None 50 (2 # 10, 8 # 10) (1 # 10, 9 # 10) true
           1 (7 # 1000) 1 (35 # 1000) 100 400 200 "Right" true false 2000
           true.

Record t : Type := mk {
  config : VirtualMouseConfig;
  _screen_width : Z;
  _screen_height : Z;
  _filter : OneEuroFilter2D.t;
  _state : MouseState;
  _click_start_time : option Q;
  _last_click_time : Q;
  _is_dragging : bool;
  _last_position : Z * Z
}.

(** [x or d] on an optional int: [None] and [0] are false. *)
Definition int_or (x : option Z) (d : Z) : Z :=
  match x with
  | Some n => if n =? 0 then d else n
  | None => d
  end.

(** [VirtualMouseClassifier(config)]; [pyautogui_size] is what
    [pyautogui.size()] returned, if the import and the call succeeded. *)
Definition init (cfg : VirtualMouseConfig) (pyautogui_size : option (Z * Z))
    : t :=
  let '(w, h) :=
    default (int_or (screen_width cfg) 1920, int_or (screen_height cfg) 1080)
            pyautogui_size in
  mk cfg w h
     (OneEuroFilter2D.init 30 (smoothing_min_cutoff cfg) (smoothing_beta cfg)
                           (smoothing_d_cutoff cfg))
     IDLE None 0 false (0, 0).

Definition INDEX_TIP : nat := 8.
Definition THUMB_TIP : nat := 4.

Definition with_state (c : t) (s : MouseState) : t :=
  mk (config c) (_screen_width c) (_screen_height c) (_filter c) s
     (_click_start_time c) (_last_click_time c) (_is_dragging c)
     (_last_position c).

(** The keyword arguments of [_create_result]. *)
Record kwargs : Type := mkKwargs {
  kw_cursor_x : option Z;
  kw_cursor_y : option Z;
  kw_click : option bool;
  kw_drag : option bool;
  kw_release : option bool;
  kw_pinch_distance : option Q
}.

Definition no_kwargs : kwargs := mkKwargs None None None None None None.

Definition _create_result (c : t) (elapsed : Q) (gesture : GestureType)
    (conf : Q) (kw : kwargs) : InferenceResult :=
  let raw : gmap string PyVal :=
    VolumeControlClassifier.insert_opt "pinch_distance"
      (VFloat <$> kw_pinch_distance kw)
      (<["screen_height" := VInt (_screen_height c)]>
      (<["screen_width" := VInt (_screen_width c)]>
      (<["release" := VBool (default false (kw_release kw))]>
      (<["drag" := VBool (default false (kw_drag kw))]>
      (<["click" := VBool (default false (kw_click kw))]>
      (<["state" := VStr (state_value (_state c))]>
      (<["cursor_y" := VInt (default (snd (_last_position c)) (kw_cursor_y kw))]>
      (<["cursor_x" := VInt (default (fst (_last_position c)) (kw_cursor_x kw))]>
         ∅)))))))) in
  mkInference gesture conf raw elapsed None None (kw_pinch_distance kw) None.

Definition _get_tracking_hand (c : t) (ex : ExtractionResult)
    : option HandLandmarks :=
  select_hand (preferred_hand (config c)) ex.

(** [_check_pointing]: index finger up, the other three down. *)
Definition _check_pointing (ls : list Landmark) : bool :=
  let y i := lm_y (landmark_at ls i) in
  PyFloat.ltb (y 8%nat) (y 6%nat)
  && PyFloat.ltb (y 10%nat) (y 12%nat)
  && PyFloat.ltb (y 14%nat) (y 16%nat)
  && PyFloat.ltb (y 18%nat) (y 20%nat).

(** [_map_to_screen]; a gesture zone of width zero raises on the
    division. *)
Definition _map_to_screen (c : t) (norm_x norm_y : Q) : option (Q * Q) :=
  let zone_x := gesture_zone_x (config c) in
  let zone_y := gesture_zone_y (config c) in
  (* Clamp to zone *)
  let x := PyFloat.max (fst zone_x) (PyFloat.min norm_x (snd zone_x)) in
  let y := PyFloat.max (fst zone_y) (PyFloat.min norm_y (snd zone_y)) in
  (* Normalize within zone *)
  x' ← PyFloat.div (x - fst zone_x)%Q (snd zone_x - fst zone_x)%Q;
  y' ← PyFloat.div (y - fst zone_y)%Q (snd zone_y - fst zone_y)%Q;
  (* Map to screen (with margin) *)
  let margin := screen_margin (config c) in
  Some ((inject_Z margin + x' * inject_Z (_screen_width c - 2 * margin))%Q,
        (inject_Z margin + y' * inject_Z (_screen_height c - 2 * margin))%Q).

(** [_update_state]. *)
Definition _update_state (c : t) (is_pinched : bool) (x y : Z)
    (current_time : Q) : CursorCommand * t :=
  let delay := inject_Z (drag_start_delay_ms (config c)) in
  if is_pinched then
    let started := default current_time (_click_start_time c) in
    let hold_duration := ((current_time - started) * 1000)%Q in
    if PyFloat.leb delay hold_duration && negb (_is_dragging c) then
      (* Start drag *)
      (mkCommand x y DRAGGING false true false,
       mk (config c) (_screen_width c) (_screen_height c) (_filter c)
          DRAGGING (Some started) (_last_click_time c) true
          (_last_position c))
    else
      let c1 := mk (config c) (_screen_width c) (_screen_height c)
                   (_filter c) (_state c) (Some started)
                   (_last_click_time c) (_is_dragging c)
                   (_last_position c) in
      if _is_dragging c then
        (mkCommand x y DRAGGING false true false, c1)
      else
        (mkCommand x y (_state c) false false false, c1)
  else
    match _click_start_time c with
    | Some started =>
        let hold_duration := ((current_time - started) * 1000)%Q in
        if _is_dragging c then
          (* End drag *)
          (mkCommand x y MOVING false false true,
           mk (config c) (_screen_width c) (_screen_height c) (_filter c)
              MOVING None (_last_click_time c) false (_last_position c))
        else if PyFloat.ltb hold_duration delay then
          (* Register click *)
          (mkCommand x y MOVING true false false,
           mk (config c) (_screen_width c) (_screen_height c) (_filter c)
              MOVING None current_time false (_last_position c))
        else
          (mkCommand x y MOVING false false false,
           mk (config c) (_screen_width c) (_screen_height c) (_filter c)
              MOVING None (_last_click_time c) false (_last_position c))
    | None =>
        (mkCommand x y MOVING false false false, with_state c MOVING)
    end.

Definition classify (c : t) (clk : Clock) (ex : ExtractionResult)
    : (PyExn + InferenceResult) * t :=
  let elapsed := perf_elapsed_ms clk in
  let current_time := time_time clk in
  let lost :=
    let c' := with_state c IDLE in
    (inr (_create_result c' elapsed NONE 0 no_kwargs), c') in
  match _get_tracking_hand c ex with
  | None => lost
  | Some hand =>
      let ls := landmarks hand in
      if (length ls <? 21)%nat then lost
      else
        (* Get tracking point (index finger tip) *)
        let tracking_point := landmark_at ls INDEX_TIP in
        let is_pointing := _check_pointing ls in
        if require_pointing_gesture (config c) && negb is_pointing then lost
        else
          match _map_to_screen c (lm_x tracking_point) (lm_y tracking_point) with
          | None => (inl ZeroDivisionError, c)
          | Some (sx, sy) =>
              (* Apply smoothing *)
              let '(smoothed, flt) :=
                if smoothing_enabled (config c)
                then OneEuroFilter2D.filter sx sy (Some current_time)
                       current_time (_filter c)
                else (inr (sx, sy), _filter c) in
              let c1 := mk (config c) (_screen_width c) (_screen_height c)
                           flt (_state c) (_click_start_time c)
                           (_last_click_time c) (_is_dragging c)
                           (_last_position c) in
              match smoothed with
              | inl e => (inl e, c1)
              | inr (fx, fy) =>
                  let screen_x := PyFloat.int fx in
                  let screen_y := PyFloat.int fy in
                  let c2 := mk (config c) (_screen_width c)
                               (_screen_height c) flt (_state c)
                               (_click_start_time c) (_last_click_time c)
                               (_is_dragging c) (screen_x, screen_y) in
                  (* Check for pinch (click) *)
                  let pinch := landmark_distance (landmark_at ls THUMB_TIP)
                                                 (landmark_at ls INDEX_TIP) in
                  let is_pinched :=
                    PyFloat.ltb pinch (click_threshold (config c)) in
                  (* Update state *)
                  let '(command, c3) :=
                    _update_state c2 is_pinched screen_x screen_y
                                  current_time in
                  let gesture :=
                    if drag command then PINCH
                    else if click command then PINCH
                    else if is_pointing then POINTING
                    else NONE in
                  (inr (_create_result c3 elapsed gesture
                          (hand_confidence hand)
                          (mkKwargs (Some screen_x) (Some screen_y)
                                    (Some (click command))
                                    (Some (drag command))
                                    (Some (release command))
                                    (Some pinch))), c3)
              end
          end
  end.

Definition reset (c : t) : t :=
  mk (config c) (_screen_width c) (_screen_height c)
     (OneEuroFilter2D.reset (_filter c)) IDLE None (_last_click_time c)
     false (_last_position c).

#[global] Instance classifier : GestureClassifier t :=
  Build_GestureClassifier t (fun _ => "virtual_mouse")
    (fun _ => [POINTING; PINCH]) classify reset.

(** The flags a client reads from [raw_output]. *)
Definition flag (k : string) (r : InferenceResult) : bool :=
  match raw_output r !! k with
  | Some (VBool b) => b
  | _ => false
  end.

End VirtualMouseClassifier.

(** ** pipelines/inference/classifiers/finger_count.py *)

Module FingerCountClassifier.

Record FingerCountConfig : Type := mkConfig {
  finger_up_threshold : Q;
  enable_thumb : bool;
  smoothing_frames : Z
}.

Definition default_config : FingerCountConfig := mkConfig (5 # 100) true 3.

Record t : Type := mk {
  config : FingerCountConfig;
  _history : list Z
}.

Definition init (cfg : FingerCountConfig) : t := mk cfg [].

Definition _get_finger_states (c : t) (hand : HandLandmarks) : FingerStates :=
  let ls := landmarks hand in
  if (length ls <? 21)%nat then FingerStates_default
  else
    let is_right_hand :=
      match hand_label hand with RIGHT => true | LEFT => false end in
    let x i := lm_x (landmark_at ls i) in
    let y i := lm_y (landmark_at ls i) in
    let thumb_up :=
      if enable_thumb (config c) then
        if is_right_hand then PyFloat.ltb (x 4%nat) (x 3%nat)
        else PyFloat.ltb (x 3%nat) (x 4%nat)
      else false in
    mkFingerStates thumb_up
      (PyFloat.ltb (y 8%nat) (y 6%nat))
      (PyFloat.ltb (y 12%nat) (y 10%nat))
      (PyFloat.ltb (y 16%nat) (y 14%nat))
      (PyFloat.ltb (y 20%nat) (y 18%nat)).

Definition _get_combined_states (c : t) (hs : list HandLandmarks)
    : option FingerStates :=
  match hs with
  | [] => None
  | _ =>
      Some (foldl (fun combined hand =>
                     let s := _get_finger_states c hand in
                     mkFingerStates (thumb combined || thumb s)
                       (index combined || index s)
                       (middle combined || middle s)
                       (ring combined || ring s)
                       (pinky combined || pinky s))
                  FingerStates_default hs)
  end.

(** [max(set(history), key=history.count)]: the most common value, and
    among equally common ones the first that the set yields, which for
    the small counts at hand is the smallest. [None] is the
    [ValueError] of an empty history. *)
Definition occurrences (h : list Z) (v : Z) : nat :=
  length (List.filter (Z.eqb v) h).

Definition mode (h : list Z) : option Z :=
  match h with
  | [] => None
  | first :: rest =>
      Some (foldl (fun best v =>
                     if (occurrences h best <? occurrences h v)%nat then v
                     else if (occurrences h best =? occurrences h v)%nat
                             && (v <? best) then v
                     else best)
                  first rest)
  end.

Definition _smooth_count (c : t) (count : Z) : (PyExn + Z) * t :=
  let h1 := _history c ++ [count] in
  (* Keep only recent history *)
  let h2 := if smoothing_frames (config c) <? Z.of_nat (length h1)
            then tl h1 else h1 in
  let c' := mk (config c) h2 in
  if smoothing_frames (config c) <=? Z.of_nat (length h2) then
    match mode h2 with
    | Some m => (inr m, c')
    | None => (inl ValueError, c')
    end
  else (inr count, c').

Definition _detect_pose (c : t) (hs : list HandLandmarks) : GestureType :=
  match hs with
  | [] => NONE
  | first :: _ =>
      let s := _get_finger_states c first in
      if negb (thumb s || index s || middle s || ring s || pinky s) then FIST
      else if thumb s && index s && middle s && ring s && pinky s
      then OPEN_PALM
      else if index s && middle s && negb (ring s) && negb (pinky s)
              && negb (thumb s) then PEACE
      else if thumb s && negb (index s) && negb (middle s) && negb (ring s)
              && negb (pinky s) then THUMBS_UP
      else if index s && negb (middle s) && negb (ring s) && negb (pinky s)
      then POINTING
      else NONE
  end.

Definition states_dict (s : FingerStates) : PyVal :=
  VDict [("thumb", VBool (thumb s)); ("index", VBool (index s));
         ("middle", VBool (middle s)); ("ring", VBool (ring s));
         ("pinky", VBool (pinky s))].

Definition classify (c : t) (clk : Clock) (ex : ExtractionResult)
    : (PyExn + InferenceResult) * t :=
  let per_hand :=
    map (fun hand =>
           let s := _get_finger_states c hand in
           (fs_count s,
            VDict [("label", VStr (label_value (hand_label hand)));
                   ("finger_count", VInt (fs_count s));
                   ("finger_states", states_dict s);
                   ("confidence", VFloat (hand_confidence hand))]))
        (hands ex) in
  let total_fingers := foldl Z.add 0 (map fst per_hand) in
  let hands_data := map snd per_hand in
  (* Apply temporal smoothing *)
  match _smooth_count c total_fingers with
  | (inl e, c') => (inl e, c')
  | (inr smoothed_total, c') =>
      (* Detect pose based on finger states *)
      let detected_pose := _detect_pose c (hands ex) in
      (* Determine primary gesture type *)
      let gesture :=
        match detected_pose with
        | NONE => FINGER_COUNT
        | pose => pose
        end in
      let raw : gmap string PyVal :=
        <["hands_detected" := VInt (Z.of_nat (length (hands ex)))]>
        (<["detected_pose" := VStr (gesture_value detected_pose)]>
        (<["raw_total" := VInt total_fingers]>
        (<["total_fingers" := VInt smoothed_total]>
        (<["hands" := VList hands_data]> ∅)))) in
      (inr (mkInference gesture (model_confidence ex) raw
              (perf_elapsed_ms clk) (Some smoothed_total)
              (_get_combined_states c (hands ex)) None None), c')
  end.

Definition reset (c : t) : t := mk (config c) [].

#[global] Instance classifier : GestureClassifier t :=
  Build_GestureClassifier t (fun _ => "finger_count")
    (fun _ => [FINGER_COUNT; FIST; OPEN_PALM; PEACE; THUMBS_UP; THUMBS_DOWN;
               POINTING; OK_SIGN])
    classify reset.

End FingerCountClassifier.

(** ** features/finger_count *)

(** [round(x)]: to the nearest integer, halves to the even one. *)
Definition py_round (x : Q) : Z :=
  let fl := Qfloor x in
  let frac := (x - inject_Z fl)%Q in
  if PyFloat.ltb frac (1 # 2) then fl
  else if PyFloat.ltb (1 # 2) frac then fl + 1
  else if Z.even fl then fl else fl + 1.

Module FeatureFingerCountClassifier.

Record FingerCountConfig : Type := mkConfig {
  min_confidence : Q;
  smoothing_frames : Z;
  smoothing_enabled : bool;
  thumb_detection_enabled : bool;
  thumb_angle_threshold : Q;
  pose_detection_enabled : bool;
  pose_min_confidence : Q;
  display_mode : string;
  show_finger_states : bool;
  show_landmarks : bool;
  max_hands : Z;
  skip_empty_frames : bool;
  enabled_poses : list string
}.

Definition default_config : FingerCountConfig :=
  mkConfig (7 # 10) 3 true true (5 # 100) true (75 # 100) "detailed" true
           false 2 true
           ["fist"; "open_palm"; "peace"; "thumbs_up"; "thumbs_down";
            "pointing"; "call"].

Record HandAnalysis : Type := mkAnalysis {
  label : string;
  fingers_up : Z;
  analysis_states : FingerStates;
  analysis_confidence : Q;
  pose : string
}.

(** [_history] is a [deque(maxlen=smoothing_frames)]. *)
Record t : Type := mk {
  config : FingerCountConfig;
  _history : list Z
}.

Definition init (cfg : FingerCountConfig) : t := mk cfg [].

(** [deque.append] with a [maxlen]. *)
Definition deque_append (maxlen : Z) (d : list Z) (v : Z) : list Z :=
  if maxlen <=? 0 then []
  else if maxlen <=? Z.of_nat (length d) then tl d ++ [v]
  else d ++ [v].

Definition _pose_patterns (s : FingerStates) : string :=
  match thumb s, index s, middle s, ring s, pinky s with
  | false, false, false, false, false => "fist"
  | true, true, true, true, true => "open_palm"
  | false, true, true, false, false => "peace"
  | true, false, false, false, false => "thumbs_up"
  | false, true, false, false, false => "pointing"
  | true, true, false, false, true => "call"
  | true, false, false, false, true => "shaka"
  | _, _, _, _, _ => "none"
  end.

Definition _detect_finger_states (c : t) (ls : list Landmark)
    (l : HandLabel) : FingerStates :=
  if (length ls <? 21)%nat then FingerStates_default
  else
    let is_right := match l with RIGHT => true | LEFT => false end in
    let x i := lm_x (landmark_at ls i) in
    let y i := lm_y (landmark_at ls i) in
    let thumb_up :=
      if is_right then PyFloat.ltb (x 3%nat) (x 4%nat)
      else PyFloat.ltb (x 4%nat) (x 3%nat) in
    mkFingerStates
      (if thumb_detection_enabled (config c) then thumb_up else false)
      (PyFloat.ltb (y 8%nat) (y 6%nat))
      (PyFloat.ltb (y 12%nat) (y 10%nat))
      (PyFloat.ltb (y 16%nat) (y 14%nat))
      (PyFloat.ltb (y 20%nat) (y 18%nat)).

Definition _detect_pose (c : t) (s : FingerStates) : string :=
  if negb (pose_detection_enabled (config c)) then "none"
  else
    let p := _pose_patterns s in
    if existsb (String.eqb p) (enabled_poses (config c)) then p else "none".

Definition _analyze_hand (c : t) (hand : HandLandmarks) : HandAnalysis :=
  let s := _detect_finger_states c (landmarks hand) (hand_label hand) in
  mkAnalysis (label_value (hand_label hand)) (fs_count s) s
             (hand_confidence hand) (_detect_pose c s).

Definition _smooth_count (c : t) (count : Z) : Z * t :=
  let h := deque_append (smoothing_frames (config c)) (_history c) count in
  let c' := mk (config c) h in
  if (length h <? 2)%nat then (count, c')
  else
    (py_round (inject_Z (foldl Z.add 0 h) / inject_Z (Z.of_nat (length h))),
     c').

Definition _pose_to_gesture_type (p : string) : GestureType :=
  if String.eqb p "fist" then FIST
  else if String.eqb p "open_palm" then OPEN_PALM
  else if String.eqb p "peace" then PEACE
  else if String.eqb p "thumbs_up" then THUMBS_UP
  else if String.eqb p "pointing" then POINTING
  else FINGER_COUNT.

Definition _build_output (c : t) (hs : list HandAnalysis)
    (primary_pose : string) : gmap string PyVal :=
  let hand_data (a : HandAnalysis) :=
    VDict ([("label", VStr (label a)); ("fingers", VInt (fingers_up a));
            ("confidence",
             VFloat (inject_Z (py_round (analysis_confidence a * 1000))
                     / 1000));
            ("pose", VStr (pose a))]
           ++ if show_finger_states (config c)
              then [("finger_states",
                     FingerCountClassifier.states_dict (analysis_states a))]
              else []) in
  <["smoothing_frames" := VInt (Z.of_nat (length (_history c)))]>
  (<["smoothing_enabled" := VBool (smoothing_enabled (config c))]>
  (<["primary_pose" := VStr primary_pose]>
  (<["hands" := VList (map hand_data hs)]>
  (<["hands_detected" := VInt (Z.of_nat (length hs))]> ∅)))).

Definition _create_empty_result (elapsed : Q) : InferenceResult :=
  mkInference NONE 0
    (<["primary_pose" := VStr "none"]>
     (<["hands" := VList []]> (<["hands_detected" := VInt 0]> ∅)))
    elapsed (Some 0) (Some FingerStates_default) None None.

Definition classify (c : t) (clk : Clock) (ex : ExtractionResult)
    : (PyExn + InferenceResult) * t :=
  (* Skip if no hands detected *)
  if (hands_detected ex =? 0) && skip_empty_frames (config c) then
    (inr (_create_empty_result (perf_elapsed_ms clk)), c)
  else
    let hands_analysis := map (_analyze_hand c) (hands ex) in
    let raw_total := foldl Z.add 0 (map fingers_up hands_analysis) in
    (* Apply temporal smoothing *)
    let '(total_fingers, c') :=
      if smoothing_enabled (config c) then _smooth_count c raw_total
      else (raw_total, c) in
    let '(gesture, primary_pose) :=
      match hands_analysis with
      | first :: _ =>
          if pose_detection_enabled (config c)
          then (_pose_to_gesture_type (pose first), pose first)
          else (FINGER_COUNT, "none")
      | [] => (FINGER_COUNT, "none")
      end in
    let combined_states :=
      match hands_analysis with
      | first :: _ => analysis_states first
      | [] => FingerStates_default
      end in
    let conf :=
      match map analysis_confidence hands_analysis with
      | [] => 0%Q
      | q :: qs => foldl PyFloat.max q qs
      end in
    (inr (mkInference gesture conf
            (_build_output c' hands_analysis primary_pose)
            (perf_elapsed_ms clk) (Some total_fingers)
            (Some combined_states) None None), c').

Definition reset (c : t) : t := mk (config c) [].

#[global] Instance classifier : GestureClassifier t :=
  Build_GestureClassifier t (fun _ => "finger_count")
    (fun _ => [FINGER_COUNT; FIST; OPEN_PALM; PEACE; THUMBS_UP; POINTING])
    classify reset.

End FeatureFingerCountClassifier.

(** ** The classifiers of the repository as one type *)

(** The engine's dict holds objects of any classifier class; these are the
    four the repository defines. *)
Inductive AnyClassifier : Type :=
| OfFingerCount (c : FingerCountClassifier.t)
| OfFeatureFingerCount (c : FeatureFingerCountClassifier.t)
| OfVolumeControl (c : VolumeControlClassifier.t)
| OfVirtualMouse (c : VirtualMouseClassifier.t).

Definition any_lift {A} (wrap : A -> AnyClassifier)
    (r : (PyExn + InferenceResult) * A) : (PyExn + InferenceResult) * AnyClassifier :=
  (fst r, wrap (snd r)).

#[global] Instance any_classifier : GestureClassifier AnyClassifier :=
  Build_GestureClassifier AnyClassifier
    (fun a => match a with
              | OfFingerCount c => name c
              | OfFeatureFingerCount c => name c
              | OfVolumeControl c => name c
              | OfVirtualMouse c => name c
              end)
    (fun a => match a with
              | OfFingerCount c => supported_gestures c
              | OfFeatureFingerCount c => supported_gestures c
              | OfVolumeControl c => supported_gestures c
              | OfVirtualMouse c => supported_gestures c
              end)
    (fun a clk ex =>
       match a with
       | OfFingerCount c => any_lift OfFingerCount (classify c clk ex)
       | OfFeatureFingerCount c => any_lift OfFeatureFingerCount (classify c clk ex)
       | OfVolumeControl c => any_lift OfVolumeControl (classify c clk ex)
       | OfVirtualMouse c => any_lift OfVirtualMouse (classify c clk ex)
       end)
    (fun a => match a with
              | OfFingerCount c => OfFingerCount (reset c)
              | OfFeatureFingerCount c => OfFeatureFingerCount (reset c)
              | OfVolumeControl c => OfVolumeControl (reset c)
              | OfVirtualMouse c => OfVirtualMouse (reset c)
              end).

(** An extraction result with no hands, and a clock reading. *)
Definition no_hands : ExtractionResult := mkExtraction [] 0 (7 # 10) 0.
Definition clock0 : Clock := mkClock 0 0.

(** ** pipelines/orchestrator.py: [switch_project] *)

(** [switch_project]: the orchestrator with the inference engine it
    drives. *)
Section SwitchProject.
Context {C : Type} `{GestureClassifier C}.

Definition switch_project (project : string) (o : PipelineOrchestrator.t)
    (w : InferenceEngine.world C)
    : bool * (PipelineOrchestrator.t * InferenceEngine.world C) :=
  if negb (PipelineOrchestrator.running o) then (false, (o, w))
  else
    (* Update classifier *)
    match InferenceEngine.set_active_classifier project w with
    | (true, w') =>
        (true,
         (PipelineOrchestrator.mk (PipelineOrchestrator.config o)
            (PipelineOrchestrator.state o) (Some project)
            (PipelineOrchestrator.running o) (PipelineOrchestrator.paused o)
            (PipelineOrchestrator.metrics o)
            (PipelineOrchestrator.consecutive_errors o)
            (PipelineOrchestrator.frame_times o)
            (PipelineOrchestrator.ingestion o), w'))
    | (false, w') => (false, (o, w'))
    end.

End SwitchProject.

(** ** pipelines/output/dispatcher.py: the output pipeline *)

Module OutputPipeline.

(** An [OutputAction] object, by identity. *)
Definition action : Type := nat.

Record t : Type := mk {
  dispatcher : EventDispatcher.t;
  _actions : list (string * action);
  _output_times : list Q;
  _event_count : Z
}.

(** [OutputPipeline()]. *)
Definition init : t := mk EventDispatcher.init [] [] 0.

(** What the pipeline leaves behind: the methods it called on actions,
    the action errors it logged, and what its dispatcher did. *)
Inductive entry : Type :=
| Initialized (a : action)
| Executed (a : action)
| CleanedUp (a : action)
| LoggedActionError (a : action) (e : PyExn)
| Dispatched (e : EventDispatcher.entry).

Section Actions.

(** What the action objects and the listeners do: [name], and for each
    method whether it returns or raises. *)
Context (action_name : action -> string)
        (action_initialize : action -> PyExn + bool)
        (action_execute : action -> InferenceResult -> PyExn + bool)
        (action_cleanup : action -> option PyExn)
        (behaviour : EventDispatcher.listener -> OutputEvent
                     -> EventDispatcher.outcome).

Definition with_actions (p : t) (actions : list (string * action)) : t :=
  mk (dispatcher p) actions (_output_times p) (_event_count p).

Definition register_action (a : action) (p : t) (log : list entry)
    : (PyExn + bool) * t * list entry :=
  let log1 := log ++ [Initialized a] in
  match action_initialize a with
  | inl e => (inl e, p, log1)
  | inr false => (inr false, p, log1)
  | inr true =>
      (inr true, with_actions p (PyDict.set (action_name a) a (_actions p)),
       log1)
  end.

Definition unregister_action (name : string) (p : t) (log : list entry)
    : (PyExn + bool) * t * list entry :=
  match PyDict.get name (_actions p) with
  | Some a =>
      let log1 := log ++ [CleanedUp a] in
      match action_cleanup a with
      | Some e => (inl e, p, log1)
      | None => (inr true, with_actions p (PyDict.del name (_actions p)), log1)
      end
  | None => (inr false, p, log)
  end.

(** The loop of [process] over the registered actions: each [execute]
    is inside its own [try], and an exception is logged. *)
Fixpoint execute_all (actions : list action) (inference : InferenceResult)
    (log : list entry) : list entry :=
  match actions with
  | [] => log
  | a :: rest =>
      let log1 := log ++ [Executed a] in
      let log2 := match action_execute a inference with
                  | inl e => log1 ++ [LoggedActionError a e]
                  | inr _ => log1
                  end in
      execute_all rest inference log2
  end.

(** The [data] of the event: the three fields of the result, then
    [**inference.raw_output] over them. *)
Definition event_data (inference : InferenceResult) : gmap string PyVal :=
  raw_output inference
  ∪ <["inference_latency_ms" := VFloat (inference_latency_ms inference)]>
      (<["confidence" := VFloat (confidence inference)]>
         (<["gesture_type" := VStr (gesture_value (gesture_type inference))]>
            ∅)).

(** [process]: [now] is the reading of [time.time()], [latency] the
    output latency the pipeline measures. *)
Definition process (inference : InferenceResult) (project : string)
    (now latency : Q) (p : t) (log : list entry)
    : (PyExn + OutputEvent) * t * list entry :=
  (* Create output event *)
  let event := mkEvent "gesture_detected" project now (event_data inference) in
  (* Execute registered actions for this project *)
  let log1 := execute_all (PyDict.values (_actions p)) inference log in
  (* Dispatch event *)
  match EventDispatcher.dispatch behaviour event (dispatcher p) [] with
  | (inl e, tr) => (inl (OutputError e), p, log1 ++ map Dispatched tr)
  | (inr _, tr) =>
      (inr event,
       mk (dispatcher p) (_actions p) (_output_times p ++ [latency])
          (_event_count p + 1),
       log1 ++ map Dispatched tr)
  end.

(** The loop of [cleanup]: the first [cleanup()] that raises ends it. *)
Fixpoint cleanup_all (actions : list action) (log : list entry)
    : option PyExn * list entry :=
  match actions with
  | [] => (None, log)
  | a :: rest =>
      let log1 := log ++ [CleanedUp a] in
      match action_cleanup a with
      | Some e => (Some e, log1)
      | None => cleanup_all rest log1
      end
  end.

Definition cleanup (p : t) (log : list entry)
    : (PyExn + unit) * t * list entry :=
  match cleanup_all (PyDict.values (_actions p)) log with
  | (Some e, log') => (inl e, p, log')
  | (None, log') =>
      (inr tt,
       mk (EventDispatcher.clear (dispatcher p)) [] (_output_times p)
          (_event_count p),
       log')
  end.

End Actions.



Definition dispatched (log : list entry) : list EventDispatcher.entry :=
  omap (fun e => match e with Dispatched d => Some d | _ => None end) log.

End OutputPipeline.

(** ** features/virtual_mouse/actions.py *)

(** The truth value of a value of [raw_output] in an [if]. *)
Definition truthy (v : PyVal) : bool :=
  match v with
  | VFloat q => negb (PyFloat.eqb q 0)
  | VInt n => negb (n =? 0)
  | VBool b => b
  | VStr s => match s with EmptyString => false | _ => true end
  | VList l => match l with [] => false | _ => true end
  | VDict d => match d with [] => false | _ => true end
  end.

Module VirtualMouseActions.

(** The calls made on [pyautogui]. *)
Inductive gui_call : Type :=
| MoveTo (x y : PyVal)
| Click
| MouseDown
| MouseUp.

Record t : Type := mk {
  _initialized : bool;
  _is_mouse_down : bool
}.

(** [VirtualMouseActions()]: [_initialize] imports [pyautogui], or logs
    the [ImportError]. *)
Definition init (pyautogui_imported : bool) : t :=
  mk pyautogui_imported false.

Section Gui.

(** Whether a call on [pyautogui] raises, given the calls made before
    it. *)
Context (pyautogui : list gui_call -> gui_call -> option PyExn).

(** The [except Exception] branch of [execute]: the mouse is released
    if it is held, whatever that [mouseUp()] does. *)
Definition on_error (a : t) (log : list gui_call) : bool * t * list gui_call :=
  if _is_mouse_down a
  then (false, mk (_initialized a) false, log ++ [MouseUp])
  else (false, a, log).

Definition execute (inference : InferenceResult) (a : t)
    (log : list gui_call) : bool * t * list gui_call :=
  if negb (_initialized a) then (false, a, log)
  else
    let raw := raw_output inference in
    let cursor_x := default (VInt 0) (raw !! "cursor_x") in
    let cursor_y := default (VInt 0) (raw !! "cursor_y") in
    let click := truthy (default (VBool false) (raw !! "click")) in
    let drag := truthy (default (VBool false) (raw !! "drag")) in
    let release := truthy (default (VBool false) (raw !! "release")) in
    (* Move cursor *)
    let log1 := log ++ [MoveTo cursor_x cursor_y] in
    match pyautogui log (MoveTo cursor_x cursor_y) with
    | Some _ => on_error a log1
    | None =>
        if click && negb (_is_mouse_down a) then
          (* Handle click *)
          match pyautogui log1 Click with
          | Some _ => on_error a (log1 ++ [Click])
          | None => (true, a, log1 ++ [Click])
          end
        else if drag && negb (_is_mouse_down a) then
          (* Handle drag start *)
          match pyautogui log1 MouseDown with
          | Some _ => on_error a (log1 ++ [MouseDown])
          | None => (true, mk (_initialized a) true, log1 ++ [MouseDown])
          end
        else if release && _is_mouse_down a then
          (* Handle drag release *)
          match pyautogui log1 MouseUp with
          | Some _ => on_error a (log1 ++ [MouseUp])
          | None => (true, mk (_initialized a) false, log1 ++ [MouseUp])
          end
        else (true, a, log1)
    end.

(** [reset]: release the mouse if it is held. *)
Definition reset (a : t) (log : list gui_call) : t * list gui_call :=
  if _is_mouse_down a && _initialized a
  then (mk (_initialized a) false, log ++ [MouseUp])
  else (a, log).

(** The action on the results of a stream, as the output pipeline calls
    it: a frame whose classification raised never reaches the output
    stage. *)
Fixpoint drive (results : list (PyExn + InferenceResult)) (a : t)
    (log : list gui_call) : t * list gui_call :=
  match results with
  | [] => (a, log)
  | inl _ :: rest => drive rest a log
  | inr res :: rest =>
      let '(_, a', log') := execute res a log in
      drive rest a' log'
  end.

End Gui.

(** The button calls of a log. *)
Definition buttons (log : list gui_call) : list gui_call :=
  List.filter (fun c => match c with MoveTo _ _ => false | _ => true end) log.

(** What [execute] reads of the three flags. *)
Definition requested (r : InferenceResult) : bool * bool * bool :=
  (truthy (default (VBool false) (raw_output r !! "click")),
   truthy (default (VBool false) (raw_output r !! "drag")),
   truthy (default (VBool false) (raw_output r !! "release"))).

End VirtualMouseActions.

(** ** features/volume_control/actions.py *)

Module VolumeControlActions.

(** The calls the action makes on the system: the COM interface of
    pycaw on Windows, shell commands elsewhere (the numbers and words
    that the command strings are formatted with). *)
Inductive sys_call : Type :=
| SetMasterVolumeLevelScalar (level : Q)
| SetMute (muted : PyVal)
| OsascriptVolume (volume_percent : Z)
| OsascriptMuted (muted : bool)
| AmixerVolume (volume_percent : Z)
| PactlVolume (volume_percent : Z)
| AmixerMute (muted : bool).

Record t : Type := mk {
  _platform : string;
  _volume_interface : bool;
  _last_volume : Q;
  _initialized : bool
}.

(** [VolumeControlActions()]: [system] is what [platform.system()]
    returned, [pycaw] whether the Windows volume interface could be
    created. *)
Definition init (system : string) (pycaw : bool) : t :=
  if String.eqb system "Windows" then mk system pycaw (1 # 2) pycaw
  else if String.eqb system "Darwin" then mk system false (1 # 2) true
  else if String.eqb system "Linux" then mk system false (1 # 2) true
  else mk system false (1 # 2) false.

(** A value of [raw_output] in arithmetic: a [bool] counts as 0 or 1,
    and anything that is not a number is a [TypeError]. *)
Definition number (v : PyVal) : option Q :=
  match v with
  | VFloat q => Some q
  | VInt n => Some (inject_Z n)
  | VBool b => Some (if b then 1 else 0)%Q
  | _ => None
  end.

Section System.

(** What a call on the system does, given the calls made before it: it
    raises, or returns (for a shell command, with the return code of
    the process). *)
Context (system : list sys_call -> sys_call -> PyExn + Z).

(** One call: the log with the call, and the exception if it raised. *)
Definition call (c : sys_call) (log : list sys_call)
    : (PyExn + Z) * list sys_call :=
  (system log c, log ++ [c]).

Definition _set_volume (a : t) (level : Q) (log : list sys_call)
    : option PyExn * list sys_call :=
  let level := PyFloat.max 0 (PyFloat.min 1 level) in
  if String.eqb (_platform a) "Windows" then
    if _volume_interface a then
      match call (SetMasterVolumeLevelScalar level) log with
      | (inl e, log') => (Some e, log')
      | (inr _, log') => (None, log')
      end
    else (None, log)
  else if String.eqb (_platform a) "Darwin" then
    match call (OsascriptVolume (PyFloat.int (level * 100))) log with
    | (inl e, log') => (Some e, log')
    | (inr _, log') => (None, log')
    end
  else if String.eqb (_platform a) "Linux" then
    let volume_percent := PyFloat.int (level * 100) in
    (* Try amixer first (ALSA) *)
    match call (AmixerVolume volume_percent) log with
    | (inl e, log') => (Some e, log')
    | (inr returncode, log') =>
        if negb (returncode =? 0) then
          (* Try pactl (PulseAudio) *)
          match call (PactlVolume volume_percent) log' with
          | (inl e, log'') => (Some e, log'')
          | (inr _, log'') => (None, log'')
          end
        else (None, log')
    end
  else (None, log).

Definition _set_mute (a : t) (muted : PyVal) (log : list sys_call)
    : option PyExn * list sys_call :=
  let one c := match call c log with
               | (inl e, log') => (Some e, log')
               | (inr _, log') => (None, log')
               end in
  if String.eqb (_platform a) "Windows" then
    if _volume_interface a then one (SetMute muted) else (None, log)
  else if String.eqb (_platform a) "Darwin" then
    one (OsascriptMuted (truthy muted))
  else if String.eqb (_platform a) "Linux" then
    one (AmixerMute (truthy muted))
  else (None, log).

Definition execute (inference : InferenceResult) (a : t)
    (log : list sys_call) : bool * t * list sys_call :=
  if negb (_initialized a) then (false, a, log)
  else
    (* Get volume level from raw output *)
    let raw := raw_output inference in
    let volume_level := default (VFloat (_last_volume a)) (raw !! "volume_level") in
    let is_muted := default (VBool false) (raw !! "is_muted") in
    let mute_toggled := default (VBool false) (raw !! "mute_toggled") in
    if truthy mute_toggled then
      (* Handle mute toggle *)
      match _set_mute a is_muted log with
      | (Some _, log') => (false, a, log')
      | (None, log') => (true, a, log')
      end
    else
      (* Handle volume change *)
      match number volume_level with
      | None => (false, a, log)
      | Some level =>
          if PyFloat.ltb (1 # 100) (Qabs (level - _last_volume a)) then
            match _set_volume a level log with
            | (Some _, log') => (false, a, log')
            | (None, log') =>
                (true,
                 mk (_platform a) (_volume_interface a) level (_initialized a),
                 log')
            end
          else (false, a, log)
      end.

(** The action on the results of a stream, as the output pipeline calls
    it. *)
Fixpoint drive (results : list (PyExn + InferenceResult)) (a : t)
    (log : list sys_call) : t * list sys_call :=
  match results with
  | [] => (a, log)
  | inl _ :: rest => drive rest a log
  | inr res :: rest =>
      let '(_, a', log') := execute res a log in
      drive rest a' log'
  end.

End System.

End VolumeControlActions.

(** * Properties *)

(** ** The frame buffer (pipelines/ingestion/camera.py) *)

Section FrameBuffer.
Import Queue CameraIngestion.

Lemma full_at_capacity (q : Queue.t CapturedFrame) :
  0 < maxsize q -> qsize q = maxsize q -> full q = true.
Proof.
  intros Hpos Hsize. unfold full.
  destruct (maxsize q <=? 0) eqn:E; [apply Z.leb_le in E; lia|].
  apply Z.leb_le. lia.
Qed.

Lemma not_full_below (q : Queue.t CapturedFrame) :
  qsize q < maxsize q -> full q = false.
Proof.
  intros Hlt. unfold full.
  destruct (maxsize q <=? 0); [reflexivity|].
  apply Z.leb_gt. exact Hlt.
Qed.

(** Below capacity a frame is appended and counted, none is dropped. *)
Lemma enqueue_below_capacity (s : CameraIngestion.t) (captured : CapturedFrame) :
  qsize (frame_buffer s) < maxsize (frame_buffer s) ->
  items (frame_buffer (enqueue s captured)) = items (frame_buffer s) ++ [captured]
  /\ dropped_frames (enqueue s captured) = dropped_frames s
  /\ frame_count (enqueue s captured) = frame_count s + 1.
Proof.
  intros Hlt. unfold enqueue, put_nowait.
  rewrite (not_full_below _ Hlt). simpl. auto.
Qed.

(** C3: when the buffer holds exactly its capacity of frames, one more
    frame discards the oldest buffered frame, keeps the other
    capacity-1 frames in order followed by the new one, and adds one to
    the dropped counter. *)
Theorem enqueue_at_capacity_drops_oldest
    (s : CameraIngestion.t) (captured : CapturedFrame) :
  0 < maxsize (frame_buffer s) ->
  qsize (frame_buffer s) = maxsize (frame_buffer s) ->
  exists oldest rest,
    items (frame_buffer s) = oldest :: rest
    /\ items (frame_buffer (enqueue s captured)) = rest ++ [captured]
    /\ qsize (frame_buffer (enqueue s captured)) = maxsize (frame_buffer s)
    /\ maxsize (frame_buffer (enqueue s captured)) = maxsize (frame_buffer s)
    /\ dropped_frames (enqueue s captured) = dropped_frames s + 1
    /\ frame_count (enqueue s captured) = frame_count s.
Proof.
  intros Hpos Hsize.
  pose proof (full_at_capacity _ Hpos Hsize) as Hfull.
  destruct s as [st [cap its] fc dr ct]. simpl in *.
  destruct its as [|oldest rest].
  - unfold qsize in Hsize. simpl in Hsize. lia.
  - exists oldest, rest.
    unfold enqueue, put_nowait, get_nowait. simpl. rewrite Hfull. simpl.
    assert (Hroom : full (Queue.mk cap rest) = false).
    { apply not_full_below. unfold qsize in *. simpl in *. lia. }
    rewrite Hroom. simpl.
    repeat split; try reflexivity.
    unfold qsize in *. simpl in *. rewrite length_app. simpl. lia.
Qed.

(** The default buffer of five frames, filled by five captures. *)
Definition frame_of (n : Z) : CapturedFrame :=
  mkFrame [n] (inject_Z n) n 0 640 480 3.

Definition full_default_buffer : CameraIngestion.t :=
  foldl enqueue (started 5) (map frame_of [0; 1; 2; 3; 4]).

Lemma enqueue_at_capacity_witness :
  exists oldest rest,
    items (frame_buffer full_default_buffer) = oldest :: rest
    /\ items (frame_buffer (enqueue full_default_buffer (frame_of 5)))
       = rest ++ [frame_of 5]
    /\ qsize (frame_buffer (enqueue full_default_buffer (frame_of 5))) = 5
    /\ maxsize (frame_buffer (enqueue full_default_buffer (frame_of 5))) = 5
    /\ dropped_frames (enqueue full_default_buffer (frame_of 5)) = 0 + 1
    /\ frame_count (enqueue full_default_buffer (frame_of 5)) = 5.
Proof.
  apply (enqueue_at_capacity_drops_oldest full_default_buffer (frame_of 5));
    vm_compute; reflexivity.
Defined.

End FrameBuffer.

(** ** The orchestrator's error policy (pipelines/orchestrator.py) *)

Section ErrorPolicy.
Import PipelineOrchestrator.

(** A turn of the loop on which an exception reaches [_handle_error]. *)
Definition raises (i : iteration) : bool :=
  match i with
  | GetFrameRaised _ => true
  | Frame _ (Processed _ _ _ _) _ => false
  | Frame _ _ _ => true
  | NoFrame | Cancelled => false
  end.

(** A turn that either raises or finds no frame: it cannot reset the
    error counter. *)
Definition fruitless (i : iteration) : Prop :=
  raises i = true \/ i = NoFrame.

Definition failures (turns : list iteration) : Z :=
  Z.of_nat (length (List.filter raises turns)).

Lemma loop_stopped (turns : list iteration) (o : t) :
  running o = false -> while_running turns o = o.
Proof. intros Hr. destruct turns; simpl; [|rewrite Hr]; reflexivity. Qed.

Lemma handle_error_below (o : t) :
  consecutive_errors o + 1 < max_consecutive_errors (config o) ->
  _handle_error o
  = mk (config o) (state o) (current_project o) (running o) (paused o)
       (count_error (metrics o)) (consecutive_errors o + 1)
       (frame_times o) (ingestion o).
Proof.
  intros Hlt. unfold _handle_error.
  destruct (max_consecutive_errors (config o) <=? consecutive_errors o + 1) eqn:E;
    [apply Z.leb_le in E; lia | reflexivity].
Qed.

Lemma handle_error_reached (o : t) :
  max_consecutive_errors (config o) <= consecutive_errors o + 1 ->
  _handle_error o
  = mk (config o) ERROR (current_project o) false (paused o)
       (count_error (metrics o)) (consecutive_errors o + 1)
       (frame_times o) (ingestion o).
Proof.
  intros Hle. unfold _handle_error.
  destruct (max_consecutive_errors (config o) <=? consecutive_errors o + 1) eqn:E;
    [reflexivity | apply Z.leb_gt in E; lia].
Qed.

(** A raising turn hands the orchestrator to [_handle_error]; all
    that [_process_frame] changed before is the metrics. *)
Lemma loop_body_raises (i : iteration) (o : t) :
  paused o = false -> raises i = true ->
  exists m, loop_body i o = (_handle_error (with_metrics o m), true).
Proof.
  intros Hp Hr. unfold loop_body. rewrite Hp.
  destruct i as [|e|captured r now|]; try discriminate.
  - exists (metrics o). destruct o; reflexivity.
  - destruct r; try discriminate; simpl; eexists; reflexivity.
Qed.

Lemma loop_body_no_frame (o : t) : loop_body NoFrame o = (o, true).
Proof. unfold loop_body. destruct (paused o); reflexivity. Qed.

(** The state of the loop after a run of fruitless turns, by the number
    of exceptions among them. *)
Lemma fruitless_run (turns : list iteration) :
  forall o : t,
    running o = true -> paused o = false ->
    Forall fruitless turns ->
    consecutive_errors o < max_consecutive_errors (config o) ->
    let o' := while_running turns o in
    config o' = config o /\ ingestion o' = ingestion o
    /\ (consecutive_errors o + failures turns < max_consecutive_errors (config o) ->
        state o' = state o /\ running o' = true /\ paused o' = false
        /\ consecutive_errors o' = consecutive_errors o + failures turns)
    /\ (max_consecutive_errors (config o) <= consecutive_errors o + failures turns ->
        state o' = ERROR /\ running o' = false
        /\ consecutive_errors o' = max_consecutive_errors (config o)).
Proof.
  induction turns as [|i rest IH]; intros o Hrun Hpause Hall Hlt; simpl.
  - unfold failures. simpl. repeat split; intros; try lia; auto.
  - rewrite Hrun. inversion Hall as [|? ? [Hi | Hi] Hrest]; subst.
    + destruct (loop_body_raises i o Hpause Hi) as [m Hbody].
      rewrite Hbody.
      assert (Hf : failures (i :: rest) = 1 + failures rest).
      { unfold failures. simpl. rewrite Hi. simpl length. lia. }
      rewrite Hf.
      destruct (Z_lt_le_dec (consecutive_errors o + 1)
                  (max_consecutive_errors (config o))) as [Hbelow | Hreach].
      * rewrite handle_error_below by (destruct o; simpl in *; lia).
        match goal with |- context [while_running rest ?o1] =>
          specialize (IH o1) end.
        destruct o. simpl in *.
        destruct (IH Hrun Hpause Hrest Hbelow) as (Hc & Hi' & Hlow & Hhigh).
        repeat split; auto; intros;
          try (apply Hlow; lia); try (apply Hhigh; lia).
        destruct Hlow as (_ & _ & _ & ->); lia.
      * rewrite handle_error_reached by (destruct o; simpl in *; lia).
        rewrite loop_stopped by reflexivity.
        destruct o. simpl in *.
        assert (0 <= failures rest) by (unfold failures; lia).
        repeat split; auto; intros; try lia.
    + rewrite loop_body_no_frame.
      assert (Hf : failures (NoFrame :: rest) = failures rest)
        by reflexivity.
      rewrite Hf. apply IH; assumption.
Qed.

(** A frame that all stages process resets the counter and leaves the
    state of the orchestrator alone. *)
Lemma success_resets (o : t) captured pre ext inf total now :
  paused o = false ->
  let o' := fst (loop_body (Frame captured (Processed pre ext inf total) now) o) in
  consecutive_errors o' = 0 /\ state o' = state o /\ running o' = running o
  /\ snd (loop_body (Frame captured (Processed pre ext inf total) now) o) = true.
Proof.
  intros Hp. unfold loop_body. rewrite Hp. simpl. auto.
Qed.

(** With a frame rate other than 0 the loop is entered. *)
Lemma frame_interval_defined (o : t) (turns : list iteration) :
  target_fps (config o) <> 0 ->
  _processing_loop turns o = inr (while_running turns o).
Proof.
  intros Hfps. unfold _processing_loop, PyFloat.div.
  destruct (PyFloat.eqb (inject_Z (target_fps (config o))) 0) eqn:E;
    [|reflexivity].
  apply PyFloat.eqb_eq in E. unfold Qeq in E. simpl in E. lia.
Qed.

(** C1, as the code has it: in a run of the loop that starts with the
    counter at zero, fewer than [max_consecutive_errors] exceptions in a
    row leave the orchestrator Running; the exception that makes it
    [max_consecutive_errors] in a row moves it to Error and ends the
    loop, while the capture source is left in the state it was in; a
    processed frame resets the counter. *)
Theorem consecutive_errors_threshold (o : t) (turns : list iteration) :
  state o = RUNNING -> running o = true -> paused o = false ->
  consecutive_errors o = 0 ->
  1 <= max_consecutive_errors (config o) ->
  target_fps (config o) <> 0 ->
  Forall fruitless turns ->
  _processing_loop turns o = inr (while_running turns o)
  /\ let o' := while_running turns o in
  (failures turns < max_consecutive_errors (config o) ->
     state o' = RUNNING /\ running o' = true
     /\ consecutive_errors o' = failures turns)
  /\ (failures turns = max_consecutive_errors (config o) ->
     state o' = ERROR /\ running o' = false
     /\ while_running [NoFrame] o' = o'
     /\ ingestion o' = ingestion o)
  /\ (forall captured pre ext inf total now,
        failures turns < max_consecutive_errors (config o) ->
        let o'' := fst (loop_body
                          (Frame captured (Processed pre ext inf total) now) o') in
        consecutive_errors o'' = 0 /\ state o'' = RUNNING
        /\ running o'' = true).
Proof.
  intros Hs Hr Hp Hc Hmax Hfps Hall.
  destruct (fruitless_run turns o Hr Hp Hall ltac:(lia))
    as (Hcfg & Hing & Hlow & Hhigh).
  cbv zeta. rewrite Hc, !Z.add_0_l in Hlow, Hhigh.
  split; [apply frame_interval_defined; exact Hfps|].
  split; [|split].
  - intros Hlt. destruct (Hlow Hlt) as (-> & -> & _ & ->). auto.
  - intros Heq. destruct (Hhigh ltac:(lia)) as (-> & Hrun & _).
    repeat split; auto. exact (loop_stopped [NoFrame] _ Hrun).
  - intros captured pre ext inf total now Hlt.
    destruct (Hlow Hlt) as (Hst & Hrun & Hpa & _).
    destruct (success_resets (while_running turns o) captured pre ext inf
                total now Hpa) as (H0 & H1 & H2 & _).
    split; [exact H0 | split; [rewrite H1, Hst; exact Hs | rewrite H2; exact Hrun]].
Qed.

(** A running orchestrator with the default configuration, and turns on
    which a stage raises. *)
Definition running_default : t :=
  snd (start "finger_count" true (init default_config)).

Definition failing_turn : iteration :=
  Frame (mkFrame [] 0 0 0 640 480 3)
        (ExtractionRaised 1 (RuntimeError "extract")) 0.

Lemma consecutive_errors_threshold_witness :
  _processing_loop (repeat failing_turn 9) running_default
  = inr (while_running (repeat failing_turn 9) running_default)
  /\ let o' := while_running (repeat failing_turn 9) running_default in
  (failures (repeat failing_turn 9) < 10 ->
     state o' = RUNNING /\ running o' = true
     /\ consecutive_errors o' = failures (repeat failing_turn 9))
  /\ (failures (repeat failing_turn 9) = 10 ->
     state o' = ERROR /\ running o' = false
     /\ while_running [NoFrame] o' = o'
     /\ ingestion o' = ingestion running_default)
  /\ (forall captured pre ext inf total now,
        failures (repeat failing_turn 9) < 10 ->
        let o'' := fst (loop_body
                          (Frame captured (Processed pre ext inf total) now) o') in
        consecutive_errors o'' = 0 /\ state o'' = RUNNING
        /\ running o'' = true).
Proof.
  apply (consecutive_errors_threshold running_default (repeat failing_turn 9));
    try reflexivity; try (vm_compute; discriminate).
  repeat constructor.
Defined.

(** C1 as stated fails on the capture: ten exceptions in a row under the
    default configuration leave the orchestrator in Error with its loop
    ended, and the capture source still capturing. *)
Lemma error_state_leaves_capture_running :
  let o' := while_running (repeat failing_turn 10) running_default in
  _processing_loop (repeat failing_turn 10) running_default = inr o'
  /\ state o' = ERROR /\ running o' = false
  /\ ingestion o' = CameraIngestion.CAPTURING
  /\ ingestion o' <> CameraIngestion.STOPPED
  /\ ingestion (stop o') = CameraIngestion.STOPPED.
Proof. vm_compute. repeat split; try reflexivity. discriminate. Qed.

(** [start] does not assign the counter: a loop started again after
    the Error state begins at the old count, and its first exception
    ends it. *)
Lemma restart_keeps_counter :
  let failed := while_running (repeat failing_turn 10) running_default in
  let again := snd (start "finger_count" true failed) in
  state again = RUNNING /\ running again = true
  /\ consecutive_errors again = 10
  /\ state (while_running [failing_turn] again) = ERROR.
Proof. vm_compute. repeat split; reflexivity. Qed.

End ErrorPolicy.

(** ** Reset on activation (pipelines/inference/engine.py) *)

Section ResetOnActivation.
Import InferenceEngine.
Context {C : Type} `{GestureClassifier C}.

(** The calls one operation added to the log. *)
Definition calls_of (o : op) (w : world C) : list call :=
  drop (length (calls w)) (calls (step o w)).

(** Reading the calls of one operation against the object that became
    active and has not been reset since ([pending]): a [reset] of that
    object settles it, a [classify] on it is the violation ([None]). *)
Fixpoint settle (pending : option loc) (cs : list call)
    : option (option loc) :=
  match cs with
  | [] => Some pending
  | CallReset l :: rest =>
      settle (match pending with
              | Some p => if Nat.eqb p l then None else Some p
              | None => None
              end) rest
  | CallClassify l :: rest =>
      match pending with
      | Some p => if Nat.eqb p l then None else settle pending rest
      | None => settle pending rest
      end
  end.

Definition same_object (a b : option loc) : bool :=
  match a, b with
  | Some x, Some y => Nat.eqb x y
  | None, None => true
  | _, _ => false
  end.

(** "The first classify a classifier receives after becoming active is
    preceded by its reset", checked along a trace.  An object becomes
    active when an operation changes the object that [infer] routes to;
    [counts] selects the operations whose activations are watched. *)
Fixpoint reset_before_classify (counts : op -> bool) (ops : list op)
    (w : world C) (pending : option loc) : bool :=
  match ops with
  | [] => true
  | o :: rest =>
      let w' := step o w in
      let pending1 :=
        if same_object (routed (engine w)) (routed (engine w')) then pending
        else if counts o then routed (engine w') else None in
      match settle pending1 (calls_of o w) with
      | None => false
      | Some pending2 => reset_before_classify counts rest w' pending2
      end
  end.

Definition is_set_active (o : op) : bool :=
  match o with SetActive _ => true | _ => false end.

Lemma calls_of_app (o : op) (w : world C) (cs : list call) :
  calls (step o w) = calls w ++ cs -> calls_of o w = cs.
Proof.
  intros E. unfold calls_of. rewrite E, drop_app_length. reflexivity.
Qed.

Lemma reset_all_calls (ls : list loc) (w : world C) :
  exists cs,
    calls (foldl (fun acc l => call_reset l acc) w ls) = calls w ++ cs
    /\ Forall (fun c => exists l, c = CallReset l) cs
    /\ engine (foldl (fun acc l => call_reset l acc) w ls) = engine w.
Proof.
  revert w. induction ls as [|l ls IH]; intros w; simpl.
  - exists []. rewrite app_nil_r. auto.
  - destruct (IH (call_reset l w)) as (cs & Hc & Hall & He).
    exists (CallReset l :: cs). rewrite Hc, He. simpl.
    rewrite <- app_assoc. repeat split; auto.
    constructor; eauto.
Qed.

(** The calls of each operation. *)
Lemma step_calls (o : op) (w : world C) :
  match o with
  | Register _ | Unregister _ => calls_of o w = []
  | SetActive n =>
      match PyDict.get n (classifiers (engine w)) with
      | Some l => calls_of o w = [CallReset l]
      | None => calls_of o w = []
      end
  | Infer _ _ _ =>
      calls_of o w = [] \/ exists l, calls_of o w = [CallClassify l]
  | ResetAll => Forall (fun c => exists l, c = CallReset l) (calls_of o w)
  end.
Proof.
  destruct o as [l|n|n|clk el ex|]; simpl.
  - apply calls_of_app. simpl. unfold register_classifier.
    destruct (heap w !! l); simpl; rewrite app_nil_r; reflexivity.
  - apply calls_of_app. simpl. unfold unregister_classifier.
    destruct (PyDict.get n _); simpl; rewrite app_nil_r; reflexivity.
  - destruct (PyDict.get n (classifiers (engine w))) eqn:E;
      apply calls_of_app; simpl; unfold set_active_classifier; rewrite E;
      simpl; [reflexivity | rewrite app_nil_r; reflexivity].
  - unfold calls_of. simpl. unfold infer.
    destruct (routed (engine w)) as [l|];
      [|left; simpl; rewrite drop_all; reflexivity].
    destruct (heap w !! l) as [c|];
      [|left; simpl; rewrite drop_all; reflexivity].
    right. exists l. destruct (classify c clk ex) as [[e|res] c']; simpl;
      rewrite drop_app_length; reflexivity.
  - unfold calls_of. simpl. unfold reset_all.
    destruct (reset_all_calls (PyDict.values (classifiers (engine w))) w)
      as (cs & Hc & Hall & _).
    simpl. rewrite Hc, drop_app_length. exact Hall.
Qed.

Lemma settle_no_pending (cs : list call) : settle None cs = Some None.
Proof.
  induction cs as [|[l|l] cs IH]; simpl; auto.
Qed.

Lemma same_object_refl (a : option loc) : same_object a a = true.
Proof. destruct a; simpl; [apply Nat.eqb_refl | reflexivity]. Qed.

(** [set_active_classifier], the operation. *)
Lemma set_active_registered (n : string) (l : loc) (w : world C) :
  PyDict.get n (classifiers (engine w)) = Some l ->
  set_active_classifier n w
  = (true,
     mkWorld (mk (classifiers (engine w)) (Some n) (inference_times (engine w)))
             (alter reset l (heap w)) (calls w ++ [CallReset l])).
Proof.
  intros E. unfold set_active_classifier. rewrite E. reflexivity.
Qed.

(** Watching the activations that [set_active_classifier] makes, no
    trace has a violation. *)
Lemma set_active_always_resets (ops : list op) :
  forall w : world C, reset_before_classify is_set_active ops w None = true.
Proof.
  induction ops as [|o ops IH]; intros w; simpl; [reflexivity|].
  assert (Hsettled :
    settle (if same_object (routed (engine w)) (routed (engine (step o w)))
            then None
            else if is_set_active o then routed (engine (step o w)) else None)
           (calls_of o w) = Some None).
  { destruct (same_object _ _) eqn:Hsame; [apply settle_no_pending|].
    destruct o as [l|n|n|clk el ex|]; simpl is_set_active; cbv iota;
      try apply settle_no_pending.
    pose proof (step_calls (SetActive n) w) as Hcalls. simpl in Hcalls.
    destruct (PyDict.get n (classifiers (engine w))) as [l|] eqn:E.
    - rewrite Hcalls. simpl step. rewrite (set_active_registered n l w E).
      simpl. unfold routed. simpl.
      destruct (String.eqb n ""); [reflexivity|].
      rewrite E. simpl. rewrite Nat.eqb_refl. reflexivity.
    - exfalso. simpl in Hsame. unfold set_active_classifier in Hsame.
      rewrite E in Hsame. simpl in Hsame.
      rewrite same_object_refl in Hsame. discriminate. }
  rewrite Hsettled. apply IH.
Qed.

(** C2, as the code has it: [set_active_classifier n] on a registered
    name selects [n], calls [reset] on its object and nothing else, so
    the next [infer] hands the frame to the object as [reset] left it;
    and in every trace of engine operations, the first classify an
    object receives after [set_active_classifier] made it active is
    preceded by its reset. *)
Theorem set_active_resets_before_classify
    (n : string) (l : loc) (c : C) (w : world C) :
  PyDict.get n (classifiers (engine w)) = Some l ->
  heap w !! l = Some c ->
  n <> "" ->
  let w' := snd (set_active_classifier n w) in
  fst (set_active_classifier n w) = true
  /\ active_classifier (engine w') = Some n
  /\ calls w' = calls w ++ [CallReset l]
  /\ heap w' !! l = Some (reset c)
  /\ (forall clk el ex,
        calls (snd (infer clk el ex w')) = calls w' ++ [CallClassify l]
        /\ heap (snd (infer clk el ex w')) !! l
           = Some (snd (classify (reset c) clk ex)))
  /\ (forall (ops : list op) (w0 : world C),
        reset_before_classify is_set_active ops w0 None = true).
Proof.
  intros Hn Hl Hne. rewrite (set_active_registered n l w Hn). simpl.
  assert (Hheap : alter reset l (heap w) !! l = Some (reset c)).
  { rewrite lookup_alter_eq, Hl. reflexivity. }
  repeat split; auto.
  - unfold infer, routed. simpl.
    destruct (String.eqb n "") eqn:E; [apply String.eqb_eq in E; contradiction|].
    rewrite Hn, Hheap.
    destruct (classify (reset c) clk ex) as [[e|res] c']; reflexivity.
  - unfold infer, routed. simpl.
    destruct (String.eqb n "") eqn:E; [apply String.eqb_eq in E; contradiction|].
    rewrite Hn, Hheap.
    destruct (classify (reset c) clk ex) as [[e|res] c']; simpl;
      apply lookup_insert_eq.
  - intros ops w0. apply set_active_always_resets.
Qed.

End ResetOnActivation.

(** An engine over the repository's classifiers: object 0 is a volume
    classifier, object 1 a finger counter that has already seen two frames
    with five fingers. *)
Definition example_heap : gmap InferenceEngine.loc AnyClassifier :=
  <[1%nat := OfFingerCount
               (FingerCountClassifier.mk FingerCountClassifier.default_config
                                         [5; 5])]>
  (<[0%nat := OfVolumeControl
                (VolumeControlClassifier.init
                   VolumeControlClassifier.default_config)]> ∅).

Definition fresh_world : InferenceEngine.world AnyClassifier :=
  InferenceEngine.mkWorld InferenceEngine.init example_heap [].

Lemma set_active_resets_witness :
  let w := InferenceEngine.run
             [InferenceEngine.Register 1%nat; InferenceEngine.Register 0%nat]
             fresh_world in
  let w' := snd (InferenceEngine.set_active_classifier "volume_control" w) in
  fst (InferenceEngine.set_active_classifier "volume_control" w) = true
  /\ InferenceEngine.active_classifier (InferenceEngine.engine w')
     = Some "volume_control"
  /\ InferenceEngine.calls w'
     = InferenceEngine.calls w ++ [InferenceEngine.CallReset 0%nat]
  /\ InferenceEngine.heap w' !! 0%nat
     = Some (reset (OfVolumeControl
                      (VolumeControlClassifier.init
                         VolumeControlClassifier.default_config)))
  /\ (forall clk el ex,
        InferenceEngine.calls (snd (InferenceEngine.infer clk el ex w'))
        = InferenceEngine.calls w' ++ [InferenceEngine.CallClassify 0%nat]
        /\ InferenceEngine.heap (snd (InferenceEngine.infer clk el ex w')) !! 0%nat
           = Some (snd (classify
                          (reset (OfVolumeControl
                                    (VolumeControlClassifier.init
                                       VolumeControlClassifier.default_config)))
                          clk ex)))
  /\ (forall (ops : list InferenceEngine.op)
             (w0 : InferenceEngine.world AnyClassifier),
        reset_before_classify is_set_active ops w0 None = true).
Proof.
  apply (set_active_resets_before_classify "volume_control" 0%nat
           (OfVolumeControl
              (VolumeControlClassifier.init VolumeControlClassifier.default_config))
           (InferenceEngine.run
              [InferenceEngine.Register 1%nat; InferenceEngine.Register 0%nat]
              fresh_world));
    [vm_compute; reflexivity | vm_compute; reflexivity | discriminate].
Defined.

(** C2 as stated fails for the activation that [register_classifier]
    makes: the first classifier registered becomes active and receives
    [classify] with no [reset] before it, here with the history of its
    earlier use still in place. *)
Lemma auto_activation_skips_reset :
  let ops := [InferenceEngine.Register 1%nat;
              InferenceEngine.Infer clock0 0 no_hands] in
  reset_before_classify (fun _ => true) ops fresh_world None = false
  /\ InferenceEngine.calls (InferenceEngine.run ops fresh_world)
     = [InferenceEngine.CallClassify 1%nat]
  /\ match fst (InferenceEngine.infer clock0 0 no_hands
                    (InferenceEngine.run [InferenceEngine.Register 1%nat]
                                         fresh_world)) with
     | inr (Some r) => finger_count r
     | _ => None
     end = Some 5.
Proof. vm_compute. repeat split; reflexivity. Qed.

(** ** Dispatch and failing listeners (pipelines/output/dispatcher.py) *)

Section Dispatch.
Import EventDispatcher.
Context (behaviour : listener -> OutputEvent -> outcome).

(** How many times a listener occurs in a list of listeners. *)
Definition times (l : listener) (ls : list listener) : nat :=
  count_occ Nat.eq_dec ls l.









(** Without the [try], the first call that raises ends the loop. *)
Lemma unguarded_loop_stops (event : OutputEvent) (l : listener)
    (ls : list listener) (e : PyExn) (tr : list entry) :
  behaviour l event = Raises e ->
  for_each (l :: ls) (fun l => invoke behaviour l event) tr
  = (inl e, tr ++ [Invoked l]).
Proof.
  intros Hb. simpl. unfold bind, invoke, bind, call. rewrite Hb. reflexivity.
Qed.












End Dispatch.

(** A dispatch in which every other listener raises: topic listeners 1
    and 2, asynchronous topic listeners 3 and 4, global listeners 5 and
    6, asynchronous global listeners 7 and 8.  The synchronous ones are
    plain functions, the asynchronous ones coroutine functions. *)
Definition asynchronous (l : EventDispatcher.listener) : bool :=
  (Nat.eqb l 3 || Nat.eqb l 4 || Nat.eqb l 7 || Nat.eqb l 8)%bool.

Definition odd_listeners_fail
    (l : EventDispatcher.listener) (_ : OutputEvent)
    : EventDispatcher.outcome :=
  let failure := if Nat.odd l then Some (RuntimeError "listener") else None in
  if asynchronous l then EventDispatcher.ReturnsCoroutine failure
  else match failure with
       | Some e => EventDispatcher.Raises e
       | None => EventDispatcher.Returns
       end.

Definition gesture_event : OutputEvent :=
  mkEvent "gesture_detected" "finger_count" 0 ∅.

Definition eight_listeners : EventDispatcher.t :=
  EventDispatcher.mk {["gesture_detected" := [1; 2]%nat]}
                     {["gesture_detected" := [3; 4]%nat]}
                     [5; 6]%nat [7; 8]%nat.

Example dispatch_with_failures :
  EventDispatcher.invoked
    (snd (EventDispatcher.dispatch odd_listeners_fail gesture_event
            eight_listeners []))
  = [1; 2; 3; 4; 5; 6; 7; 8]%nat
  /\ fst (EventDispatcher.dispatch odd_listeners_fail gesture_event
            eight_listeners []) = inr tt.
Proof. vm_compute. split; reflexivity. Qed.




(** ** The unsubscribe closures (pipelines/output/dispatcher.py) *)

Section Unsubscribe.
Import EventDispatcher.












End Unsubscribe.

(** ** Frames for the classifiers *)

(** A hand whose 21 landmarks are given by their normalized
    coordinates. *)
Definition make_hand (l : HandLabel) (at_ : nat -> Q * Q) : HandLandmarks :=
  mkHand l
    (map (fun i => mkLandmark (fst (at_ i)) (snd (at_ i)) 0 0 0 1) (seq 0 21))
    (9 # 10).

Definition frame_with (h : HandLandmarks) : ExtractionResult :=
  mkExtraction [h] 0 (7 # 10) 0.

(** A right hand with the index finger raised and the thumb tip at
    distance [d] from the index tip. *)
Definition pinch_hand (d : Q) : HandLandmarks :=
  make_hand RIGHT (fun i =>
    if Nat.eqb i 8 then ((1 # 2) + d, 1 # 2)%Q
    else if Nat.eqb i 6 then (1 # 2, 6 # 10)
    else (1 # 2, 1 # 2)).

(** A right hand with no finger above its PIP joint: a fist. *)
Definition fist_hand : HandLandmarks :=
  make_hand RIGHT (fun _ => (1 # 2, 1 # 2)).

(** Feeding a classifier frame by frame: the results, and the object at
    the end. *)
Fixpoint feed_frames {C : Type} `{GestureClassifier C}
    (frames : list (Clock * ExtractionResult)) (c : C)
    : list (PyExn + InferenceResult) * C :=
  match frames with
  | [] => ([], c)
  | (clk, ex) :: rest =>
      let '(r, c1) := classify c clk ex in
      let '(rs, c2) := feed_frames rest c1 in
      (r :: rs, c2)
  end.

Lemma feed_frames_cons {C : Type} `{GestureClassifier C}
    (f : Clock * ExtractionResult) (rest : list (Clock * ExtractionResult))
    (c : C) :
  feed_frames (f :: rest) c
  = (fst (classify c (fst f) (snd f))
     :: fst (feed_frames rest (snd (classify c (fst f) (snd f)))),
     snd (feed_frames rest (snd (classify c (fst f) (snd f))))).
Proof.
  destruct f as [clk ex]. simpl.
  destruct (classify c clk ex) as [r c1]. simpl.
  destruct (feed_frames rest c1) as [rs c2]. reflexivity.
Qed.

(** A flag of the results of a stream; a raised exception carries none. *)
Definition flags (f : InferenceResult -> bool)
    (rs : list (PyExn + InferenceResult)) : list bool :=
  map (fun r => match r with inr res => f res | inl _ => false end) rs.

Lemma flags_cons (f : InferenceResult -> bool) (r : PyExn + InferenceResult)
    (rs : list (PyExn + InferenceResult)) :
  flags f (r :: rs)
  = match r with inr res => f res | inl _ => false end :: flags f rs.
Proof. reflexivity. Qed.

(** ** Zero hands (all four classifiers) *)

Section NoHands.

Lemma select_hand_none (preferred : string) (ex : ExtractionResult) :
  hands ex = [] -> select_hand preferred ex = None.
Proof. intros E. unfold select_hand. rewrite E. reflexivity. Qed.

(** C7, as the code has it: on an extraction result with no hands the
    volume-control and virtual-mouse classifiers return gesture
    [none] with confidence 0 and no finger count; the feature
    finger-count classifier (with [skip_empty_frames]) returns [none],
    finger count 0 and confidence 0; the pipeline finger-count
    classifier returns gesture [finger_count] with the extraction's
    model confidence, a raw total of 0 and, on an empty history, finger
    count 0. *)
Theorem no_hands_results (ex : ExtractionResult) (clk : Clock) :
  hands ex = [] ->
  (forall c : VolumeControlClassifier.t,
     exists r, VolumeControlClassifier.classify c clk ex = (inr r, c)
       /\ gesture_type r = NONE /\ confidence r = 0%Q
       /\ finger_count r = None)
  /\ (forall c : VirtualMouseClassifier.t,
     exists r, VirtualMouseClassifier.classify c clk ex
               = (inr r, VirtualMouseClassifier.with_state c
                           VirtualMouseClassifier.IDLE)
       /\ gesture_type r = NONE /\ confidence r = 0%Q
       /\ finger_count r = None)
  /\ (forall c : FeatureFingerCountClassifier.t,
     FeatureFingerCountClassifier.skip_empty_frames
       (FeatureFingerCountClassifier.config c) = true ->
     exists r, FeatureFingerCountClassifier.classify c clk ex = (inr r, c)
       /\ gesture_type r = NONE /\ confidence r = 0%Q
       /\ finger_count r = Some 0)
  /\ (forall c : FingerCountClassifier.t,
     0 < FingerCountClassifier.smoothing_frames (FingerCountClassifier.config c) ->
     exists r c', FingerCountClassifier.classify c clk ex = (inr r, c')
       /\ gesture_type r = FINGER_COUNT
       /\ confidence r = model_confidence ex
       /\ raw_output r !! "raw_total" = Some (VInt 0)
       /\ (FingerCountClassifier._history c = [] -> finger_count r = Some 0)).
Proof.
  intros Hno. repeat split.
  - intros c. unfold VolumeControlClassifier.classify,
      VolumeControlClassifier._get_preferred_hand.
    rewrite (select_hand_none _ _ Hno). eexists. repeat split.
  - intros c. unfold VirtualMouseClassifier.classify,
      VirtualMouseClassifier._get_tracking_hand.
    rewrite (select_hand_none _ _ Hno). eexists. repeat split.
  - intros c Hskip. unfold FeatureFingerCountClassifier.classify, hands_detected.
    rewrite Hno, Hskip. simpl. eexists. repeat split.
  - intros [cfg hist] Hframes. unfold FingerCountClassifier.classify.
    rewrite Hno. cbn [map foldl fst snd].
    unfold FingerCountClassifier._smooth_count. simpl in *.
    set (n := FingerCountClassifier.smoothing_frames cfg) in *.
    destruct hist as [|a hist]; simpl.
    + change (Z.of_nat 1) with 1.
      destruct (n <? 1) eqn:E1; [apply Z.ltb_lt in E1; lia|]. simpl.
      change (Z.of_nat 1) with 1.
      destruct (n <=? 1); simpl; eexists _, _; repeat split; reflexivity.
    + destruct (hist ++ [0]) as [|b rest] eqn:Eapp;
        [apply app_eq_nil in Eapp as [_ Eapp]; discriminate|].
      destruct (n <? Z.of_nat (S (length (b :: rest)))); simpl;
        match goal with |- context [if ?cond then _ else _] =>
          destruct cond end;
        simpl; eexists _, _; (split; [reflexivity|]); simpl;
        repeat split; intros; discriminate.
Qed.

End NoHands.

Lemma no_hands_results_witness :
  (forall c : VolumeControlClassifier.t,
     exists r, VolumeControlClassifier.classify c clock0 no_hands = (inr r, c)
       /\ gesture_type r = NONE /\ confidence r = 0%Q
       /\ finger_count r = None)
  /\ (forall c : VirtualMouseClassifier.t,
     exists r, VirtualMouseClassifier.classify c clock0 no_hands
               = (inr r, VirtualMouseClassifier.with_state c
                           VirtualMouseClassifier.IDLE)
       /\ gesture_type r = NONE /\ confidence r = 0%Q
       /\ finger_count r = None)
  /\ (forall c : FeatureFingerCountClassifier.t,
     FeatureFingerCountClassifier.skip_empty_frames
       (FeatureFingerCountClassifier.config c) = true ->
     exists r, FeatureFingerCountClassifier.classify c clock0 no_hands = (inr r, c)
       /\ gesture_type r = NONE /\ confidence r = 0%Q
       /\ finger_count r = Some 0)
  /\ (forall c : FingerCountClassifier.t,
     0 < FingerCountClassifier.smoothing_frames (FingerCountClassifier.config c) ->
     exists r c', FingerCountClassifier.classify c clock0 no_hands = (inr r, c')
       /\ gesture_type r = FINGER_COUNT
       /\ confidence r = model_confidence no_hands
       /\ raw_output r !! "raw_total" = Some (VInt 0)
       /\ (FingerCountClassifier._history c = [] -> finger_count r = Some 0)).
Proof. apply (no_hands_results no_hands clock0). reflexivity. Defined.

(** C7 as stated fails: with no hands the pipeline finger-count
    classifier answers gesture [finger_count] with the extraction's model
    confidence (0.7 here), and after two frames with five fingers its
    finger count is still 5; the volume-control and virtual-mouse
    classifiers carry no finger count at all. *)
Lemma no_hands_not_all_none :
  let fresh := FingerCountClassifier.init FingerCountClassifier.default_config in
  let used := FingerCountClassifier.mk FingerCountClassifier.default_config [5; 5] in
  let volume := VolumeControlClassifier.init VolumeControlClassifier.default_config in
  let mouse := VirtualMouseClassifier.init VirtualMouseClassifier.default_config None in
  (exists r c', FingerCountClassifier.classify fresh clock0 no_hands = (inr r, c')
     /\ gesture_type r = FINGER_COUNT /\ confidence r = (7 # 10)%Q
     /\ gesture_type r <> NONE /\ ~ (confidence r == 0)%Q)
  /\ (exists r c', FingerCountClassifier.classify used clock0 no_hands = (inr r, c')
     /\ finger_count r = Some 5)
  /\ (exists r c', VolumeControlClassifier.classify volume clock0 no_hands = (inr r, c')
     /\ finger_count r = None /\ finger_count r <> Some 0)
  /\ (exists r c', VirtualMouseClassifier.classify mouse clock0 no_hands = (inr r, c')
     /\ finger_count r = None /\ finger_count r <> Some 0).
Proof.
  cbv zeta. repeat split; eexists _, _;
    (split; [vm_compute; reflexivity|]); simpl; repeat split;
    try reflexivity; try discriminate.
Qed.

(** ** Volume mapping and smoothing (features/volume_control) *)

Section VolumeMapping.
Import VolumeControlClassifier.

(** The linear map of the default configuration: the distance clamped
    to [0.03, 0.15] and scaled to [0, 1]. *)
Definition target_volume (d : Q) : Q :=
  ((PyFloat.max (3 # 100) (PyFloat.min d (15 # 100)) - (3 # 100))
   / (12 # 100))%Q.

Lemma target_volume_values (d : Q) :
  ((d <= 3 # 100)%Q -> (target_volume d == 0)%Q)
  /\ ((d == 9 # 100)%Q -> (target_volume d == 1 # 2)%Q)
  /\ ((15 # 100 <= d)%Q -> (target_volume d == 1)%Q).
Proof.
  unfold target_volume, PyFloat.max, PyFloat.min.
  repeat split; intros Hd.
  - destruct (PyFloat.ltb (15 # 100) d) eqn:E1.
    + apply PyFloat.ltb_lt in E1. lra.
    + destruct (PyFloat.ltb (3 # 100) d) eqn:E2.
      * apply PyFloat.ltb_lt in E2. lra.
      * reflexivity.
  - destruct (PyFloat.ltb (15 # 100) d) eqn:E1.
    + apply PyFloat.ltb_lt in E1. lra.
    + destruct (PyFloat.ltb (3 # 100) d) eqn:E2.
      * rewrite Hd. reflexivity.
      * apply PyFloat.ltb_ge in E2. lra.
  - destruct (PyFloat.ltb (15 # 100) d) eqn:E1.
    + reflexivity.
    + apply PyFloat.ltb_ge in E1.
      assert (Hd' : (d == 15 # 100)%Q) by lra.
      destruct (PyFloat.ltb (3 # 100) d) eqn:E2.
      * rewrite Hd'. reflexivity.
      * apply PyFloat.ltb_ge in E2. lra.
Qed.

(** C6, as the code has it: under the default configuration, on a frame
    whose selected hand is not a fist, the classifier emits
    [0.3 * target + 0.7 * prior], where [target] maps the pinch
    distance linearly from [0.03, 0.15] to [0, 1]: the targets of the
    distances 0.03, 0.09 and 0.15 are 0.0, 0.5 and 1.0, and with prior
    volume 0.5 the emitted levels are 0.35, 0.5 and 0.65. *)
Theorem pinch_volume_smoothed
    (c : t) (clk : Clock) (ex : ExtractionResult) (hand : HandLandmarks) :
  config c = default_config ->
  _get_preferred_hand c ex = Some hand ->
  (length (landmarks hand) <? 21)%nat = false ->
  _check_fist (landmarks hand) = false ->
  let d := landmark_distance (landmark_at (landmarks hand) THUMB_TIP)
                             (landmark_at (landmarks hand) INDEX_TIP) in
  exists r c',
    classify c clk ex = (inr r, c')
    /\ volume_level r = Some (_current_volume c')
    /\ (_current_volume c'
        == (3 # 10) * target_volume d + (7 # 10) * _current_volume c)%Q
    /\ ((d == 3 # 100)%Q /\ (_current_volume c == 1 # 2)%Q ->
        (target_volume d == 0)%Q /\ (_current_volume c' == 35 # 100)%Q)
    /\ ((d == 9 # 100)%Q /\ (_current_volume c == 1 # 2)%Q ->
        (target_volume d == 1 # 2)%Q /\ (_current_volume c' == 1 # 2)%Q)
    /\ ((d == 15 # 100)%Q /\ (_current_volume c == 1 # 2)%Q ->
        (target_volume d == 1)%Q /\ (_current_volume c' == 65 # 100)%Q).
Proof.
  intros Hcfg Hhand Hlen Hfist d.
  destruct c as [cfg vol started muted last]. simpl in Hcfg. subst cfg.
  unfold classify. rewrite Hhand. cbn [config landmarks]. rewrite Hlen.
  fold d. cbn [mute_enabled default_config]. rewrite Hfist.
  cbn [andb]. unfold _calculate_pinch_state, PyFloat.div.
  cbn [config pinch_threshold_min pinch_threshold_max volume_min volume_max
       smoothing_enabled smoothing_factor default_config].
  change (PyFloat.eqb ((15 # 100) - (3 # 100)) 0) with false.
  cbn [mbind option_bind mapped_volume is_pinched].
  eexists _, _. split; [reflexivity|].
  cbn [_current_volume]. split; [reflexivity|].
  assert (Hlaw :
    (_smooth_volume (mk default_config vol started muted d)
       (0 + (PyFloat.max (3 # 100) (PyFloat.min d (15 # 100)) - (3 # 100))
            / ((15 # 100) - (3 # 100)) * (1 - 0))
     == (3 # 10) * target_volume d + (7 # 10) * vol)%Q).
  { unfold _smooth_volume, target_volume. cbn. field. }
  split; [exact Hlaw|].
  destruct (target_volume_values d) as (H3 & H9 & H15).
  repeat split.
  - apply H3. destruct H as [Hd _]. lra.
  - destruct H as [Hd Hv]. rewrite Hlaw, Hv, (H3 ltac:(lra)). reflexivity.
  - apply H9. destruct H as [Hd _]. exact Hd.
  - destruct H as [Hd Hv]. rewrite Hlaw, Hv, (H9 Hd). reflexivity.
  - apply H15. destruct H as [Hd _]. lra.
  - destruct H as [Hd Hv]. rewrite Hlaw, Hv, (H15 ltac:(lra)). reflexivity.
Qed.

End VolumeMapping.

(** The volume classifier as constructed, whose volume is the prior 0.5,
    and the level it emits for a pinch distance. *)
Definition volume0 : VolumeControlClassifier.t :=
  VolumeControlClassifier.init VolumeControlClassifier.default_config.

Definition emitted_level (d : Q) : option Q :=
  match fst (VolumeControlClassifier.classify volume0 clock0
               (frame_with (pinch_hand d))) with
  | inr r => VolumeControlClassifier.volume_level r
  | inl _ => None
  end.

Definition level_is (v : option Q) (q : Q) : bool :=
  match v with
  | Some x => Qeq_bool x q
  | None => false
  end.

Lemma pinch_volume_smoothed_witness :
  let hand := pinch_hand (9 # 100) in
  let d := landmark_distance
             (landmark_at (landmarks hand) VolumeControlClassifier.THUMB_TIP)
             (landmark_at (landmarks hand) VolumeControlClassifier.INDEX_TIP) in
  exists r c',
    VolumeControlClassifier.classify volume0 clock0 (frame_with hand) = (inr r, c')
    /\ VolumeControlClassifier.volume_level r
       = Some (VolumeControlClassifier._current_volume c')
    /\ (VolumeControlClassifier._current_volume c'
        == (3 # 10) * target_volume d
           + (7 # 10) * VolumeControlClassifier._current_volume volume0)%Q
    /\ ((d == 3 # 100)%Q
        /\ (VolumeControlClassifier._current_volume volume0 == 1 # 2)%Q ->
        (target_volume d == 0)%Q
        /\ (VolumeControlClassifier._current_volume c' == 35 # 100)%Q)
    /\ ((d == 9 # 100)%Q
        /\ (VolumeControlClassifier._current_volume volume0 == 1 # 2)%Q ->
        (target_volume d == 1 # 2)%Q
        /\ (VolumeControlClassifier._current_volume c' == 1 # 2)%Q)
    /\ ((d == 15 # 100)%Q
        /\ (VolumeControlClassifier._current_volume volume0 == 1 # 2)%Q ->
        (target_volume d == 1)%Q
        /\ (VolumeControlClassifier._current_volume c' == 65 # 100)%Q).
Proof.
  apply (pinch_volume_smoothed volume0 clock0 (frame_with (pinch_hand (9 # 100)))
           (pinch_hand (9 # 100))); reflexivity.
Defined.

(** C6 as stated fails at both ends of the range: with prior volume 0.5
    and smoothing on, a pinch distance of 0.03 emits volume_level 0.35,
    not 0.0, and a distance of 0.15 emits 0.65, not 1.0; only the middle
    of the range maps to the level claimed. *)
Lemma smoothed_volume_at_range_ends :
  level_is (emitted_level (3 # 100)) (35 # 100) = true
  /\ level_is (emitted_level (3 # 100)) 0 = false
  /\ level_is (emitted_level (15 # 100)) (65 # 100) = true
  /\ level_is (emitted_level (15 # 100)) 1 = false
  /\ level_is (emitted_level (9 # 100)) (1 # 2) = true.
Proof. vm_compute. repeat split; reflexivity. Qed.

(** ** The mute hold (features/volume_control) *)

Section MuteHold.
Import VolumeControlClassifier.

(** A frame on which the classifier sees a fist: the selected hand has
    its 21 landmarks and [_check_fist] holds. *)
Definition fist_frame (cfg : VolumeControlConfig) (ex : ExtractionResult)
    : bool :=
  match select_hand (preferred_hand cfg) ex with
  | Some hand =>
      negb (length (landmarks hand) <? 21)%nat && _check_fist (landmarks hand)
  | None => false
  end.

(** The milliseconds between two frames, as [_handle_fist] computes
    them. *)
Definition hold_ms (first f : Clock * ExtractionResult) : Q :=
  ((time_time (fst f) - time_time (fst first)) * 1000)%Q.

(** A hold period: a first frame, frames less than [d] ms after it, and
    a last frame at least [d] ms after it. *)
Definition is_hold (d : Z) (frames : list (Clock * ExtractionResult)) : Prop :=
  exists first pre last,
    frames = first :: pre ++ [last]
    /\ Forall (fun f => (hold_ms first f < inject_Z d)%Q) pre
    /\ (inject_Z d <= hold_ms first last)%Q.

(** The toggles of a hold period: none but on its last frame. *)
Definition hold_flags (frames : list (Clock * ExtractionResult)) : list bool :=
  repeat false (length frames - 1) ++ [true].

Definition toggles (rs : list (PyExn + InferenceResult)) : nat :=
  length (List.filter (fun b : bool => b) (flags mute_toggled rs)).

Lemma classify_fist (c : t) (clk : Clock) (ex : ExtractionResult) :
  mute_enabled (config c) = true ->
  fist_frame (config c) ex = true ->
  exists conf dist,
    classify c clk ex
    = _handle_fist (mk (config c) (_current_volume c) (_fist_start_time c)
                       (_is_muted c) dist)
                   (time_time clk) (perf_elapsed_ms clk) conf.
Proof.
  intros Hmute Hfist. unfold fist_frame in Hfist.
  unfold classify, _get_preferred_hand.
  destruct (select_hand (preferred_hand (config c)) ex) as [hand|];
    [|discriminate].
  apply andb_prop in Hfist as [Hlen Hf].
  apply negb_true_iff in Hlen. rewrite Hlen, Hmute, Hf. simpl.
  eexists _, _. reflexivity.
Qed.

Lemma fist_frame_waits (c : t) (clk : Clock) (ex : ExtractionResult) (t0 : Q) :
  mute_enabled (config c) = true ->
  0 < mute_hold_duration_ms (config c) ->
  fist_frame (config c) ex = true ->
  default (time_time clk) (_fist_start_time c) = t0 ->
  ((time_time clk - t0) * 1000 < inject_Z (mute_hold_duration_ms (config c)))%Q ->
  exists r c',
    classify c clk ex = (inr r, c')
    /\ mute_toggled r = false
    /\ config c' = config c
    /\ _fist_start_time c' = Some t0
    /\ _is_muted c' = _is_muted c.
Proof.
  intros Hmute Hpos Hfist Hstart Hlt.
  destruct (classify_fist c clk ex Hmute Hfist) as (conf & dist & ->).
  unfold _handle_fist. cbn [config _fist_start_time _is_muted _current_volume
                            _last_pinch_distance].
  rewrite Hstart.
  destruct (PyFloat.leb _ _) eqn:E;
    [apply PyFloat.leb_le in E; apply Qle_not_lt in E; contradiction|].
  unfold PyFloat.div.
  destruct (PyFloat.eqb (inject_Z (mute_hold_duration_ms (config c))) 0) eqn:Ez.
  - apply PyFloat.eqb_eq in Ez. unfold Qeq in Ez. simpl in Ez. lia.
  - eexists _, _. split; [reflexivity|]. repeat split.
Qed.

Lemma fist_frame_toggles (c : t) (clk : Clock) (ex : ExtractionResult) (t0 : Q) :
  mute_enabled (config c) = true ->
  fist_frame (config c) ex = true ->
  default (time_time clk) (_fist_start_time c) = t0 ->
  (inject_Z (mute_hold_duration_ms (config c)) <= (time_time clk - t0) * 1000)%Q ->
  exists r c',
    classify c clk ex = (inr r, c')
    /\ mute_toggled r = true
    /\ config c' = config c
    /\ _fist_start_time c' = None
    /\ _is_muted c' = negb (_is_muted c).
Proof.
  intros Hmute Hfist Hstart Hle.
  destruct (classify_fist c clk ex Hmute Hfist) as (conf & dist & ->).
  unfold _handle_fist. cbn [config _fist_start_time _is_muted _current_volume
                            _last_pinch_distance].
  rewrite Hstart.
  destruct (PyFloat.leb _ _) eqn:E;
    [|apply PyFloat.leb_gt in E; apply Qlt_not_le in E; contradiction].
  eexists _, _. split; [reflexivity|]. repeat split.
Qed.

Lemma feed_volume_cons (f : Clock * ExtractionResult)
    (rest : list (Clock * ExtractionResult)) (c : t) :
  feed_frames (f :: rest) c
  = (fst (classify c (fst f) (snd f))
     :: fst (feed_frames rest (snd (classify c (fst f) (snd f)))),
     snd (feed_frames rest (snd (classify c (fst f) (snd f))))).
Proof. exact (feed_frames_cons f rest c). Qed.

(** The frames of a hold period that come before its last frame, once
    the timer runs. *)
Lemma waiting_frames (first : Clock * ExtractionResult)
    (pre rest : list (Clock * ExtractionResult)) :
  forall c : t,
    mute_enabled (config c) = true ->
    0 < mute_hold_duration_ms (config c) ->
    _fist_start_time c = Some (time_time (fst first)) ->
    Forall (fun f => fist_frame (config c) (snd f) = true) pre ->
    Forall (fun f => (hold_ms first f
                      < inject_Z (mute_hold_duration_ms (config c)))%Q) pre ->
    exists c1,
      config c1 = config c
      /\ _fist_start_time c1 = Some (time_time (fst first))
      /\ _is_muted c1 = _is_muted c
      /\ flags mute_toggled (fst (feed_frames (pre ++ rest) c))
         = repeat false (length pre)
           ++ flags mute_toggled (fst (feed_frames rest c1))
      /\ snd (feed_frames (pre ++ rest) c) = snd (feed_frames rest c1).
Proof.
  induction pre as [|f pre IH]; intros c Hmute Hpos Hstart Hfist Hwait.
  - exists c. simpl. auto.
  - inversion Hfist as [|? ? Hf Hfist']; subst.
    inversion Hwait as [|? ? Hw Hwait']; subst.
    destruct (fist_frame_waits c (fst f) (snd f) (time_time (fst first))
                Hmute Hpos Hf) as (r & c' & Hc & Hflag & Hcfg & Hst & Hm).
    { rewrite Hstart. reflexivity. }
    { exact Hw. }
    destruct (IH c') as (c1 & Hcfg1 & Hst1 & Hm1 & Hflags & Hend).
    { rewrite Hcfg. exact Hmute. }
    { rewrite Hcfg. exact Hpos. }
    { exact Hst. }
    { rewrite Hcfg. exact Hfist'. }
    { rewrite Hcfg. exact Hwait'. }
    exists c1. rewrite <- app_comm_cons, feed_volume_cons, Hc.
    cbn [fst snd]. rewrite flags_cons, Hflag, Hflags, Hend.
    repeat split; try congruence.
Qed.

(** One hold period, from a classifier with no hold in progress. *)
Lemma one_hold (frames rest : list (Clock * ExtractionResult)) (c : t) :
  mute_enabled (config c) = true ->
  0 < mute_hold_duration_ms (config c) ->
  _fist_start_time c = None ->
  is_hold (mute_hold_duration_ms (config c)) frames ->
  Forall (fun f => fist_frame (config c) (snd f) = true) frames ->
  exists c1,
    config c1 = config c
    /\ _fist_start_time c1 = None
    /\ _is_muted c1 = negb (_is_muted c)
    /\ flags mute_toggled (fst (feed_frames (frames ++ rest) c))
       = hold_flags frames ++ flags mute_toggled (fst (feed_frames rest c1))
    /\ snd (feed_frames (frames ++ rest) c) = snd (feed_frames rest c1).
Proof.
  intros Hmute Hpos Hnone (first & pre & last & -> & Hwait & Hlast) Hfist.
  inversion Hfist as [|? ? Hf1 Hfist']; subst.
  apply Forall_app in Hfist' as [Hfpre Hflast].
  inversion Hflast as [|? ? Hfl _]; subst.
  (* the first frame starts the timer *)
  destruct (fist_frame_waits c (fst first) (snd first) (time_time (fst first))
              Hmute Hpos Hf1) as (r0 & c0 & Hc0 & Hflag0 & Hcfg0 & Hst0 & Hm0).
  { rewrite Hnone. reflexivity. }
  { assert (H0 : ((time_time (fst first) - time_time (fst first)) * 1000 == 0)%Q)
      by ring.
    rewrite H0. change 0%Q with (inject_Z 0). rewrite <- Zlt_Qlt. exact Hpos. }
  (* the frames before the last one wait *)
  destruct (waiting_frames first pre ([last] ++ rest) c0)
    as (c1 & Hcfg1 & Hst1 & Hm1 & Hflags1 & Hend1).
  { rewrite Hcfg0. exact Hmute. }
  { rewrite Hcfg0. exact Hpos. }
  { exact Hst0. }
  { rewrite Hcfg0. exact Hfpre. }
  { rewrite Hcfg0. exact Hwait. }
  (* the last frame toggles *)
  destruct (fist_frame_toggles c1 (fst last) (snd last) (time_time (fst first)))
    as (r2 & c2 & Hc2 & Hflag2 & Hcfg2 & Hst2 & Hm2).
  { rewrite Hcfg1, Hcfg0. exact Hmute. }
  { rewrite Hcfg1, Hcfg0. exact Hfl. }
  { rewrite Hst1. reflexivity. }
  { rewrite Hcfg1, Hcfg0. exact Hlast. }
  exists c2.
  rewrite <- app_comm_cons, <- app_assoc, feed_volume_cons, Hc0.
  cbn [fst snd]. rewrite flags_cons, Hflag0, Hflags1, Hend1.
  change ([last] ++ rest) with (last :: rest).
  rewrite feed_volume_cons, Hc2.
  cbn [fst snd]. rewrite flags_cons, Hflag2.
  unfold hold_flags. cbn [length]. rewrite length_app. cbn [length].
  replace (S (length pre + 1) - 1)%nat with (S (length pre)) by lia.
  cbn [repeat]. rewrite <- app_assoc.
  repeat split; congruence.
Qed.

Lemma toggles_hold_flags (frames : list (Clock * ExtractionResult))
    (bs : list bool) :
  length (List.filter (fun b : bool => b) (hold_flags frames ++ bs))
  = S (length (List.filter (fun b : bool => b) bs)).
Proof.
  unfold hold_flags. rewrite <- app_assoc.
  induction (length frames - 1)%nat as [|n IH]; simpl; auto.
Qed.

(** The frames of a hold period still running at the end of the
    stream: a first frame and frames less than [d] ms after it, or no
    frame at all. *)
Definition is_waiting (d : Z) (frames : list (Clock * ExtractionResult))
    : Prop :=
  match frames with
  | [] => True
  | first :: pre => Forall (fun f => (hold_ms first f < inject_Z d)%Q) pre
  end.

Lemma unfinished_hold (frames : list (Clock * ExtractionResult)) (c : t) :
  mute_enabled (config c) = true ->
  0 < mute_hold_duration_ms (config c) ->
  _fist_start_time c = None ->
  is_waiting (mute_hold_duration_ms (config c)) frames ->
  Forall (fun f => fist_frame (config c) (snd f) = true) frames ->
  flags mute_toggled (fst (feed_frames frames c)) = repeat false (length frames)
  /\ _fist_start_time (snd (feed_frames frames c))
     = (fun f => time_time (fst f)) <$> head frames
  /\ _is_muted (snd (feed_frames frames c)) = _is_muted c.
Proof.
  intros Hmute Hpos Hnone Hwait Hfist.
  destruct frames as [|first pre]; [simpl; auto|].
  inversion Hfist as [|? ? Hf1 Hfpre]; subst. cbn [is_waiting] in Hwait.
  destruct (fist_frame_waits c (fst first) (snd first) (time_time (fst first))
              Hmute Hpos Hf1) as (r0 & c0 & Hc0 & Hflag0 & Hcfg0 & Hst0 & Hm0).
  { rewrite Hnone. reflexivity. }
  { assert (H0 : ((time_time (fst first) - time_time (fst first)) * 1000 == 0)%Q)
      by ring.
    rewrite H0. change 0%Q with (inject_Z 0). rewrite <- Zlt_Qlt. exact Hpos. }
  destruct (waiting_frames first pre [] c0)
    as (c1 & Hcfg1 & Hst1 & Hm1 & Hflags1 & Hend1).
  { rewrite Hcfg0. exact Hmute. }
  { rewrite Hcfg0. exact Hpos. }
  { exact Hst0. }
  { rewrite Hcfg0. exact Hfpre. }
  { rewrite Hcfg0. exact Hwait. }
  rewrite app_nil_r in Hflags1, Hend1.
  rewrite feed_volume_cons, Hc0. cbn [fst snd].
  rewrite flags_cons, Hflag0, Hflags1, Hend1. cbn [feed_frames fst snd flags map].
  rewrite app_nil_r. cbn [length repeat head fmap option_fmap option_map].
  repeat split; congruence.
Qed.

(** Every frame after [first] is less than [d] ms after it, or the
    frames split at the earliest one that is not. *)
Lemma first_frame_held (d : Z) (first : Clock * ExtractionResult)
    (frames : list (Clock * ExtractionResult)) :
  Forall (fun f => (hold_ms first f < inject_Z d)%Q) frames
  \/ exists pre last rest,
       frames = pre ++ last :: rest
       /\ Forall (fun f => (hold_ms first f < inject_Z d)%Q) pre
       /\ (inject_Z d <= hold_ms first last)%Q.
Proof.
  induction frames as [|f frames IH]; [left; constructor|].
  destruct (Qlt_le_dec (hold_ms first f) (inject_Z d)) as [Hlt|Hle].
  - destruct IH as [Hall|(pre & last & rest & -> & Hpre & Hlast)].
    + left. constructor; assumption.
    + right. exists (f :: pre), last, rest.
      split; [reflexivity|]. split; [constructor; assumption|assumption].
  - right. exists [], f, frames. split; [reflexivity|]. split; [constructor|exact Hle].
Qed.

(** Every stream of frames is a sequence of hold periods followed by the
    frames of a period still running. *)
Lemma hold_periods (d : Z) (frames : list (Clock * ExtractionResult)) :
  exists holds tail,
    frames = concat holds ++ tail
    /\ Forall (is_hold d) holds
    /\ is_waiting d tail.
Proof.
  remember (length frames) as n eqn:Hn.
  revert frames Hn. induction n as [n IH] using lt_wf_ind. intros frames Hn.
  destruct frames as [|first fs].
  - exists [], []. repeat split. constructor.
  - destruct (first_frame_held d first fs)
      as [Hall|(pre & last & rest & -> & Hpre & Hlast)].
    + exists [], (first :: fs). repeat split; [constructor|exact Hall].
    + destruct (IH (length rest)) with (frames := rest)
        as (holds & tail & -> & Hholds & Htail); [|reflexivity|].
      { subst n. cbn [length]. rewrite length_app. cbn [length]. lia. }
      exists ((first :: pre ++ [last]) :: holds), tail.
      split; [|split; [|exact Htail]].
      * cbn [concat]. rewrite <- !app_comm_cons, <- !app_assoc. reflexivity.
      * constructor; [|exact Hholds].
        exists first, pre, last. repeat split; assumption.
Qed.

(** C4, as the code has it: a fist held without release toggles mute
    once per hold period, not once per fist.  Every stream of fist
    frames is a sequence of hold periods followed by the frames of a
    period still running.  A hold period is a first frame, frames less
    than [mute_hold_duration_ms] after that first frame, and a last
    frame at least [mute_hold_duration_ms] after it; only the last frame
    of a hold period toggles, and it clears the timer, so that the next
    fist frame starts the next period.  The toggles are as many as the
    completed hold periods, and the mute state is flipped once for
    each. *)
Theorem mute_toggles_once_per_hold_period
    (c : t) (frames : list (Clock * ExtractionResult)) :
  mute_enabled (config c) = true ->
  0 < mute_hold_duration_ms (config c) ->
  _fist_start_time c = None ->
  Forall (fun f => fist_frame (config c) (snd f) = true) frames ->
  (exists holds tail,
     frames = concat holds ++ tail
     /\ Forall (is_hold (mute_hold_duration_ms (config c))) holds
     /\ is_waiting (mute_hold_duration_ms (config c)) tail)
  /\ (forall holds tail,
        frames = concat holds ++ tail ->
        Forall (is_hold (mute_hold_duration_ms (config c))) holds ->
        is_waiting (mute_hold_duration_ms (config c)) tail ->
        flags mute_toggled (fst (feed_frames frames c))
        = concat (map hold_flags holds) ++ repeat false (length tail)
        /\ toggles (fst (feed_frames frames c)) = length holds
        /\ _fist_start_time (snd (feed_frames frames c))
           = (fun f => time_time (fst f)) <$> head tail
        /\ _is_muted (snd (feed_frames frames c))
           = xorb (_is_muted c) (Nat.odd (length holds))).
Proof.
  intros Hmute Hpos Hnone Hfist. split; [apply hold_periods|].
  intros holds tail -> Hholds Htail.
  revert c Hmute Hpos Hnone Hholds Htail Hfist. unfold toggles.
  induction holds as [|hold holds IH];
    intros c Hmute Hpos Hnone Hholds Htail Hfist.
  - cbn [concat app map length Nat.odd] in *. rewrite xorb_false_r.
    destruct (unfinished_hold tail c Hmute Hpos Hnone Htail Hfist)
      as (H1 & H2 & H3).
    rewrite H1. repeat split; try assumption.
    clear. induction (length tail) as [|n IHn]; simpl; auto.
  - inversion Hholds as [|? ? Hhold Hholds']; subst.
    cbn [concat] in *. rewrite <- app_assoc in *.
    apply Forall_app in Hfist as [Hf1 Hf2].
    destruct (one_hold hold (concat holds ++ tail) c Hmute Hpos Hnone Hhold Hf1)
      as (c1 & Hcfg & Hst & Hm & Hflags & Hend).
    destruct (IH c1) as (IH1 & IH2 & IH3 & IH4).
    { rewrite Hcfg. exact Hmute. }
    { rewrite Hcfg. exact Hpos. }
    { exact Hst. }
    { rewrite Hcfg. exact Hholds'. }
    { rewrite Hcfg. exact Htail. }
    { rewrite Hcfg. exact Hf2. }
    rewrite Hflags, Hend, IH1. cbn [map concat length].
    rewrite toggles_hold_flags, <- IH1, IH2, IH3, IH4, Hm, <- app_assoc.
    split; [rewrite IH1; reflexivity|]. repeat split.
    rewrite Nat.odd_succ, <- Nat.negb_odd.
    destruct (_is_muted c), (Nat.odd (length holds)); reflexivity.
Qed.

End MuteHold.

(** A fist seen at time [t] (seconds). *)
Definition fist_at (t : Q) : Clock * ExtractionResult :=
  (mkClock t 0, frame_with fist_hand).

(** A fist held for 2.75 s, seen every quarter or half second: two hold
    periods and the start of a third. *)
Definition two_holds : list (list (Clock * ExtractionResult)) :=
  [[fist_at 0; fist_at (1 # 2); fist_at 1];
   [fist_at (5 # 4); fist_at (7 # 4); fist_at (9 # 4)]].

Definition third_hold : list (Clock * ExtractionResult) :=
  [fist_at (5 # 2); fist_at (11 # 4)].

Definition held_fist : list (Clock * ExtractionResult) :=
  concat two_holds ++ third_hold.

Lemma mute_toggles_witness :
  (exists holds tail,
     held_fist = concat holds ++ tail
     /\ Forall (is_hold 1000) holds
     /\ is_waiting 1000 tail)
  /\ (forall holds tail,
        held_fist = concat holds ++ tail ->
        Forall (is_hold 1000) holds ->
        is_waiting 1000 tail ->
        flags VolumeControlClassifier.mute_toggled
              (fst (feed_frames held_fist volume0))
        = concat (map hold_flags holds) ++ repeat false (length tail)
        /\ toggles (fst (feed_frames held_fist volume0)) = length holds
        /\ VolumeControlClassifier._fist_start_time
             (snd (feed_frames held_fist volume0))
           = (fun f => time_time (fst f)) <$> head tail
        /\ VolumeControlClassifier._is_muted
             (snd (feed_frames held_fist volume0))
           = xorb (VolumeControlClassifier._is_muted volume0)
                  (Nat.odd (length holds))).
Proof.
  apply (mute_toggles_once_per_hold_period volume0 held_fist).
  - reflexivity.
  - reflexivity.
  - reflexivity.
  - repeat constructor.
Defined.

(** C4 as stated fails: a fist held without release for 2.75 s toggles
    mute twice, on the frame 1.0 s after the first fist frame and again
    on the frame 1.0 s after the frame that followed the first toggle.
    At 32 frames per second the toggles are frames 32 and 65. *)
Lemma held_fist_toggles_twice :
  flags VolumeControlClassifier.mute_toggled
        (fst (feed_frames held_fist volume0))
  = [false; false; true; false; false; true; false; false]
  /\ toggles (fst (feed_frames held_fist volume0)) = 2%nat
  /\ (let frames := map (fun k => fist_at (inject_Z (Z.of_nat k) / 32)) (seq 0 66) in
      let toggled := flags VolumeControlClassifier.mute_toggled
                           (fst (feed_frames frames volume0)) in
      toggles (fst (feed_frames frames volume0)) = 2%nat
      /\ toggled !! 32%nat = Some true /\ toggled !! 65%nat = Some true).
Proof. vm_compute. repeat split; reflexivity. Qed.

(** ** The One-Euro filter (features/virtual_mouse/filters.py) *)

Section OneEuro.
Import OneEuroFilter.
Local Open Scope Q_scope.

Lemma pi_pos : 0 < PyFloat.pi.
Proof. reflexivity. Qed.

Lemma div_some (a b : Q) : ~ b == 0 -> PyFloat.div a b = Some (a / b).
Proof.
  intros Hb. unfold PyFloat.div.
  destruct (PyFloat.eqb b 0) eqn:E; [apply PyFloat.eqb_eq in E; contradiction|].
  reflexivity.
Qed.

(** [_alpha] on a positive cutoff and frequency: no division fails, and
    the result is [2 pi c / (2 pi c + f)]. *)
Lemma alpha_spec (c f : Q) :
  0 < c -> 0 < f ->
  exists a, _alpha c f = Some a
            /\ a * (2 * PyFloat.pi * c + f) == 2 * PyFloat.pi * c.
Proof.
  intros Hc Hf. pose proof pi_pos as Hpi.
  assert (Hk : 0 < 2 * PyFloat.pi * c) by nra.
  unfold _alpha.
  rewrite (div_some 1 (2 * PyFloat.pi * c)) by lra. cbn [mbind option_bind].
  rewrite (div_some 1 f) by lra. cbn [mbind option_bind].
  assert (Hte : 0 < 1 / f) by (apply Qlt_shift_div_l; lra).
  assert (Htau : 0 < 1 / (2 * PyFloat.pi * c)) by (apply Qlt_shift_div_l; lra).
  rewrite div_some by lra. cbn [mbind option_bind].
  assert (Hr : 0 < 1 / (2 * PyFloat.pi * c) / (1 / f))
    by (apply Qlt_shift_div_l; lra).
  rewrite div_some by lra.
  eexists. split; [reflexivity|].
  field. repeat split; lra.
Qed.

Lemma alpha_range (c f a : Q) :
  0 < c -> 0 < f ->
  a * (2 * PyFloat.pi * c + f) == 2 * PyFloat.pi * c ->
  0 < a /\ a < 1.
Proof.
  intros Hc Hf Ha. pose proof pi_pos as Hpi.
  assert (Hk : 0 < 2 * PyFloat.pi * c) by nra.
  split; nra.
Qed.

(** The parameters a filter is built with, and the invariant of its
    state. *)
Definition valid (f : t) : Prop :=
  0 < _freq f /\ 0 < _min_cutoff f /\ 0 <= _beta f /\ 0 < _d_cutoff f
  /\ (is_Some (LowPassFilter._y (_x f)) -> is_Some (LowPassFilter._s (_x f)))
  /\ (is_Some (LowPassFilter._y (_dx f)) -> is_Some (LowPassFilter._s (_dx f))).

Definition same_parameters (f f' : t) : Prop :=
  _min_cutoff f' = _min_cutoff f /\ _beta f' = _beta f
  /\ _d_cutoff f' = _d_cutoff f.

(** The sampling frequency the filter uses for a sample. *)
Definition frequency (timestamp : option Q) (f : t) : Q :=
  match timestamp, _last_time f with
  | Some ts, Some last =>
      if PyFloat.ltb 0 (ts - last) then 1 / (ts - last) else _freq f
  | _, _ => _freq f
  end.

Lemma frequency_pos (timestamp : option Q) (f : t) :
  0 < _freq f -> 0 < frequency timestamp f.
Proof.
  intros Hf. unfold frequency.
  destruct timestamp as [ts|]; [|exact Hf].
  destruct (_last_time f) as [last|]; [|exact Hf].
  destruct (PyFloat.ltb 0 (ts - last)) eqn:E; [|exact Hf].
  apply PyFloat.ltb_lt in E. apply Qlt_shift_div_l; lra.
Qed.

Lemma lowpass_total (v a : Q) (lp : LowPassFilter.t) :
  (is_Some (LowPassFilter._y lp) -> is_Some (LowPassFilter._s lp)) ->
  exists out,
    LowPassFilter.filter v a lp
    = (inr out, LowPassFilter.mk a (Some v) (Some out))
    /\ match LowPassFilter._y lp, LowPassFilter._s lp with
       | Some _, Some s => out = a * v + (1 - a) * s
       | _, _ => out = v
       end.
Proof.
  intros Hlp. unfold LowPassFilter.filter.
  destruct (LowPassFilter._y lp) as [y|].
  - destruct (Hlp ltac:(eauto)) as [s ->]. eexists. split; reflexivity.
  - eexists. split; reflexivity.
Qed.

(** One sample through a valid filter: no exception, and the output is
    the input on the first sample and afterwards a convex combination of
    the input and the previous output, whose weight [a] is
    [2 pi c / (2 pi c + freq)] for a cutoff [c] that is at least
    [min_cutoff]. *)
Lemma filter_step (x : Q) (timestamp : option Q) (now : Q) (f : t) :
  valid f ->
  exists out a c f',
    filter x timestamp now f = (inr out, f')
    /\ valid f' /\ same_parameters f f'
    /\ _last_time f' = Some (timestamp_or timestamp now)
    /\ LowPassFilter._y (_x f') = Some x
    /\ LowPassFilter._s (_x f') = Some out
    /\ _min_cutoff f <= c
    /\ a * (2 * PyFloat.pi * c + frequency timestamp f) == 2 * PyFloat.pi * c
    /\ 0 < a /\ a < 1
    /\ match LowPassFilter._y (_x f), LowPassFilter._s (_x f) with
       | Some _, Some s => out = a * x + (1 - a) * s
       | _, _ => out = x
       end.
Proof.
  intros (Hfreq & Hmin & Hbeta & Hd & Hx & Hdx).
  pose proof (frequency_pos timestamp f Hfreq) as Hfr.
  unfold filter. fold (frequency timestamp f).
  set (fr := frequency timestamp f) in *.
  destruct (alpha_spec (_d_cutoff f) fr Hd Hfr) as (ed & -> & Hed).
  set (dx := (x - default x (LowPassFilter.last_value (_x f))) * fr).
  destruct (lowpass_total dx ed (_dx f) Hdx) as (edx & -> & _).
  set (c := _min_cutoff f + _beta f * Qabs edx).
  assert (Hc : _min_cutoff f <= c).
  { unfold c. pose proof (Qabs_nonneg edx). nra. }
  destruct (alpha_spec c fr ltac:(lra) Hfr) as (a & -> & Ha).
  destruct (lowpass_total x a (_x f) Hx) as (out & -> & Hout).
  destruct (alpha_range c fr a ltac:(lra) Hfr Ha) as [Ha0 Ha1].
  exists out, a, c. eexists. split; [reflexivity|].
  cbn. repeat split; auto; try (intros _; eexists; reflexivity).
Qed.














Lemma init_valid (freq min_cutoff beta d_cutoff : Q) :
  0 < freq -> 0 < min_cutoff -> 0 <= beta -> 0 < d_cutoff ->
  valid (init freq min_cutoff beta d_cutoff).
Proof.
  intros. unfold valid. simpl.
  repeat split; auto; intros [? Hn]; discriminate.
Qed.

End OneEuro.


(** A step from 0 to 100 sampled at 30 Hz with the default parameters:
    the outputs climb toward 100 and never pass it. *)
Example one_euro_step_response :
  let signal := map (fun k => OneEuroFilter.mkSample
                                (if (k <? 2)%nat then 0 else 100)
                                (Some (1 + inject_Z (Z.of_nat k) / 30))%Q 0)
                    (seq 0 6) in
  map PyFloat.int (fst (OneEuroFilter.feed signal (OneEuroFilter.init 30 1 (7 # 1000) 1)))
  = [0; 0; 49; 72; 84; 90].
Proof. vm_compute. reflexivity. Qed.


(** ** Click and drag (features/virtual_mouse) *)

Section ClickAndDrag.
Import VirtualMouseClassifier.

(** What the classifier sees of the pinch on a frame: [Some p] when the
    frame is tracked (a hand with its 21 landmarks, pointing when the
    configuration requires it) and the thumb-index distance is below the
    click threshold or not, [None] when the hand is lost. *)
Definition pinch_seen (cfg : VirtualMouseConfig) (ex : ExtractionResult)
    : option bool :=
  match select_hand (preferred_hand cfg) ex with
  | Some hand =>
      let ls := landmarks hand in
      if (length ls <? 21)%nat then None
      else if require_pointing_gesture cfg && negb (_check_pointing ls) then None
      else Some (PyFloat.ltb (landmark_distance (landmark_at ls THUMB_TIP)
                                                (landmark_at ls INDEX_TIP))
                             (click_threshold cfg))
  | None => None
  end.

(** A classifier whose smoothing filters have their parameters in range
    and whose gesture zone has a width and a height: on a tracked frame
    it raises nothing. *)
Definition ready (c : t) : Prop :=
  valid (OneEuroFilter2D._filter_x (_filter c))
  /\ valid (OneEuroFilter2D._filter_y (_filter c))
  /\ ~ (snd (gesture_zone_x (config c)) - fst (gesture_zone_x (config c)) == 0)%Q
  /\ ~ (snd (gesture_zone_y (config c)) - fst (gesture_zone_y (config c)) == 0)%Q.

(** The three events of a result, [(click, drag, release)], and those of
    a stream. *)
Definition events (r : InferenceResult) : bool * bool * bool :=
  (flag "click" r, flag "drag" r, flag "release" r).

Definition emitted (rs : list (PyExn + InferenceResult))
    : list (bool * bool * bool) :=
  map (fun r => match r with
                | inr res => events res
                | inl _ => (false, false, false)
                end) rs.

Definition command_events (cmd : CursorCommand) : bool * bool * bool :=
  (click cmd, drag cmd, release cmd).

(** The milliseconds since the pinch began at [t0]. *)
Definition held_ms (t0 now : Q) : Q := ((now - t0) * 1000)%Q.

Definition delay_of (cfg : VirtualMouseConfig) : Q :=
  inject_Z (drag_start_delay_ms cfg).

Definition seen_at (f : Clock * ExtractionResult) : Q := time_time (fst f).

(** *** [_update_state], case by case *)

(** A pinched frame before the delay: nothing is emitted and the timer
    runs from [t0]. *)
Lemma pinch_waits (c : t) (x y : Z) (now t0 : Q) :
  _is_dragging c = false ->
  default now (_click_start_time c) = t0 ->
  (held_ms t0 now < delay_of (config c))%Q ->
  command_events (fst (_update_state c true x y now)) = (false, false, false)
  /\ _click_start_time (snd (_update_state c true x y now)) = Some t0
  /\ _is_dragging (snd (_update_state c true x y now)) = false.
Proof.
  intros Hd Hs Hlt. unfold _update_state, held_ms, delay_of in *.
  rewrite Hs, Hd.
  destruct (PyFloat.leb _ _) eqn:E;
    [apply PyFloat.leb_le in E; apply Qle_not_lt in E; contradiction|].
  simpl. repeat split.
Qed.

(** The pinched frame that reaches the delay starts the drag. *)
Lemma pinch_starts_drag (c : t) (x y : Z) (now t0 : Q) :
  _is_dragging c = false ->
  default now (_click_start_time c) = t0 ->
  (delay_of (config c) <= held_ms t0 now)%Q ->
  command_events (fst (_update_state c true x y now)) = (false, true, false)
  /\ cmd_state (fst (_update_state c true x y now)) = DRAGGING
  /\ _click_start_time (snd (_update_state c true x y now)) = Some t0
  /\ _is_dragging (snd (_update_state c true x y now)) = true.
Proof.
  intros Hd Hs Hle. unfold _update_state, held_ms, delay_of in *.
  rewrite Hs, Hd.
  destruct (PyFloat.leb _ _) eqn:E;
    [|apply PyFloat.leb_gt in E; apply Qlt_not_le in E; contradiction].
  simpl. repeat split.
Qed.

(** Every pinched frame of a drag in progress emits [drag] again. *)
Lemma pinch_keeps_dragging (c : t) (x y : Z) (now : Q) :
  _is_dragging c = true ->
  command_events (fst (_update_state c true x y now)) = (false, true, false)
  /\ is_Some (_click_start_time (snd (_update_state c true x y now)))
  /\ _is_dragging (snd (_update_state c true x y now)) = true.
Proof.
  intros Hd. unfold _update_state. rewrite Hd, andb_false_r. simpl.
  repeat split. eexists. reflexivity.
Qed.

(** The frame on which the pinch is released. *)
Lemma release_clicks (c : t) (x y : Z) (now t0 : Q) :
  _is_dragging c = false ->
  _click_start_time c = Some t0 ->
  (held_ms t0 now < delay_of (config c))%Q ->
  command_events (fst (_update_state c false x y now)) = (true, false, false)
  /\ _click_start_time (snd (_update_state c false x y now)) = None
  /\ _is_dragging (snd (_update_state c false x y now)) = false.
Proof.
  intros Hd Hs Hlt. unfold _update_state, held_ms, delay_of in *.
  rewrite Hs, Hd.
  destruct (PyFloat.ltb _ _) eqn:E;
    [|apply PyFloat.ltb_ge in E; apply Qle_not_lt in E; contradiction].
  simpl. repeat split.
Qed.

(** A release seen only after the delay, with no pinched frame at or
    after it: neither a click nor a drag. *)
Lemma release_too_late (c : t) (x y : Z) (now t0 : Q) :
  _is_dragging c = false ->
  _click_start_time c = Some t0 ->
  (delay_of (config c) <= held_ms t0 now)%Q ->
  command_events (fst (_update_state c false x y now)) = (false, false, false)
  /\ _click_start_time (snd (_update_state c false x y now)) = None
  /\ _is_dragging (snd (_update_state c false x y now)) = false.
Proof.
  intros Hd Hs Hle. unfold _update_state, held_ms, delay_of in *.
  rewrite Hs, Hd.
  destruct (PyFloat.ltb _ _) eqn:E;
    [apply PyFloat.ltb_lt in E; apply Qlt_not_le in E; contradiction|].
  simpl. repeat split.
Qed.

Lemma release_ends_drag (c : t) (x y : Z) (now : Q) :
  _is_dragging c = true ->
  is_Some (_click_start_time c) ->
  command_events (fst (_update_state c false x y now)) = (false, false, true)
  /\ _click_start_time (snd (_update_state c false x y now)) = None
  /\ _is_dragging (snd (_update_state c false x y now)) = false.
Proof.
  intros Hd [t0 Hs]. unfold _update_state. rewrite Hs, Hd. simpl.
  repeat split.
Qed.

(** [_update_state] leaves the configuration and the filters alone. *)
Lemma update_state_keeps (c : t) (p : bool) (x y : Z) (now : Q) :
  config (snd (_update_state c p x y now)) = config c
  /\ _filter (snd (_update_state c p x y now)) = _filter c.
Proof.
  unfold _update_state.
  destruct p; [destruct (_ && _); [|destruct (_is_dragging c)]|
               destruct (_click_start_time c);
                 [destruct (_is_dragging c); [|destruct (PyFloat.ltb _ _)]|]];
    split; reflexivity.
Qed.

(** *** [classify] on a tracked frame *)

Lemma filter2d_total (sx sy now : Q) (flt : OneEuroFilter2D.t) :
  valid (OneEuroFilter2D._filter_x flt) -> valid (OneEuroFilter2D._filter_y flt) ->
  exists fx fy flt',
    OneEuroFilter2D.filter sx sy (Some now) now flt = (inr (fx, fy), flt')
    /\ valid (OneEuroFilter2D._filter_x flt')
    /\ valid (OneEuroFilter2D._filter_y flt').
Proof.
  intros Hx Hy. unfold OneEuroFilter2D.filter.
  destruct (filter_step sx (Some now) now _ Hx)
    as (fx & ? & ? & fx' & -> & Hvx & _).
  destruct (filter_step sy (Some now) now _ Hy)
    as (fy & ? & ? & fy' & -> & Hvy & _).
  exists fx, fy. eexists. split; [reflexivity|]. split; assumption.
Qed.

Lemma events_of_result (c : t) (elapsed : Q) (g : GestureType) (conf : Q)
    (x y : Z) (cmd : CursorCommand) (pinch : Q) :
  events (_create_result c elapsed g conf
            (mkKwargs (Some x) (Some y) (Some (click cmd)) (Some (drag cmd))
                      (Some (release cmd)) (Some pinch)))
  = command_events cmd.
Proof. reflexivity. Qed.

(** On a tracked frame [classify] raises nothing and emits the events of
    the command that [_update_state] returns, called on an object with
    the same configuration and the same pinch in progress. *)
Lemma update_state_ready (c : t) (p : bool) (x y : Z) (now : Q) :
  ready c -> ready (snd (_update_state c p x y now)).
Proof.
  unfold ready. destruct (update_state_keeps c p x y now) as [-> ->]. tauto.
Qed.

Lemma classify_step (c : t) (clk : Clock) (ex : ExtractionResult) (p : bool) :
  ready c ->
  pinch_seen (config c) ex = Some p ->
  exists (c2 : t) (x y : Z) (r : InferenceResult),
    config c2 = config c
    /\ _click_start_time c2 = _click_start_time c
    /\ _is_dragging c2 = _is_dragging c
    /\ classify c clk ex = (inr r, snd (_update_state c2 p x y (time_time clk)))
    /\ events r = command_events (fst (_update_state c2 p x y (time_time clk)))
    /\ ready (snd (_update_state c2 p x y (time_time clk))).
Proof.
  intros (Hfx & Hfy & Hzx & Hzy) Hseen.
  unfold pinch_seen in Hseen. unfold classify, _get_tracking_hand.
  destruct (select_hand (preferred_hand (config c)) ex) as [hand|];
    [|discriminate].
  cbv zeta in Hseen.
  destruct (length (landmarks hand) <? 21)%nat; [discriminate|].
  destruct (require_pointing_gesture (config c)
            && negb (_check_pointing (landmarks hand))); [discriminate|].
  injection Hseen as Hp.
  unfold _map_to_screen.
  rewrite !div_some by assumption. cbn [mbind option_bind].
  match goal with
  | |- context [OneEuroFilter2D.filter ?sx ?sy _ _ _] =>
      destruct (filter2d_total sx sy (time_time clk) (_filter c) Hfx Hfy)
        as (fx & fy & flt' & Hflt & Hvx & Hvy);
      set (mx := sx) in *; set (my := sy) in *
  end.
  destruct (smoothing_enabled (config c)).
  - rewrite Hflt, Hp.
    pose proof (update_state_ready
                  (mk (config c) (_screen_width c) (_screen_height c) flt'
                      (_state c) (_click_start_time c) (_last_click_time c)
                      (_is_dragging c) (PyFloat.int fx, PyFloat.int fy))
                  p (PyFloat.int fx) (PyFloat.int fy) (time_time clk)) as Hr.
    exists (mk (config c) (_screen_width c) (_screen_height c) flt'
               (_state c) (_click_start_time c) (_last_click_time c)
               (_is_dragging c) (PyFloat.int fx, PyFloat.int fy)),
      (PyFloat.int fx), (PyFloat.int fy).
    destruct (_update_state _ p (PyFloat.int fx) (PyFloat.int fy) _)
      as [cmd c3].
    eexists. do 4 (split; [reflexivity|]).
    split; [apply events_of_result|].
    apply Hr. unfold ready. simpl. tauto.
  - rewrite Hp.
    pose proof (update_state_ready
                  (mk (config c) (_screen_width c) (_screen_height c)
                      (_filter c)
                      (_state c) (_click_start_time c) (_last_click_time c)
                      (_is_dragging c) (PyFloat.int mx, PyFloat.int my))
                  p (PyFloat.int mx) (PyFloat.int my) (time_time clk)) as Hr.
    exists (mk (config c) (_screen_width c) (_screen_height c) (_filter c)
               (_state c) (_click_start_time c) (_last_click_time c)
               (_is_dragging c) (PyFloat.int mx, PyFloat.int my)),
      (PyFloat.int mx), (PyFloat.int my).
    destruct (_update_state _ p (PyFloat.int mx) (PyFloat.int my) _)
      as [cmd c3].
    eexists. do 4 (split; [reflexivity|]).
    split; [apply events_of_result|].
    apply Hr. unfold ready. simpl. tauto.
Qed.

(** *** Streams of frames *)

Definition pinching (cfg : VirtualMouseConfig) (f : Clock * ExtractionResult)
    : Prop :=
  pinch_seen cfg (snd f) = Some true.

Definition releasing (cfg : VirtualMouseConfig) (f : Clock * ExtractionResult)
    : Prop :=
  pinch_seen cfg (snd f) = Some false.

Definition nothing : bool * bool * bool := (false, false, false).
Definition only_click : bool * bool * bool := (true, false, false).
Definition only_drag : bool * bool * bool := (false, true, false).
Definition only_release : bool * bool * bool := (false, false, true).

Lemma feed_mouse_cons (f : Clock * ExtractionResult)
    (rest : list (Clock * ExtractionResult)) (c : t) :
  feed_frames (f :: rest) c
  = (fst (classify c (fst f) (snd f))
     :: fst (feed_frames rest (snd (classify c (fst f) (snd f)))),
     snd (feed_frames rest (snd (classify c (fst f) (snd f))))).
Proof. exact (feed_frames_cons f rest c). Qed.

Lemma feed_mouse_step (c : t) (f : Clock * ExtractionResult)
    (rest : list (Clock * ExtractionResult)) (p : bool) :
  ready c ->
  pinch_seen (config c) (snd f) = Some p ->
  exists (c2 : t) (x y : Z),
    config c2 = config c
    /\ _click_start_time c2 = _click_start_time c
    /\ _is_dragging c2 = _is_dragging c
    /\ ready (snd (_update_state c2 p x y (seen_at f)))
    /\ emitted (fst (feed_frames (f :: rest) c))
       = command_events (fst (_update_state c2 p x y (seen_at f)))
         :: emitted (fst (feed_frames rest
                            (snd (_update_state c2 p x y (seen_at f))))).
Proof.
  intros Hr Hp.
  destruct (classify_step c (fst f) (snd f) p Hr Hp)
    as (c2 & x & y & r & H1 & H2 & H3 & Hc & He & Hr').
  exists c2, x, y. unfold seen_at.
  split; [exact H1|]. split; [exact H2|]. split; [exact H3|].
  split; [exact Hr'|].
  rewrite feed_mouse_cons, Hc. cbn [fst snd emitted map]. rewrite He. reflexivity.
Qed.

(** Pinched frames before the delay emit nothing. *)
Lemma pinches_before_delay (t0 : Q) (fs rest : list (Clock * ExtractionResult)) :
  forall c : t,
    ready c -> _is_dragging c = false -> _click_start_time c = Some t0 ->
    Forall (pinching (config c)) fs ->
    Forall (fun f => (held_ms t0 (seen_at f) < delay_of (config c))%Q) fs ->
    exists c1 : t,
      ready c1 /\ config c1 = config c
      /\ _click_start_time c1 = Some t0 /\ _is_dragging c1 = false
      /\ emitted (fst (feed_frames (fs ++ rest) c))
         = repeat nothing (length fs) ++ emitted (fst (feed_frames rest c1)).
Proof.
  induction fs as [|f fs IH]; intros c Hr Hd Hs Hp Hw.
  - exists c. split; [exact Hr|]. split; [reflexivity|].
    split; [exact Hs|]. split; [exact Hd|]. reflexivity.
  - inversion Hp as [|? ? Hp1 Hp2]; subst.
    inversion Hw as [|? ? Hw1 Hw2]; subst.
    destruct (feed_mouse_step c f (fs ++ rest) true Hr Hp1)
      as (c2 & x & y & E1 & E2 & E3 & Hr' & He).
    destruct (pinch_waits c2 x y (seen_at f) t0) as (Hq & Hs' & Hd').
    { congruence. } { rewrite E2, Hs. reflexivity. } { rewrite E1. exact Hw1. }
    destruct (update_state_keeps c2 true x y (seen_at f)) as [Hk _].
    destruct (IH _ Hr' Hd' Hs') as (c1 & R1 & R2 & R3 & R4 & R5).
    { rewrite Hk, E1. exact Hp2. } { rewrite Hk, E1. exact Hw2. }
    exists c1. split; [exact R1|]. split; [congruence|].
    split; [exact R3|]. split; [exact R4|].
    rewrite <- app_comm_cons, He, Hq, R5. reflexivity.
Qed.

(** Pinched frames of a drag in progress each emit [drag]. *)
Lemma pinches_of_a_drag (fs rest : list (Clock * ExtractionResult)) :
  forall c : t,
    ready c -> _is_dragging c = true -> is_Some (_click_start_time c) ->
    Forall (pinching (config c)) fs ->
    exists c1 : t,
      ready c1 /\ config c1 = config c
      /\ is_Some (_click_start_time c1) /\ _is_dragging c1 = true
      /\ emitted (fst (feed_frames (fs ++ rest) c))
         = repeat only_drag (length fs) ++ emitted (fst (feed_frames rest c1)).
Proof.
  induction fs as [|f fs IH]; intros c Hr Hd Hs Hp.
  - exists c. split; [exact Hr|]. split; [reflexivity|].
    split; [exact Hs|]. split; [exact Hd|]. reflexivity.
  - inversion Hp as [|? ? Hp1 Hp2]; subst.
    destruct (feed_mouse_step c f (fs ++ rest) true Hr Hp1)
      as (c2 & x & y & E1 & E2 & E3 & Hr' & He).
    destruct (pinch_keeps_dragging c2 x y (seen_at f)) as (Hq & Hs' & Hd').
    { congruence. }
    destruct (update_state_keeps c2 true x y (seen_at f)) as [Hk _].
    destruct (IH _ Hr' Hd' Hs') as (c1 & R1 & R2 & R3 & R4 & R5).
    { rewrite Hk, E1. exact Hp2. }
    exists c1. split; [exact R1|]. split; [congruence|].
    split; [exact R3|]. split; [exact R4|].
    rewrite <- app_comm_cons, He, Hq, R5. reflexivity.
Qed.

Lemma held_at_start (now : Q) : (held_ms now now == 0)%Q.
Proof. unfold held_ms. ring. Qed.

(** The first pinched frame starts the timer and the frames before the
    delay leave it running. *)
Lemma pinch_begins (c : t) (first : Clock * ExtractionResult)
    (waiting rest : list (Clock * ExtractionResult)) :
  ready c ->
  _click_start_time c = None ->
  _is_dragging c = false ->
  (0 < delay_of (config c))%Q ->
  Forall (pinching (config c)) (first :: waiting) ->
  Forall (fun f => (held_ms (seen_at first) (seen_at f) < delay_of (config c))%Q)
         waiting ->
  exists c1 : t,
    ready c1 /\ config c1 = config c
    /\ _click_start_time c1 = Some (seen_at first) /\ _is_dragging c1 = false
    /\ emitted (fst (feed_frames (first :: waiting ++ rest) c))
       = repeat nothing (S (length waiting))
         ++ emitted (fst (feed_frames rest c1)).
Proof.
  intros Hr Hs Hd Hpos Hp Hw.
  inversion Hp as [|? ? Hp1 Hp2]; subst.
  destruct (feed_mouse_step c first (waiting ++ rest) true Hr Hp1)
    as (c2 & x & y & E1 & E2 & E3 & Hr' & He).
  destruct (pinch_waits c2 x y (seen_at first) (seen_at first))
    as (Hq & Hs' & Hd').
  { congruence. } { rewrite E2, Hs. reflexivity. }
  { rewrite held_at_start, E1. exact Hpos. }
  destruct (update_state_keeps c2 true x y (seen_at first)) as [Hk _].
  destruct (pinches_before_delay (seen_at first) waiting rest _ Hr' Hd' Hs')
    as (c1 & R1 & R2 & R3 & R4 & R5).
  { rewrite Hk, E1. exact Hp2. } { rewrite Hk, E1. exact Hw. }
  exists c1. split; [exact R1|]. split; [congruence|].
  split; [exact R3|]. split; [exact R4|].
  rewrite He, Hq, R5. reflexivity.
Qed.

(** C5, as the code has it: from a classifier with no pinch in progress,
    a pinch released before [drag_start_delay_ms] emits no event on its
    pinched frames and [click] alone on the release frame; a pinch that
    reaches the delay emits [drag] on the frame that reaches it and on
    every later pinched frame, and [release] alone on the release frame;
    a pinch whose release frame is the first frame at or after the delay
    emits no event at all.  Each triple is [(click, drag, release)]. *)
Theorem click_or_drag (c : t) (first : Clock * ExtractionResult)
    (waiting : list (Clock * ExtractionResult)) :
  ready c ->
  _click_start_time c = None ->
  _is_dragging c = false ->
  (0 < delay_of (config c))%Q ->
  Forall (pinching (config c)) (first :: waiting) ->
  Forall (fun f => (held_ms (seen_at first) (seen_at f) < delay_of (config c))%Q)
         waiting ->
  (forall released : Clock * ExtractionResult,
     releasing (config c) released ->
     (held_ms (seen_at first) (seen_at released) < delay_of (config c))%Q ->
     emitted (fst (feed_frames (first :: waiting ++ [released]) c))
     = repeat nothing (S (length waiting)) ++ [only_click])
  /\ (forall (reached : Clock * ExtractionResult)
             (later : list (Clock * ExtractionResult))
             (released : Clock * ExtractionResult),
     pinching (config c) reached ->
     Forall (pinching (config c)) later ->
     releasing (config c) released ->
     (delay_of (config c) <= held_ms (seen_at first) (seen_at reached))%Q ->
     emitted (fst (feed_frames
                     (first :: waiting ++ reached :: later ++ [released]) c))
     = repeat nothing (S (length waiting))
       ++ repeat only_drag (S (length later)) ++ [only_release])
  /\ (forall released : Clock * ExtractionResult,
     releasing (config c) released ->
     (delay_of (config c) <= held_ms (seen_at first) (seen_at released))%Q ->
     emitted (fst (feed_frames (first :: waiting ++ [released]) c))
     = repeat nothing (S (length waiting)) ++ [nothing]).
Proof.
  intros Hr Hs Hd Hpos Hp Hw. split; [|split].
  - intros rel Hrel Hlt.
    destruct (pinch_begins c first waiting [rel] Hr Hs Hd Hpos Hp Hw)
      as (c1 & R1 & R2 & R3 & R4 & ->).
    f_equal.
    destruct (feed_mouse_step c1 rel [] false R1) as
      (c2 & x & y & E1 & E2 & E3 & _ & ->). { rewrite R2. exact Hrel. }
    destruct (release_clicks c2 x y (seen_at rel) (seen_at first))
      as (-> & _). { congruence. } { congruence. }
    { rewrite E1, R2. exact Hlt. }
    reflexivity.
  - intros reached later rel Hreach Hlater Hrel Hle.
    destruct (pinch_begins c first waiting (reached :: later ++ [rel])
                Hr Hs Hd Hpos Hp Hw)
      as (c1 & R1 & R2 & R3 & R4 & ->).
    f_equal.
    destruct (feed_mouse_step c1 reached (later ++ [rel]) true R1) as
      (c2 & x & y & E1 & E2 & E3 & Hr2 & ->). { rewrite R2. exact Hreach. }
    destruct (pinch_starts_drag c2 x y (seen_at reached) (seen_at first))
      as (-> & _ & Hs2 & Hd2).
    { congruence. } { rewrite E2, R3. reflexivity. }
    { rewrite E1, R2. exact Hle. }
    destruct (update_state_keeps c2 true x y (seen_at reached)) as [Hk _].
    destruct (pinches_of_a_drag later [rel] _ Hr2 Hd2) as
      (c3 & D1 & D2 & D3 & D4 & ->).
    { rewrite Hs2. eexists. reflexivity. }
    { rewrite Hk, E1, R2. exact Hlater. }
    destruct (feed_mouse_step c3 rel [] false D1) as
      (c4 & x' & y' & F1 & F2 & F3 & _ & ->).
    { rewrite D2, Hk, E1, R2. exact Hrel. }
    destruct (release_ends_drag c4 x' y' (seen_at rel)) as (-> & _).
    { congruence. } { rewrite F2. exact D3. }
    reflexivity.
  - intros rel Hrel Hle.
    destruct (pinch_begins c first waiting [rel] Hr Hs Hd Hpos Hp Hw)
      as (c1 & R1 & R2 & R3 & R4 & ->).
    f_equal.
    destruct (feed_mouse_step c1 rel [] false R1) as
      (c2 & x & y & E1 & E2 & E3 & _ & ->). { rewrite R2. exact Hrel. }
    destruct (release_too_late c2 x y (seen_at rel) (seen_at first))
      as (-> & _). { congruence. } { congruence. }
    { rewrite E1, R2. exact Hle. }
    reflexivity.
Qed.

End ClickAndDrag.

(** The classifier as constructed from a configuration is ready when the
    smoothing parameters are in range and the gesture zone has an
    extent. *)
Lemma init_ready (cfg : VirtualMouseClassifier.VirtualMouseConfig)
    (size : option (Z * Z)) :
  (0 < VirtualMouseClassifier.smoothing_min_cutoff cfg)%Q ->
  (0 <= VirtualMouseClassifier.smoothing_beta cfg)%Q ->
  (0 < VirtualMouseClassifier.smoothing_d_cutoff cfg)%Q ->
  ~ (snd (VirtualMouseClassifier.gesture_zone_x cfg)
     - fst (VirtualMouseClassifier.gesture_zone_x cfg) == 0)%Q ->
  ~ (snd (VirtualMouseClassifier.gesture_zone_y cfg)
     - fst (VirtualMouseClassifier.gesture_zone_y cfg) == 0)%Q ->
  ready (VirtualMouseClassifier.init cfg size).
Proof.
  intros H1 H2 H3 H4 H5. unfold ready, VirtualMouseClassifier.init.
  destruct (default _ size) as [w h]. simpl.
  repeat split; try assumption; apply init_valid; try assumption; reflexivity.
Qed.

Definition pointing_hand (pinches : bool) : HandLandmarks :=
  make_hand RIGHT (fun i =>
    if Nat.eqb i 8 then (1 # 2, 4 # 10)
    else if Nat.eqb i 4
         then (if pinches then (51 # 100, 4 # 10) else (6 # 10, 4 # 10))
    else if Nat.eqb i 12 || Nat.eqb i 16 || Nat.eqb i 20 then (1 # 2, 6 # 10)
    else (1 # 2, 1 # 2)).

Definition pointing_at (pinches : bool) (t : Q) : Clock * ExtractionResult :=
  (mkClock t 0, frame_with (pointing_hand pinches)).

Definition mouse0 : VirtualMouseClassifier.t :=
  VirtualMouseClassifier.init VirtualMouseClassifier.default_config None.

Lemma mouse0_ready : ready mouse0.
Proof.
  apply init_ready; try reflexivity; intros H; vm_compute in H; discriminate.
Qed.

Lemma click_or_drag_witness :
  let cfg := VirtualMouseClassifier.default_config in
  let first := pointing_at true 10 in
  let waiting := [pointing_at true (161 # 16); pointing_at true (81 # 8)] in
  (forall released : Clock * ExtractionResult,
     releasing cfg released ->
     (held_ms (seen_at first) (seen_at released) < delay_of cfg)%Q ->
     emitted (fst (feed_frames (first :: waiting ++ [released]) mouse0))
     = repeat nothing 3 ++ [only_click])
  /\ (forall (reached : Clock * ExtractionResult)
             (later : list (Clock * ExtractionResult))
             (released : Clock * ExtractionResult),
     pinching cfg reached ->
     Forall (pinching cfg) later ->
     releasing cfg released ->
     (delay_of cfg <= held_ms (seen_at first) (seen_at reached))%Q ->
     emitted (fst (feed_frames
                     (first :: waiting ++ reached :: later ++ [released])
                     mouse0))
     = repeat nothing 3 ++ repeat only_drag (S (length later))
       ++ [only_release])
  /\ (forall released : Clock * ExtractionResult,
     releasing cfg released ->
     (delay_of cfg <= held_ms (seen_at first) (seen_at released))%Q ->
     emitted (fst (feed_frames (first :: waiting ++ [released]) mouse0))
     = repeat nothing 3 ++ [nothing]).
Proof.
  apply (click_or_drag mouse0 (pointing_at true 10)
           [pointing_at true (161 # 16); pointing_at true (81 # 8)]).
  - exact mouse0_ready.
  - reflexivity.
  - reflexivity.
  - reflexivity.
  - repeat constructor.
  - repeat constructor.
Defined.

(** C5 as stated fails on the drag: a pinch held for 500 ms and seen
    every 125 ms emits [drag] on the frame at 250 ms and on both later
    frames of the pinch, three times and not once; [release] follows on
    the release frame.  A pinch released after 125 ms emits one [click]
    and no [drag]. *)
Lemma drag_emitted_on_every_frame :
  let held := map (pointing_at true) [10%Q; 81 # 8; 41 # 4; 83 # 8; 21 # 2]
              ++ [pointing_at false (85 # 8)] in
  let tapped := [pointing_at true 10; pointing_at true (161 # 16);
                 pointing_at false (81 # 8)] in
  flags (VirtualMouseClassifier.flag "drag") (fst (feed_frames held mouse0))
  = [false; false; true; true; true; false]
  /\ flags (VirtualMouseClassifier.flag "release") (fst (feed_frames held mouse0))
     = [false; false; false; false; false; true]
  /\ flags (VirtualMouseClassifier.flag "click") (fst (feed_frames held mouse0))
     = [false; false; false; false; false; false]
  /\ flags (VirtualMouseClassifier.flag "click") (fst (feed_frames tapped mouse0))
     = [false; false; true]
  /\ flags (VirtualMouseClassifier.flag "drag") (fst (feed_frames tapped mouse0))
     = [false; false; false].
Proof. vm_compute. repeat split; reflexivity. Qed.

(** ** The capture thread and its consumer (pipelines/ingestion/camera.py) *)

Section CaptureAccounting.
Import Queue CameraIngestion.

(** What the capture thread and the consumer do to the buffer: a frame
    read from the camera, or a [get_frame] of the consumer.  A [Capture]
    is a whole iteration of [_capture_loop], run with no [get_frame] in
    between its queue calls; the schedules in which the consumer runs
    between them are those of [thread_step] below. *)
Inductive camera_op : Type :=
| Capture (pixels : list Z) (now latency : Q) (w h c : Z)
| GetFrame.

(** The capture source, with the frames captured and the frames
    delivered so far. *)
Record session : Type := mkSession {
  source : CameraIngestion.t;
  frames_captured : list CapturedFrame;
  frames_delivered : list CapturedFrame
}.

Definition camera_step (s : session) (o : camera_op) : session :=
  match o with
  | Capture pixels now latency w h c =>
      mkSession (capture (source s) pixels now latency w h c)
        (frames_captured s
         ++ [mkFrame pixels now (frame_count (source s)) latency w h c])
        (frames_delivered s)
  | GetFrame =>
      match get_frame (source s) with
      | (Some f, src) =>
          mkSession src (frames_captured s) (frames_delivered s ++ [f])
      | (None, src) =>
          mkSession src (frames_captured s) (frames_delivered s)
      end
  end.

Definition camera_run (ops : list camera_op) (s : session) : session :=
  foldl camera_step s ops.


Definition buffered (s : session) : list CapturedFrame :=
  items (frame_buffer (source s)).

(** What every step keeps. *)
Definition accounted (n : Z) (s : session) : Prop :=
  maxsize (frame_buffer (source s)) = n
  /\ state (source s) = CAPTURING
  /\ qsize (frame_buffer (source s)) <= n
  /\ frame_count (source s)
     = Z.of_nat (length (frames_delivered s)) + qsize (frame_buffer (source s))
  /\ frame_count (source s) + dropped_frames (source s)
     = Z.of_nat (length (frames_captured s))
  /\ (frames_delivered s ++ buffered s) `sublist_of` frames_captured s.

Lemma enqueue_when_full (s : CameraIngestion.t) (captured : CapturedFrame) :
  0 < maxsize (frame_buffer s) ->
  qsize (frame_buffer s) = maxsize (frame_buffer s) ->
  exists oldest rest,
    items (frame_buffer s) = oldest :: rest
    /\ enqueue s captured
       = CameraIngestion.mk (state s)
           (Queue.mk (maxsize (frame_buffer s)) (rest ++ [captured]))
           (frame_count s) (dropped_frames s + 1) (capture_times s).
Proof.
  intros Hpos Hsize.
  pose proof (full_at_capacity _ Hpos Hsize) as Hfull.
  destruct s as [st [cap its] fc dr ct]. simpl in *.
  destruct its as [|oldest rest].
  - unfold qsize in Hsize. simpl in Hsize. lia.
  - exists oldest, rest. split; [reflexivity|].
    unfold enqueue, put_nowait, get_nowait. simpl. rewrite Hfull. simpl.
    assert (Hroom : full (Queue.mk cap rest) = false).
    { apply not_full_below. unfold qsize in *. simpl in *. lia. }
    rewrite Hroom. reflexivity.
Qed.

Lemma enqueue_with_room (s : CameraIngestion.t) (captured : CapturedFrame) :
  qsize (frame_buffer s) < maxsize (frame_buffer s) ->
  enqueue s captured
  = CameraIngestion.mk (state s)
      (Queue.mk (maxsize (frame_buffer s))
                (items (frame_buffer s) ++ [captured]))
      (frame_count s + 1) (dropped_frames s) (capture_times s).
Proof.
  intros Hlt. unfold enqueue, put_nowait.
  rewrite (not_full_below _ Hlt). reflexivity.
Qed.

Lemma accounted_step (n : Z) (s : session) (o : camera_op) :
  1 <= n -> accounted n s -> accounted n (camera_step s o).
Proof.
  intros Hn (Hmax & Hst & Hsize & Hcount & Htotal & Hsub).
  destruct s as [src cap del]. unfold buffered in *. cbn [source frames_captured
    frames_delivered] in *.
  destruct o as [pixels now latency w h c|]; cbn [camera_step source
    frames_captured frames_delivered].
  - unfold capture.
    set (s1 := CameraIngestion.mk (state src) (frame_buffer src) (frame_count src)
                 (dropped_frames src) (capture_times src ++ [latency])).
    set (f := mkFrame pixels now (frame_count src) latency w h c).
    destruct (Z.eq_dec (qsize (frame_buffer src)) n) as [Hfull|Hroom].
    + destruct (enqueue_when_full s1 f) as (oldest & rest & Hits & ->).
      { simpl. lia. } { simpl. lia. }
      simpl in Hits. unfold accounted, buffered. simpl.
      rewrite Hits in Hsub. unfold qsize in *. rewrite Hits in *.
      simpl in *. rewrite !length_app in *. simpl.
      repeat split; try lia; try assumption.
      rewrite app_assoc. apply sublist_app; [|reflexivity].
      etransitivity; [|exact Hsub].
      apply sublist_app; [reflexivity|]. apply sublist_cons. reflexivity.
    + rewrite (enqueue_with_room s1 f) by (simpl; lia).
      unfold accounted, buffered. simpl. unfold qsize in *. simpl.
      rewrite !length_app. simpl.
      repeat split; try lia; try assumption.
      rewrite app_assoc. apply sublist_app; [exact Hsub|reflexivity].
  - unfold get_frame. rewrite Hst. unfold get_nowait.
    destruct (items (frame_buffer src)) as [|f rest] eqn:Hits.
    + unfold accounted, buffered. simpl. rewrite Hits.
      repeat split; assumption.
    + unfold accounted, buffered. simpl. unfold qsize in *. rewrite Hits in *.
      simpl in *. rewrite length_app. simpl.
      repeat split; try lia; try assumption.
      rewrite <- app_assoc. exact Hsub.
Qed.

Lemma accounted_run (n : Z) (ops : list camera_op) :
  forall s, 1 <= n -> accounted n s -> accounted n (camera_run ops s).
Proof.
  induction ops as [|o ops IH]; intros s Hn Hs; [exact Hs|].
  apply IH; [exact Hn|]. apply accounted_step; assumption.
Qed.


(** *** The capture thread alone *)






End CaptureAccounting.

(** *** The capture thread and the consumer, queue call by queue call *)

Section CaptureInterleaved.
Import Queue CameraIngestion.

(** Where the capture thread stands between two of its statements on
    the shared state (lines 280-288): before it reads a frame, after the
    first [put_nowait] returned, after it raised [QueueFull], after
    [get_nowait] removed the oldest frame, or after the second
    [put_nowait] returned. *)
Inductive capture_phase : Type :=
| AtRead
| AfterPut
| AfterQueueFull (captured : CapturedFrame)
| AfterGet (captured : CapturedFrame)
| AfterSecondPut.

(** The capture source as its two threads see it, with the frames read
    from the camera, the frames the consumer received, and the frames
    that the bare [except: pass] let go. *)
Record threads : Type := mkThreads {
  camera : CameraIngestion.t;
  phase : capture_phase;
  frames_read : list CapturedFrame;
  frames_received : list CapturedFrame;
  frames_lost : list CapturedFrame
}.

(** One step of a schedule.  [Read]: the capture thread reads a frame,
    stamps it and makes its first [put_nowait]; [Continue]: it executes
    its next statement on the queue or on a counter; [Consume]: the
    consumer's [get_frame] takes a frame or times out.  A step that does
    not apply where the capture thread stands is skipped.  The calls of
    the queue and the updates of the counters are the steps: the model
    does not interleave the threads inside one of them. *)
Inductive schedule_step : Type :=
| Read (pixels : list Z) (now latency : Q) (w h c : Z)
| Continue
| Consume.

Definition thread_step (th : threads) (o : schedule_step) : threads :=
  let s := camera th in
  match o, phase th with
  | Read pixels now latency w h c, AtRead =>
      let captured := mkFrame pixels now (frame_count s) latency w h c in
      let times := capture_times s ++ [latency] in
      match put_nowait (frame_buffer s) captured with
      | inr q =>
          mkThreads
            (CameraIngestion.mk (state s) q (frame_count s)
               (dropped_frames s) times)
            AfterPut (frames_read th ++ [captured]) (frames_received th)
            (frames_lost th)
      | inl _ =>
          mkThreads
            (CameraIngestion.mk (state s) (frame_buffer s) (frame_count s)
               (dropped_frames s) times)
            (AfterQueueFull captured) (frames_read th ++ [captured])
            (frames_received th) (frames_lost th)
      end
  | Continue, AfterPut =>
      (* self._frame_count += 1 *)
      mkThreads
        (CameraIngestion.mk (state s) (frame_buffer s) (frame_count s + 1)
           (dropped_frames s) (capture_times s))
        AtRead (frames_read th) (frames_received th) (frames_lost th)
  | Continue, AfterQueueFull captured =>
      (* Drop oldest frame if buffer is full *)
      match get_nowait (frame_buffer s) with
      | inl _ =>
          mkThreads s AtRead (frames_read th) (frames_received th)
            (frames_lost th ++ [captured])
      | inr (_, q1) =>
          mkThreads (with_buffer s q1) (AfterGet captured) (frames_read th)
            (frames_received th) (frames_lost th)
      end
  | Continue, AfterGet captured =>
      match put_nowait (frame_buffer s) captured with
      | inl _ =>
          mkThreads s AtRead (frames_read th) (frames_received th)
            (frames_lost th ++ [captured])
      | inr q2 =>
          mkThreads (with_buffer s q2) AfterSecondPut (frames_read th)
            (frames_received th) (frames_lost th)
      end
  | Continue, AfterSecondPut =>
      (* self._dropped_frames += 1 *)
      mkThreads
        (CameraIngestion.mk (state s) (frame_buffer s) (frame_count s)
           (dropped_frames s + 1) (capture_times s))
        AtRead (frames_read th) (frames_received th) (frames_lost th)
  | Consume, _ =>
      match get_frame s with
      | (Some f, src) =>
          mkThreads src (phase th) (frames_read th)
            (frames_received th ++ [f]) (frames_lost th)
      | (None, src) =>
          mkThreads src (phase th) (frames_read th) (frames_received th)
            (frames_lost th)
      end
  | _, _ => th
  end.

Definition schedule_run (ops : list schedule_step) (th : threads) : threads :=
  foldl thread_step th ops.

(** The threads after [start()] with a buffer of [n] frames. *)
Definition threads_started (n : Z) : threads :=
  mkThreads (started n) AtRead [] [] [].

Ltac one_thread_step :=
  match goal with
  | |- context [thread_step (mkThreads ?s ?ph ?rd ?rc ?lost) ?o] =>
      let r := eval cbv beta iota zeta delta
                 [thread_step camera phase frames_read frames_received
                  frames_lost] in
               (thread_step (mkThreads s ph rd rc lost) o) in
      change (thread_step (mkThreads s ph rd rc lost) o) with r
  end.

(** With no consumer in between, the steps of the capture thread for
    one frame are [capture]. *)
Lemma capture_in_steps (th : threads) (pixels : list Z) (now latency : Q)
    (w h c : Z) :
  phase th = AtRead ->
  let th' := schedule_run
               [Read pixels now latency w h c; Continue; Continue; Continue]
               th in
  camera th' = capture (camera th) pixels now latency w h c
  /\ phase th' = AtRead.
Proof.
  intros Hph. destruct th as [src ph rd rc lost]. cbn in Hph. subst ph.
  destruct src as [st [mx its] fc dr times].
  cbv zeta. unfold schedule_run, capture, enqueue. cbn [foldl].
  cbn [camera frame_buffer frame_count state dropped_frames capture_times].
  one_thread_step.
  cbn [frame_buffer frame_count state dropped_frames capture_times].
  unfold put_nowait.
  destruct (full (Queue.mk mx its)) eqn:Hfull.
  - one_thread_step.
    cbn [frame_buffer frame_count state dropped_frames capture_times].
    unfold get_nowait. cbn [items maxsize].
    destruct its as [|oldest rest].
    + one_thread_step. split; reflexivity.
    + one_thread_step.
      cbn [frame_buffer frame_count state dropped_frames capture_times
           with_buffer].
      unfold put_nowait.
      destruct (full (Queue.mk mx rest)); one_thread_step; split; reflexivity.
  - do 3 one_thread_step. split; reflexivity.
Qed.

(** The frames that are read and not yet counted, dropped or lost: one
    while the capture thread is between its statements. *)
Definition in_hand (th : threads) : Z :=
  match phase th with AtRead => 0 | _ => 1 end.

(** The frames taken out of the buffer for a frame that is not yet put. *)
Definition taken_out (th : threads) : Z :=
  match phase th with AfterGet _ => 1 | _ => 0 end.

(** The frames put in the buffer and not yet counted. *)
Definition uncounted (th : threads) : Z :=
  match phase th with AfterPut => 1 | _ => 0 end.

(** What every step keeps. *)
Definition interleaved (n : Z) (th : threads) : Prop :=
  maxsize (frame_buffer (camera th)) = n
  /\ state (camera th) = CAPTURING
  /\ qsize (frame_buffer (camera th)) + taken_out th <= n
  /\ frame_count (camera th) + uncounted th
     = Z.of_nat (length (frames_received th))
       + qsize (frame_buffer (camera th)) + taken_out th
  /\ Z.of_nat (length (frames_read th))
     = frame_count (camera th) + dropped_frames (camera th)
       + Z.of_nat (length (frames_lost th)) + in_hand th
  /\ match phase th with
     | AtRead | AfterPut | AfterSecondPut =>
         (frames_received th ++ items (frame_buffer (camera th)))
           `sublist_of` frames_read th
     | AfterQueueFull captured | AfterGet captured =>
         exists before,
           frames_read th = before ++ [captured]
           /\ (frames_received th ++ items (frame_buffer (camera th)))
                `sublist_of` before
     end.

Ltac unfold_interleaved :=
  unfold interleaved, in_hand, taken_out, uncounted;
  cbn [camera phase frames_read frames_received frames_lost with_buffer
       frame_buffer state frame_count dropped_frames maxsize items].

Lemma interleaved_step (n : Z) (th : threads) (o : schedule_step) :
  1 <= n -> interleaved n th -> interleaved n (thread_step th o).
Proof.
  intros Hn Hth. pose proof Hth as (Hmax & Hst & Hsize & Hcount & Htotal & Hsub).
  destruct th as [src ph rd rc lost].
  unfold in_hand, taken_out, uncounted in *.
  cbn [camera phase frames_read frames_received frames_lost] in *.
  destruct o as [pixels now latency w h c| |]; unfold thread_step;
    cbn [camera phase frames_read frames_received frames_lost].
  - (* Read *)
    destruct ph as [| |captured|captured|]; try exact Hth.
    unfold put_nowait.
    destruct (full (frame_buffer src)) eqn:Hfull.
    + unfold_interleaved.
      rewrite length_app. cbn [length].
      repeat split; try lia; try assumption.
      eexists. split; [reflexivity|exact Hsub].
    + unfold_interleaved.
      assert (Hroom : qsize (frame_buffer src) < n).
      { unfold full in Hfull. rewrite Hmax in Hfull.
        destruct (n <=? 0) eqn:E0; [apply Z.leb_le in E0; lia|].
        apply Z.leb_gt in Hfull. exact Hfull. }
      unfold qsize in *. cbn [items]. rewrite !length_app. cbn [length].
      repeat split; try lia; try assumption.
      rewrite app_assoc. apply sublist_app; [exact Hsub|reflexivity].
  - (* Continue *)
    destruct ph as [| |captured|captured|].
    + exact Hth.
    + unfold_interleaved. repeat split; try lia; assumption.
    + destruct Hsub as (before & Hrd & Hsub).
      unfold get_nowait.
      destruct (items (frame_buffer src)) as [|oldest rest] eqn:Hits.
      * unfold_interleaved.
        unfold qsize in *. rewrite Hits in *. rewrite length_app.
        cbn [length] in *.
        repeat split; try lia; try assumption.
        rewrite Hrd. rewrite app_nil_r in *.
        etransitivity; [exact Hsub|]. apply sublist_inserts_r. reflexivity.
      * unfold_interleaved.
        unfold qsize in *. rewrite Hits in *. cbn [items length] in *.
        repeat split; try lia; try assumption.
        exists before. split; [exact Hrd|].
        etransitivity; [|exact Hsub].
        apply sublist_app; [reflexivity|]. apply sublist_cons. reflexivity.
    + destruct Hsub as (before & Hrd & Hsub).
      unfold put_nowait.
      assert (Hroom : full (frame_buffer src) = false).
      { apply not_full_below. lia. }
      rewrite Hroom.
      unfold_interleaved.
      unfold qsize in *. cbn [items]. rewrite length_app. cbn [length].
      repeat split; try lia; try assumption.
      rewrite Hrd, app_assoc. apply sublist_app; [exact Hsub|reflexivity].
    + unfold_interleaved. repeat split; try lia; assumption.
  - (* Consume *)
    unfold get_frame. rewrite Hst. unfold get_nowait.
    destruct (items (frame_buffer src)) as [|f rest] eqn:Hits.
    + exact Hth.
    + unfold_interleaved.
      unfold qsize in *. rewrite Hits in *. cbn [items length] in *.
      rewrite length_app. cbn [length].
      repeat split; try lia; try assumption.
      destruct ph as [| |captured|captured|];
        try (rewrite <- app_assoc; exact Hsub);
        destruct Hsub as (before & Hrd & Hsub); exists before;
        (split; [exact Hrd|]); rewrite <- app_assoc; exact Hsub.
Qed.

Lemma interleaved_run (n : Z) (ops : list schedule_step) :
  forall th, 1 <= n -> interleaved n th -> interleaved n (schedule_run ops th).
Proof.
  induction ops as [|o ops IH]; intros th Hn Hth; [exact Hth|].
  apply IH; [exact Hn|]. apply interleaved_step; assumption.
Qed.

Lemma interleaved_started (n : Z) :
  1 <= n -> interleaved n (threads_started n).
Proof.
  intros Hn.
  unfold interleaved, threads_started, started, in_hand, taken_out, uncounted,
    qsize.
  simpl. split; [reflexivity|]. split; [reflexivity|]. split; [lia|].
  split; [reflexivity|]. split; [reflexivity|]. apply sublist_nil.
Qed.


(** X2: frames reach the consumer in the order of capture, under every
    schedule of the capture thread's queue calls and the consumer's.
    The frames received so far, followed by the frames waiting in the
    buffer, are a subsequence of the frames read from the camera: no
    frame is received twice or out of order. *)
Theorem frames_delivered_in_order (n : Z) (ops : list schedule_step) :
  1 <= n ->
  let th := schedule_run ops (threads_started n) in
  (frames_received th ++ items (frame_buffer (camera th)))
    `sublist_of` frames_read th.
Proof.
  intros Hn.
  destruct (interleaved_run n ops (threads_started n) Hn
              (interleaved_started n Hn))
    as (_ & _ & _ & _ & _ & H).
  cbv zeta.
  destruct (phase (schedule_run ops (threads_started n))); try exact H;
    destruct H as (before & -> & H);
    (etransitivity; [exact H|]); apply sublist_inserts_r; reflexivity.
Qed.

(** [k] frames read and put, with no consumer in between. *)
Definition reads (k : nat) : list schedule_step :=
  flat_map
    (fun i => [Read [Z.of_nat i] (inject_Z (Z.of_nat i)) 0 640 480 3;
               Continue; Continue; Continue])
    (seq 0 k).



Lemma frames_delivered_in_order_witness :
  let th := schedule_run (reads 7 ++ [Consume; Read [7] 7 0 640 480 3; Consume; Continue])
                         (threads_started 5) in
  (frames_received th ++ items (frame_buffer (camera th)))
    `sublist_of` frames_read th.
Proof.
  apply (frames_delivered_in_order 5
           (reads 7 ++ [Consume; Read [7] 7 0 640 480 3; Consume; Continue])).
  lia.
Defined.

End CaptureInterleaved.

(** ** The inference engine over traces (pipelines/inference/engine.py) *)

Section EngineInvariants.
Import InferenceEngine.
Context {C : Type} `{GestureClassifier C}.

Lemma dict_get_set_eq {V : Type} (k : string) (v : V) (d : list (string * V)) :
  PyDict.get k (PyDict.set k v d) = Some v.
Proof.
  induction d as [|[k' v'] d IH]; simpl.
  - rewrite String.eqb_refl. reflexivity.
  - destruct (String.eqb k k') eqn:E; simpl.
    + rewrite String.eqb_refl. reflexivity.
    + rewrite E. exact IH.
Qed.

Lemma dict_get_set_ne {V : Type} (k k' : string) (v : V)
    (d : list (string * V)) :
  k <> k' -> PyDict.get k (PyDict.set k' v d) = PyDict.get k d.
Proof.
  intros Hne. apply String.eqb_neq in Hne.
  induction d as [|[k2 v2] d IH]; simpl.
  - rewrite Hne. reflexivity.
  - destruct (String.eqb k' k2) eqn:E; simpl.
    + apply String.eqb_eq in E. subst k2. rewrite Hne. reflexivity.
    + destruct (String.eqb k k2); [reflexivity|exact IH].
Qed.

Lemma dict_get_del_ne {V : Type} (k k' : string) (d : list (string * V)) :
  k <> k' -> PyDict.get k (PyDict.del k' d) = PyDict.get k d.
Proof.
  intros Hne. apply String.eqb_neq in Hne.
  induction d as [|[k2 v2] d IH]; simpl; [reflexivity|].
  destruct (String.eqb k' k2) eqn:E; simpl.
  - apply String.eqb_eq in E. subst k2. rewrite Hne. reflexivity.
  - destruct (String.eqb k k2); [reflexivity|exact IH].
Qed.

(** The active name, when there is one, is a key of the dict. *)
Definition active_registered (e : InferenceEngine.t) : Prop :=
  forall a, active_classifier e = Some a ->
            is_Some (PyDict.get a (classifiers e)).

Lemma reset_all_engine (ls : list loc) (w : world C) :
  engine (foldl (fun acc l => call_reset l acc) w ls) = engine w.
Proof.
  revert w. induction ls as [|l ls IH]; intros w; simpl; [reflexivity|].
  rewrite IH. reflexivity.
Qed.

Lemma active_registered_step (o : op) (w : world C) :
  active_registered (engine w) -> active_registered (engine (step o w)).
Proof.
  intros Hinv. destruct o as [l|n|n|clk el ex|]; simpl.
  - unfold register_classifier. destruct (heap w !! l) as [c|]; [|exact Hinv].
    intros a. simpl. destruct (active_classifier (engine w)) as [a0|] eqn:Ea.
    + intros [= <-]. destruct (String.eqb_spec a0 (name c)) as [->|Hne].
      * rewrite dict_get_set_eq. eexists. reflexivity.
      * rewrite dict_get_set_ne by exact Hne. apply Hinv. exact Ea.
    + intros [= <-]. rewrite dict_get_set_eq. eexists. reflexivity.
  - unfold unregister_classifier.
    destruct (PyDict.get n (classifiers (engine w))); [|exact Hinv].
    intros a. simpl. destruct (active_classifier (engine w)) as [a0|] eqn:Ea;
      [|discriminate].
    destruct (String.eqb_spec a0 n) as [->|Hne]; [discriminate|].
    intros [= <-]. rewrite dict_get_del_ne by exact Hne. apply Hinv. exact Ea.
  - unfold set_active_classifier.
    destruct (PyDict.get n (classifiers (engine w))) as [l|] eqn:E;
      [|exact Hinv].
    intros a. simpl. intros [= <-]. rewrite E. eexists. reflexivity.
  - unfold infer. destruct (routed (engine w)) as [l|]; [|exact Hinv].
    destruct (heap w !! l) as [c|]; [|exact Hinv].
    destruct (classify c clk ex) as [[e|res] c']; exact Hinv.
  - unfold reset_all. simpl. rewrite reset_all_engine. exact Hinv.
Qed.

(** X4: the active classifier is always registered.  After any sequence
    of registrations, removals, activations, inferences and resets on a
    new engine, the active name, if there is one, is a key of the
    classifier dict: [unregister_classifier] clears it with the key, and
    nothing else can leave it dangling. *)
Theorem active_classifier_is_registered (ops : list op) (w0 : world C) :
  engine w0 = init ->
  forall a, active_classifier (engine (run ops w0)) = Some a ->
            is_Some (PyDict.get a (classifiers (engine (run ops w0)))).
Proof.
  intros Hinit.
  assert (Hinv : active_registered (engine w0)).
  { rewrite Hinit. intros a. discriminate. }
  clear Hinit. revert w0 Hinv. unfold run.
  induction ops as [|o ops IH]; intros w0 Hinv; simpl; [exact Hinv|].
  apply IH. apply active_registered_step. exact Hinv.
Qed.

(** *** [reset_all] *)

Lemma reset_all_log (ls : list loc) (w : world C) :
  calls (foldl (fun acc l => call_reset l acc) w ls)
  = calls w ++ map CallReset ls.
Proof.
  revert w. induction ls as [|l ls IH]; intros w; simpl.
  - rewrite app_nil_r. reflexivity.
  - rewrite IH. simpl. rewrite <- app_assoc. reflexivity.
Qed.

Lemma reset_all_heap_other (ls : list loc) (l : loc) (w : world C) :
  l ∉ ls ->
  heap (foldl (fun acc l => call_reset l acc) w ls) !! l = heap w !! l.
Proof.
  revert w. induction ls as [|l' ls IH]; intros w Hnot; simpl; [reflexivity|].
  apply not_elem_of_cons in Hnot as [Hne Hnot].
  rewrite IH by exact Hnot. simpl. apply lookup_alter_ne. congruence.
Qed.

Lemma reset_all_heap_once (ls : list loc) (l : loc) (w : world C) :
  count_occ Nat.eq_dec ls l = 1%nat ->
  heap (foldl (fun acc l => call_reset l acc) w ls) !! l
  = reset <$> heap w !! l.
Proof.
  revert w. induction ls as [|l' ls IH]; intros w Hone; simpl in *;
    [discriminate|].
  destruct (Nat.eq_dec l' l) as [->|Hne].
  - rewrite reset_all_heap_other.
    + simpl. apply lookup_alter_eq.
    + intros Hin. apply list_elem_of_In, (count_occ_In Nat.eq_dec) in Hin. lia.
  - rewrite IH by exact Hone. simpl. rewrite lookup_alter_ne by exact Hne.
    reflexivity.
Qed.

(** X5: [reset_all] calls [reset] once per registration, in the order of
    registration, and nothing else on any classifier; it empties the
    latency history and leaves the registrations and the active name as
    they were.  An object registered under one name is left as one
    [reset] leaves it, an unregistered object is not touched. *)
Theorem reset_all_resets_each_once (w : world C) :
  let w' := reset_all w in
  let objects := PyDict.values (classifiers (engine w)) in
  calls w' = calls w ++ map CallReset objects
  /\ classifiers (engine w') = classifiers (engine w)
  /\ active_classifier (engine w') = active_classifier (engine w)
  /\ inference_times (engine w') = []
  /\ (forall l, count_occ Nat.eq_dec objects l = 1%nat ->
                heap w' !! l = reset <$> heap w !! l)
  /\ (forall l, l ∉ objects -> heap w' !! l = heap w !! l).
Proof.
  cbv zeta. unfold reset_all. simpl. rewrite reset_all_engine.
  split; [apply reset_all_log|].
  repeat split.
  - intros l. apply reset_all_heap_once.
  - intros l. apply reset_all_heap_other.
Qed.

(** *** Removing the active classifier *)

Definition is_infer (o : op) : Prop :=
  match o with Infer _ _ _ => True | _ => False end.

(** X6: removing the active classifier leaves the engine with none.
    However many other classifiers are registered, every later [infer]
    returns [None] and calls no classifier, until one is activated or
    registered. *)
Theorem unregister_active_stops_inference
    (n : string) (w : world C) (ops : list op) :
  active_classifier (engine w) = Some n ->
  is_Some (PyDict.get n (classifiers (engine w))) ->
  Forall is_infer ops ->
  let w1 := snd (unregister_classifier n w) in
  fst (unregister_classifier n w) = true
  /\ active_classifier (engine w1) = None
  /\ classifiers (engine w1) = PyDict.del n (classifiers (engine w))
  /\ (forall clk el ex, infer clk el ex w1 = (inr None, w1))
  /\ run ops w1 = w1.
Proof.
  intros Hact [l Hl] Hops. cbv zeta. unfold unregister_classifier.
  rewrite Hl, Hact, String.eqb_refl. simpl.
  assert (Hinfer : forall clk el ex w1,
            active_classifier (engine w1) = None ->
            infer clk el ex w1 = (inr None, w1)).
  { intros clk el ex w1 E. unfold infer, routed. rewrite E. reflexivity. }
  do 3 (split; [reflexivity|]). split.
  - intros clk el ex. apply Hinfer. reflexivity.
  - unfold run. induction Hops as [|o ops Ho _ IH]; [reflexivity|].
    destruct o as [| | |clk el ex|]; try destruct Ho.
    cbn [foldl]. cbn [step]. rewrite Hinfer by reflexivity. exact IH.
Qed.

End EngineInvariants.

Lemma active_classifier_is_registered_witness :
  let ops := [InferenceEngine.Register 1%nat; InferenceEngine.Register 0%nat;
              InferenceEngine.Unregister "finger_count";
              InferenceEngine.SetActive "volume_control";
              InferenceEngine.ResetAll] in
  InferenceEngine.engine fresh_world = InferenceEngine.init
  /\ forall a,
       InferenceEngine.active_classifier
         (InferenceEngine.engine (InferenceEngine.run ops fresh_world)) = Some a ->
       is_Some (PyDict.get a
                  (InferenceEngine.classifiers
                     (InferenceEngine.engine (InferenceEngine.run ops fresh_world)))).
Proof.
  cbv zeta. split; [reflexivity|].
  apply (active_classifier_is_registered _ fresh_world). reflexivity.
Defined.

Lemma unregister_active_stops_inference_witness :
  let w := InferenceEngine.run
             [InferenceEngine.Register 1%nat; InferenceEngine.Register 0%nat]
             fresh_world in
  let w1 := snd (InferenceEngine.unregister_classifier "finger_count" w) in
  InferenceEngine.active_classifier (InferenceEngine.engine w)
  = Some "finger_count"
  /\ fst (InferenceEngine.unregister_classifier "finger_count" w) = true
  /\ InferenceEngine.active_classifier (InferenceEngine.engine w1) = None
  /\ is_Some (PyDict.get "volume_control"
                (InferenceEngine.classifiers (InferenceEngine.engine w1)))
  /\ InferenceEngine.run [InferenceEngine.Infer clock0 0 no_hands] w1 = w1.
Proof.
  cbv zeta.
  pose proof (unregister_active_stops_inference "finger_count"
                (InferenceEngine.run
                   [InferenceEngine.Register 1%nat;
                    InferenceEngine.Register 0%nat] fresh_world)
                [InferenceEngine.Infer clock0 0 no_hands]
                eq_refl (ex_intro _ 1%nat eq_refl)
                ltac:(repeat constructor)) as (H1 & H2 & H3 & _ & H5).
  split; [reflexivity|]. split; [exact H1|]. split; [exact H2|].
  split; [|exact H5].
  rewrite H3. eexists. reflexivity.
Defined.

(** ** The orchestrator's bookkeeping (pipelines/orchestrator.py) *)

Section Bookkeeping.
Import PipelineOrchestrator.

Definition stage_raised (i : iteration) : bool :=
  match i with
  | Frame _ (Processed _ _ _ _) _ => false
  | Frame _ _ _ => true
  | _ => false
  end.

Definition get_frame_raised (i : iteration) : bool :=
  match i with GetFrameRaised _ => true | _ => false end.

Definition processed (i : iteration) : bool :=
  match i with Frame _ (Processed _ _ _ _) _ => true | _ => false end.

Definition turns_with (f : iteration -> bool) (turns : list iteration) : Z :=
  Z.of_nat (length (List.filter f turns)).

Lemma turns_with_cons (f : iteration -> bool) (i : iteration)
    (turns : list iteration) :
  turns_with f (i :: turns) = Z.b2z (f i) + turns_with f turns.
Proof.
  unfold turns_with. simpl. destruct (f i); simpl length; simpl Z.b2z; lia.
Qed.

Lemma handle_error_counts (o : t) :
  paused (_handle_error o) = paused o
  /\ errors_count (metrics (_handle_error o)) = errors_count (metrics o) + 1
  /\ frames_processed (metrics (_handle_error o))
     = frames_processed (metrics o).
Proof.
  unfold _handle_error. destruct (_ <=? _); simpl; auto.
Qed.

Lemma loop_body_counts (i : iteration) (o : t) :
  paused o = false -> i <> Cancelled ->
  snd (loop_body i o) = true
  /\ paused (fst (loop_body i o)) = false
  /\ errors_count (metrics (fst (loop_body i o)))
     = errors_count (metrics o) + 2 * Z.b2z (stage_raised i)
       + Z.b2z (get_frame_raised i)
  /\ frames_processed (metrics (fst (loop_body i o)))
     = frames_processed (metrics o) + Z.b2z (processed i).
Proof.
  intros Hp Hi. unfold loop_body. rewrite Hp.
  destruct i as [|e|captured r now|]; [| | |contradiction]; clear Hi.
  - simpl. repeat split; auto; clear; lia.
  - cbn [fst snd]. destruct (handle_error_counts o) as (-> & -> & ->).
    simpl. repeat split; auto; clear; lia.
  - destruct r as [e|pre e|pre ext e|pre ext inf e|pre ext inf total];
      cbn [_process_frame fst snd];
      try (match goal with |- context [_handle_error ?o1] =>
             destruct (handle_error_counts o1) as (-> & -> & ->) end;
           simpl; repeat split; auto; clear; lia).
    simpl. destruct (2 <=? _); simpl; repeat split; auto; clear; lia.
Qed.

(** X7: the error metric counts a failing stage twice.  In a run of the
    loop that is still running at its end, [errors_count] has grown by
    two for every frame on which a stage raised, once in
    [_process_frame] and once in [_handle_error], and by one for every
    exception of [get_frame]; [frames_processed] has grown by one for
    every frame that went through all stages. *)
Theorem errors_counted_per_handler (turns : list iteration) (o : t) :
  running o = true -> paused o = false ->
  Forall (fun i => i <> Cancelled) turns ->
  running (while_running turns o) = true ->
  errors_count (metrics (while_running turns o))
  = errors_count (metrics o) + 2 * turns_with stage_raised turns
    + turns_with get_frame_raised turns
  /\ frames_processed (metrics (while_running turns o))
     = frames_processed (metrics o) + turns_with processed turns.
Proof.
  revert o. induction turns as [|i rest IH]; intros o Hrun Hp Hall Hend.
  - unfold turns_with. simpl. lia.
  - inversion Hall as [|? ? Hi Hrest]; subst.
    destruct (loop_body_counts i o Hp Hi) as (Hcont & Hp1 & Herr & Hproc).
    simpl in Hend |- *. rewrite Hrun in Hend |- *.
    destruct (loop_body i o) as [o1 cont]. cbn [fst snd] in *. subst cont.
    destruct (running o1) eqn:Hrun1.
    + destruct (IH o1 Hrun1 Hp1 Hrest Hend) as [-> ->].
      rewrite !turns_with_cons, Herr, Hproc. lia.
    + rewrite loop_stopped in Hend by exact Hrun1. congruence.
Qed.

(** X9: [start()] does not clear the error counter.  An orchestrator
    that is not running and whose counter is one short of the threshold
    or beyond, as the loop leaves it when it ends in the Error state, is
    started again as Running with the counter unchanged, and the first
    exception of the new run ends the loop in the Error state. *)
Theorem restart_keeps_error_count (project : string) (o : t) (i : iteration) :
  state o <> RUNNING ->
  max_consecutive_errors (config o) <= consecutive_errors o + 1 ->
  raises i = true ->
  let again := snd (start project true o) in
  fst (start project true o) = inr true
  /\ state again = RUNNING /\ running again = true
  /\ consecutive_errors again = consecutive_errors o
  /\ state (while_running [i] again) = ERROR
  /\ running (while_running [i] again) = false.
Proof.
  intros Hs Hmax Hi. cbv zeta.
  assert (Hstart : start project true o
                   = (inr true,
                      mk (config o) RUNNING (Some project) true false
                         fresh_metrics (consecutive_errors o) (frame_times o)
                         CameraIngestion.CAPTURING)).
  { unfold start. destruct (state o); try reflexivity. contradiction. }
  rewrite Hstart. cbn [fst snd]. do 4 (split; [reflexivity|]).
  cbn [while_running running].
  match goal with |- context [loop_body i ?o1] =>
    destruct (loop_body_raises i o1 eq_refl Hi) as [m ->] end.
  rewrite handle_error_reached by exact Hmax. split; reflexivity.
Qed.

End Bookkeeping.

Section SwitchProjectProperties.
Import PipelineOrchestrator InferenceEngine.
Context {C : Type} `{GestureClassifier C}.

(** X10: [switch_project] succeeds exactly when the loop is running and
    the project's classifier is registered.  It then names the project,
    makes its classifier active and resets it, and touches nothing else
    (not the state, the metrics or the error counter); in every other
    case the orchestrator and the engine are left as they were, the
    current project included. *)
Theorem switch_project_outcome (project : string) (o : PipelineOrchestrator.t)
    (w : world C) :
  match PipelineOrchestrator.running o,
        PyDict.get project (classifiers (engine w)) with
  | true, Some l =>
      switch_project project o w
      = (true,
         (PipelineOrchestrator.mk (config o) (state o) (Some project) true
            (paused o) (metrics o) (consecutive_errors o) (frame_times o)
            (ingestion o),
          mkWorld (InferenceEngine.mk (classifiers (engine w)) (Some project)
                     (inference_times (engine w)))
                  (alter reset l (heap w)) (calls w ++ [CallReset l])))
  | _, _ => switch_project project o w = (false, (o, w))
  end.
Proof.
  unfold switch_project.
  destruct (PipelineOrchestrator.running o) eqn:Hr; simpl; [|reflexivity].
  destruct (PyDict.get project (classifiers (engine w))) as [l|] eqn:E.
  - rewrite (set_active_registered project l w E). reflexivity.
  - unfold set_active_classifier. rewrite E. reflexivity.
Qed.

End SwitchProjectProperties.

Section BookkeepingExamples.
Import PipelineOrchestrator.

(** A frame that goes through all stages, and turns of each kind. *)
Definition processed_turn : iteration :=
  Frame (mkFrame [] 0 0 0 640 480 3) (Processed 1 1 (Some 1%Q) 3) 1.

Definition mixed_turns : list iteration :=
  [failing_turn; processed_turn; GetFrameRaised (RuntimeError "camera");
   NoFrame; failing_turn].

Lemma errors_counted_per_handler_witness :
  errors_count (metrics (while_running mixed_turns running_default)) = 5
  /\ frames_processed (metrics (while_running mixed_turns running_default)) = 1.
Proof.
  apply (errors_counted_per_handler mixed_turns running_default).
  - reflexivity.
  - reflexivity.
  - repeat constructor; discriminate.
  - reflexivity.
Defined.



Lemma restart_keeps_error_count_witness :
  let stopped := while_running (repeat failing_turn 10) running_default in
  let again := snd (start "finger_count" true stopped) in
  state stopped = ERROR
  /\ fst (start "finger_count" true stopped) = inr true
  /\ state again = RUNNING /\ running again = true
  /\ consecutive_errors again = consecutive_errors stopped
  /\ state (while_running [failing_turn] again) = ERROR
  /\ running (while_running [failing_turn] again) = false.
Proof.
  cbv zeta. split; [reflexivity|].
  apply (restart_keeps_error_count "finger_count"
           (while_running (repeat failing_turn 10) running_default)
           failing_turn).
  - vm_compute. discriminate.
  - vm_compute. discriminate.
  - reflexivity.
Defined.

End BookkeepingExamples.

(** ** [pause] and [resume] (pipelines/orchestrator.py) *)

Section PauseInFlight.
Import PipelineOrchestrator.

(** The rest of a turn of the loop, after the test of [_paused]: what
    the turn does when [pause()] runs while it is in flight (at one of
    its [await]s), since nothing after the test reads [_paused]. *)
Definition turn_after_check (i : iteration) (o : t) : t * bool :=
  match i with
  | Cancelled => (o, false)
  | NoFrame => (o, true)
  | GetFrameRaised e => (_handle_error o, true)
  | Frame captured r now =>
      match _process_frame captured r o with
      | (inl e, o1) => (_handle_error o1, true)
      | (inr _, o1) =>
          let o2 := _update_fps now o1 in
          (* Reset error counter on successful frame *)
          (mk (config o2) (state o2) (current_project o2) (running o2)
              (paused o2) (metrics o2) 0 (frame_times o2)
              (ingestion o2), true)
      end
  end.

Lemma loop_body_not_paused (i : iteration) (o : t) :
  paused o = false -> loop_body i o = turn_after_check i o.
Proof.
  intros Hp. unfold loop_body, turn_after_check. rewrite Hp.
  destruct i; reflexivity.
Qed.

Lemma paused_idle (turns : list iteration) (o : t) :
  paused o = true -> while_running turns o = o.
Proof.
  intros Hp. induction turns as [|i rest IH]; [reflexivity|].
  simpl. destruct (running o); [|reflexivity].
  unfold loop_body. rewrite Hp. destruct i; simpl; try exact IH; reflexivity.
Qed.

(** X8: [pause()] takes effect at the next turn of the loop.  When it
    runs between two turns, the loop changes nothing from then on,
    whatever the turns offer, and [resume()] gives back the
    orchestrator as it was.  When it runs while a turn is in flight,
    that turn is completed: its frame is processed and counted, or its
    error handled; after it the loop changes nothing, and [resume()]
    leaves the orchestrator as the turn would have left it without the
    pause, unless the turn reached the error threshold, which ends the
    loop in the Error state, where [resume()] does nothing. *)
Theorem paused_loop_is_idle (turns : list iteration) (i : iteration) (o : t) :
  state o = RUNNING -> paused o = false ->
  (while_running turns (pause o) = pause o
   /\ resume (while_running turns (pause o)) = o)
  /\ (let in_flight := fst (turn_after_check i (pause o)) in
      while_running turns in_flight = in_flight
      /\ (state (fst (loop_body i o)) = RUNNING ->
          resume in_flight = fst (loop_body i o))
      /\ (state (fst (loop_body i o)) <> RUNNING ->
          state in_flight = ERROR /\ running in_flight = false
          /\ resume in_flight = in_flight)).
Proof.
  intros Hs Hp. split.
  - rewrite paused_idle by (unfold pause; rewrite Hs; reflexivity).
    split; [reflexivity|].
    unfold pause, resume. rewrite Hs. simpl. destruct o; simpl in *.
    subst. reflexivity.
  - cbv zeta. rewrite (loop_body_not_paused i o Hp).
    assert (Hpaused : paused (fst (turn_after_check i (pause o))) = true).
    { unfold pause. rewrite Hs. destruct i as [|e|captured r now|]; cbn;
        try reflexivity.
      - unfold _handle_error. cbn. destruct (_ <=? _); reflexivity.
      - destruct r; cbn; try (unfold _handle_error; cbn;
          destruct (_ <=? _); reflexivity).
        reflexivity. }
    split; [apply paused_idle; exact Hpaused|].
    unfold pause. rewrite Hs. destruct o as [cfg st pr run pa m ce ft ing].
    cbn in Hs, Hp. subst st pa.
    destruct i as [|e|captured r now|]; cbn.
    + split; [reflexivity|]. intros H; contradiction.
    + unfold _handle_error. cbn. destruct (_ <=? _); cbn.
      * split; [discriminate|]. intros _. repeat split.
      * split; [reflexivity|]. intros H; contradiction.
    + destruct r; cbn;
        try (unfold _handle_error; cbn; destruct (_ <=? _); cbn;
             [split; [discriminate|]; intros _; repeat split
             |split; [reflexivity|]; intros H; contradiction]).
      split; [reflexivity|]. intros H; contradiction.
    + split; [reflexivity|]. intros H; contradiction.
Qed.

End PauseInFlight.

Section PauseExamples.
Import PipelineOrchestrator.

Lemma paused_loop_is_idle_witness :
  (while_running mixed_turns (pause running_default) = pause running_default
   /\ resume (while_running mixed_turns (pause running_default))
      = running_default)
  /\ (let in_flight := fst (turn_after_check processed_turn
                              (pause running_default)) in
      while_running mixed_turns in_flight = in_flight
      /\ frames_processed (metrics in_flight) = 1
      /\ resume in_flight = fst (loop_body processed_turn running_default)).
Proof.
  destruct (paused_loop_is_idle mixed_turns processed_turn running_default
              eq_refl eq_refl) as (H1 & H2 & H3 & _).
  split; [exact H1|]. cbv zeta. split; [exact H2|].
  split; [reflexivity|]. apply H3. reflexivity.
Defined.

End PauseExamples.

(** ** The output pipeline (pipelines/output/dispatcher.py) *)

Section OutputProcess.
Import EventDispatcher OutputPipeline.
Context (action_name : action -> string)
        (action_initialize : action -> PyExn + bool)
        (action_execute : action -> InferenceResult -> PyExn + bool)
        (action_cleanup : action -> option PyExn)
        (behaviour : listener -> OutputEvent -> outcome).




(** *** Registering and removing actions *)

Lemma dict_set_twice {V : Type} (k : string) (v1 v2 : V)
    (d : list (string * V)) :
  PyDict.set k v2 (PyDict.set k v1 d) = PyDict.set k v2 d.
Proof.
  induction d as [|[k' v'] d IH]; simpl.
  - rewrite String.eqb_refl. reflexivity.
  - destruct (String.eqb k k') eqn:E; simpl.
    + rewrite String.eqb_refl. reflexivity.
    + rewrite E, IH. reflexivity.
Qed.


(** X12: an action replaced by a second registration under its name is
    never cleaned up.  [register_action] stores the new action over the
    old one and calls only [initialize]; a later [unregister_action] of
    the name cleans up and removes the new action, so no call of the
    pipeline reaches the old action's [cleanup]. *)
Theorem replaced_action_is_not_cleaned_up
    (a1 a2 : action) (p : OutputPipeline.t) (log : list OutputPipeline.entry) :
  action_name a1 = action_name a2 ->
  action_initialize a1 = inr true ->
  action_initialize a2 = inr true ->
  action_cleanup a2 = None ->
  let '(r1, p1, log1) := register_action action_name action_initialize a1 p log in
  let '(r2, p2, log2) := register_action action_name action_initialize a2 p1 log1 in
  let '(r3, p3, log3) :=
    unregister_action action_cleanup (action_name a1) p2 log2 in
  r1 = inr true /\ r2 = inr true /\ r3 = inr true
  /\ PyDict.get (action_name a1) (_actions p2) = Some a2
  /\ _actions p2 = PyDict.set (action_name a2) a2 (_actions p)
  /\ log3 = log ++ [Initialized a1; Initialized a2; CleanedUp a2]
  /\ _actions p3 = PyDict.del (action_name a1) (_actions p2).
Proof.
  intros Hname H1 H2 Hc. unfold register_action. rewrite H1, H2.
  unfold unregister_action, with_actions. cbn [_actions].
  rewrite Hname, dict_set_twice, dict_get_set_eq, Hc.
  rewrite <- !app_assoc. repeat split.
Qed.

(** *** [cleanup] *)

Lemma cleanup_all_quiet (actions : list action) :
  Forall (fun a => action_cleanup a = None) actions ->
  forall log,
    cleanup_all action_cleanup actions log
    = (None, log ++ map CleanedUp actions).
Proof.
  induction 1 as [|a rest Ha _ IH]; intros log; simpl.
  - rewrite app_nil_r. reflexivity.
  - rewrite Ha, IH, <- app_assoc. reflexivity.
Qed.

Lemma cleanup_all_stops (before after : list action) (a : action) (e : PyExn) :
  Forall (fun a => action_cleanup a = None) before ->
  action_cleanup a = Some e ->
  forall log,
    cleanup_all action_cleanup (before ++ a :: after) log
    = (Some e, log ++ map CleanedUp (before ++ [a])).
Proof.
  intros Hb Ha. induction Hb as [|b rest Hb _ IH]; intros log; simpl.
  - rewrite Ha. reflexivity.
  - rewrite Hb, IH, <- app_assoc. reflexivity.
Qed.

(** X13: [cleanup] is all or nothing.  When no action's [cleanup]
    raises, every registered action is cleaned up once, in the order of
    registration, and the pipeline is left with no action and no
    listener, so that a later [process] reaches nobody.  When the
    [cleanup] of an action raises, the exception leaves the pipeline:
    the actions registered after it are not cleaned up, and all actions
    and listeners stay registered. *)
Theorem cleanup_all_or_nothing
    (p : OutputPipeline.t) (log : list OutputPipeline.entry) :
  (Forall (fun a => action_cleanup a = None) (PyDict.values (_actions p)) ->
   cleanup action_cleanup p log
   = (inr tt,
      OutputPipeline.mk EventDispatcher.init [] (_output_times p)
        (_event_count p),
      log ++ map CleanedUp (PyDict.values (_actions p)))
   /\ forall inference project now latency log',
        exists q,
          process action_execute behaviour inference project now latency
            (snd (fst (cleanup action_cleanup p log))) log'
          = (inr (mkEvent "gesture_detected" project now
                    (event_data inference)), q, log'))
  /\ (forall before a after e,
        PyDict.values (_actions p) = before ++ a :: after ->
        Forall (fun a => action_cleanup a = None) before ->
        action_cleanup a = Some e ->
        cleanup action_cleanup p log
        = (inl e, p, log ++ map CleanedUp (before ++ [a]))).
Proof.
  split.
  - intros Hall. unfold cleanup. rewrite (cleanup_all_quiet _ Hall).
    split; [reflexivity|]. intros inference project now latency log'.
    cbn [fst snd]. eexists. unfold process, dispatch, clear, EventDispatcher.init.
    cbn [dispatcher _actions _listeners _async_listeners _global_listeners
         _async_global_listeners PyDict.values map execute_all].
    rewrite !lookup_empty. cbn. rewrite app_nil_r. reflexivity.
  - intros before a after e Hvals Hb Ha. unfold cleanup.
    rewrite Hvals, (cleanup_all_stops before after a e Hb Ha). reflexivity.
Qed.

End OutputProcess.

Section OutputProcessExamples.
Import OutputPipeline.

(** Two actions of one name that initialize and clean up without
    failing. *)
Definition both_volume (a : action) : string := "volume_control".
Definition initializes (a : action) : PyExn + bool := inr true.
Definition cleans_up (a : action) : option PyExn := None.

Lemma replaced_action_witness :
  let '(r1, p1, log1) :=
    register_action both_volume initializes 1%nat OutputPipeline.init [] in
  let '(r2, p2, log2) :=
    register_action both_volume initializes 2%nat p1 log1 in
  let '(r3, p3, log3) :=
    unregister_action cleans_up "volume_control" p2 log2 in
  r1 = inr true /\ r2 = inr true /\ r3 = inr true
  /\ PyDict.get "volume_control" (_actions p2) = Some 2%nat
  /\ _actions p2 = [("volume_control", 2%nat)]
  /\ log3 = [Initialized 1%nat; Initialized 2%nat; CleanedUp 2%nat]
  /\ _actions p3 = [].
Proof.
  exact (replaced_action_is_not_cleaned_up both_volume initializes cleans_up
           1%nat 2%nat OutputPipeline.init [] eq_refl eq_refl eq_refl eq_refl).
Defined.

(** Three registered actions, the second of which fails to clean up. *)
Definition three_actions : OutputPipeline.t :=
  OutputPipeline.mk EventDispatcher.init
    [("finger_count", 1%nat); ("volume_control", 2%nat);
     ("virtual_mouse", 3%nat)] [] 0.

Definition second_fails (a : action) : option PyExn :=
  if (a =? 2)%nat then Some (RuntimeError "cleanup") else None.

Lemma cleanup_all_or_nothing_witness :
  cleanup cleans_up three_actions []
  = (inr tt, OutputPipeline.mk EventDispatcher.init [] [] 0,
     [CleanedUp 1%nat; CleanedUp 2%nat; CleanedUp 3%nat])
  /\ cleanup second_fails three_actions []
     = (inl (RuntimeError "cleanup"), three_actions,
        [CleanedUp 1%nat; CleanedUp 2%nat]).
Proof.
  split.
  - apply (cleanup_all_or_nothing (fun _ _ => inr true) cleans_up
             (fun _ _ => EventDispatcher.Returns) three_actions []).
    repeat constructor.
  - apply (proj2 (cleanup_all_or_nothing (fun _ _ => inr true) second_fails
                    (fun _ _ => EventDispatcher.Returns) three_actions [])
             [1%nat] 2%nat [3%nat] (RuntimeError "cleanup")).
    + reflexivity.
    + repeat constructor.
    + reflexivity.
Defined.





End OutputProcessExamples.

(** ** More on the One-Euro filter (features/virtual_mouse/filters.py) *)

Section OneEuroSteps.
Import OneEuroFilter.
Local Open Scope Q_scope.

Lemma reset_valid (f : t) : valid f -> valid (reset f).
Proof.
  intros (H1 & H2 & H3 & H4 & _ & _). unfold valid, reset. simpl.
  repeat split; auto; intros [? Hn]; discriminate.
Qed.

(** X14: [reset] restarts the smoothing but keeps the frequency.  The
    first sample after a [reset] comes out unchanged, whatever the
    filter had seen before, and the filter goes on with the sampling
    frequency it had derived from the timestamps, not with the one it
    was built with. *)
Theorem reset_restarts_smoothing (x : Q) (timestamp : option Q) (now : Q)
    (f : t) :
  valid f ->
  exists f',
    filter x timestamp now (reset f) = (inr x, f')
    /\ _freq f' = _freq f
    /\ LowPassFilter._s (_x f') = Some x
    /\ _last_time f' = Some (timestamp_or timestamp now).
Proof.
  intros Hv. destruct Hv as (Hfreq & Hmin & Hbeta & Hd & _ & _).
  unfold filter, reset. cbn [_last_time _freq _x _dx _min_cutoff _beta
    _d_cutoff LowPassFilter.reset LowPassFilter.last_value LowPassFilter._y].
  assert (Hfr : match timestamp with
                | Some _ | _ => _freq f
                end = _freq f) by (destruct timestamp; reflexivity).
  rewrite Hfr.
  destruct (alpha_spec (_d_cutoff f) (_freq f) Hd Hfreq) as (ed & -> & _).
  cbn [default]. unfold LowPassFilter.filter, LowPassFilter.reset.
  cbn [LowPassFilter._y LowPassFilter._s]. cbv beta iota.
  set (dx := (x - x) * _freq f).
  assert (Hc : 0 < _min_cutoff f + _beta f * Qabs dx).
  { pose proof (Qabs_nonneg dx). nra. }
  destruct (alpha_spec _ (_freq f) Hc Hfreq) as (a & -> & _).
  eexists. split; [reflexivity|]. repeat split.
Qed.

(** X15: a zero [min_cutoff] makes the first sample raise.  On a filter
    that holds no previous value (new, or after [reset]) the derivative
    is zero, so the cutoff is [min_cutoff]; when that is zero,
    [1.0 / (2 * math.pi * cutoff)] divides by zero. *)
Theorem zero_min_cutoff_raises (x : Q) (timestamp : option Q) (now : Q)
    (f : t) :
  _min_cutoff f == 0 ->
  LowPassFilter._y (_x f) = None ->
  LowPassFilter._y (_dx f) = None ->
  fst (filter x timestamp now f) = inl ZeroDivisionError.
Proof.
  intros Hmin Hx Hdx. unfold filter.
  set (fr := match timestamp with
             | Some ts => match _last_time f with
                          | Some last => _
                          | None => _
                          end
             | None => _
             end).
  destruct (_alpha (_d_cutoff f) fr) as [ed|]; [|reflexivity].
  unfold LowPassFilter.last_value. rewrite Hx. cbn [default].
  unfold LowPassFilter.filter at 1. rewrite Hdx. cbv beta iota.
  assert (Hzero : PyFloat.div 1
                    (2 * PyFloat.pi
                     * (_min_cutoff f + _beta f * Qabs ((x - x) * fr))) = None).
  { unfold PyFloat.div.
    assert (H0 : (x - x) * fr == 0) by ring.
    assert (E : 2 * PyFloat.pi
                * (_min_cutoff f + _beta f * Qabs ((x - x) * fr)) == 0).
    { rewrite H0, Hmin. change (Qabs 0) with 0. ring. }
    apply PyFloat.eqb_eq in E. rewrite E. reflexivity. }
  unfold _alpha at 1. rewrite Hzero. reflexivity.
Qed.

End OneEuroSteps.

Section OneEuroStepsExamples.
Local Open Scope Q_scope.

(** A filter with the default parameters that has seen one sample. *)
Definition warm_filter (x0 : Q) : OneEuroFilter.t :=
  snd (OneEuroFilter.filter x0 (Some 1) 1
         (OneEuroFilter.init 30 1 (7 # 1000) 1)).

Lemma reset_restarts_smoothing_witness :
  exists f',
    OneEuroFilter.filter 7 (Some 2) 2
      (OneEuroFilter.reset
         (warm_filter 3))
    = (inr 7, f')
    /\ OneEuroFilter._freq f'
       = OneEuroFilter._freq
           (warm_filter 3)
    /\ LowPassFilter._s (OneEuroFilter._x f') = Some 7
    /\ OneEuroFilter._last_time f'
       = Some (OneEuroFilter.timestamp_or (Some 2) 2).
Proof.
  apply (reset_restarts_smoothing 7 (Some 2) 2).
  unfold valid. vm_compute. repeat split; try discriminate; eauto.
Defined.

Lemma zero_min_cutoff_raises_witness :
  fst (OneEuroFilter.filter (1 # 2) (Some 1) 1
         (OneEuroFilter.init 30 0 (7 # 1000) 1))
  = inl ZeroDivisionError.
Proof.
  apply (zero_min_cutoff_raises (1 # 2) (Some 1) 1
           (OneEuroFilter.init 30 0 (7 # 1000) 1)); reflexivity.
Defined.

End OneEuroStepsExamples.

(** ** The volume classifier over streams (features/volume_control) *)

Section VolumeRange.
Import VolumeControlClassifier.

(** A configuration whose thresholds span a range, whose volume range is
    not reversed, whose smoothing factor is a weight and whose hold
    duration is not zero. *)
Definition sound (cfg : VolumeControlConfig) : Prop :=
  (pinch_threshold_min cfg < pinch_threshold_max cfg)%Q
  /\ (volume_min cfg <= volume_max cfg)%Q
  /\ (0 <= smoothing_factor cfg)%Q /\ (smoothing_factor cfg <= 1)%Q
  /\ mute_hold_duration_ms cfg <> 0.

Definition in_range (c : t) : Prop :=
  (volume_min (config c) <= _current_volume c)%Q
  /\ (_current_volume c <= volume_max (config c))%Q.

Lemma clamp_between (lo hi d : Q) :
  (lo < hi)%Q ->
  (lo <= PyFloat.max lo (PyFloat.min d hi))%Q
  /\ (PyFloat.max lo (PyFloat.min d hi) <= hi)%Q
  /\ ((d <= lo)%Q -> (PyFloat.max lo (PyFloat.min d hi) == lo)%Q)
  /\ ((hi <= d)%Q -> (PyFloat.max lo (PyFloat.min d hi) == hi)%Q)
  /\ ((lo <= d)%Q -> (d <= hi)%Q ->
      (PyFloat.max lo (PyFloat.min d hi) == d)%Q).
Proof.
  intros Hlt. unfold PyFloat.max, PyFloat.min.
  destruct (PyFloat.ltb hi d) eqn:E1.
  - apply PyFloat.ltb_lt in E1.
    destruct (PyFloat.ltb lo hi) eqn:E2.
    + repeat split; intros; lra.
    + apply PyFloat.ltb_ge in E2. lra.
  - apply PyFloat.ltb_ge in E1.
    destruct (PyFloat.ltb lo d) eqn:E2.
    + apply PyFloat.ltb_lt in E2. repeat split; intros; lra.
    + apply PyFloat.ltb_ge in E2. repeat split; intros; lra.
Qed.

(** The volume a distance is mapped to. *)
Definition mapped (cfg : VolumeControlConfig) (d : Q) : Q :=
  (volume_min cfg
   + (PyFloat.max (pinch_threshold_min cfg)
                  (PyFloat.min d (pinch_threshold_max cfg))
      - pinch_threshold_min cfg)
     / (pinch_threshold_max cfg - pinch_threshold_min cfg)
     * (volume_max cfg - volume_min cfg))%Q.

Lemma pinch_state_defined (c : t) (d : Q) (hand : HandLandmarks) :
  sound (config c) ->
  _calculate_pinch_state c d hand
  = Some (mkPinchState d (PyFloat.ltb d (pinch_threshold_min (config c)))
            (mapped (config c) d) (label_value (hand_label hand))).
Proof.
  intros (Ht & _). unfold _calculate_pinch_state.
  rewrite div_some by lra. reflexivity.
Qed.

Lemma mapped_bounds (cfg : VolumeControlConfig) (d : Q) :
  sound cfg ->
  (volume_min cfg <= mapped cfg d)%Q /\ (mapped cfg d <= volume_max cfg)%Q
  /\ ((d <= pinch_threshold_min cfg)%Q -> (mapped cfg d == volume_min cfg)%Q)
  /\ ((pinch_threshold_max cfg <= d)%Q -> (mapped cfg d == volume_max cfg)%Q).
Proof.
  intros (Ht & Hv & _). unfold mapped.
  destruct (clamp_between (pinch_threshold_min cfg) (pinch_threshold_max cfg)
              d Ht) as (H1 & H2 & H3 & H4 & _).
  set (cl := PyFloat.max _ _) in *.
  set (lo := pinch_threshold_min cfg) in *.
  set (hi := pinch_threshold_max cfg) in *.
  assert (Hr : (0 < hi - lo)%Q) by lra.
  assert (Hn0 : (0 <= (cl - lo) / (hi - lo))%Q).
  { apply Qle_shift_div_l; lra. }
  assert (Hn1 : ((cl - lo) / (hi - lo) <= 1)%Q).
  { apply Qle_shift_div_r; lra. }
  repeat split.
  - nra.
  - nra.
  - intros Hd. rewrite (H3 Hd). field. lra.
  - intros Hd. rewrite (H4 Hd). field. lra.
Qed.

(** *** One frame *)

Definition handled_as_fist (cfg : VolumeControlConfig) (ex : ExtractionResult)
    : bool :=
  mute_enabled cfg && fist_frame cfg ex.

(** What every frame does, with a sound configuration: no exception, the
    result carries the volume the classifier holds afterwards, the
    ideal value of the volume stays in the volume range, and a frame
    that is not handled as a fist touches neither the hold timer nor
    the mute. *)
Lemma volume_frame (c : t) (clk : Clock) (ex : ExtractionResult) :
  sound (config c) ->
  exists r c',
    classify c clk ex = (inr r, c')
    /\ config c' = config c
    /\ volume_level r = Some (_current_volume c')
    /\ (in_range c -> in_range c')
    /\ (handled_as_fist (config c) ex = false ->
        _fist_start_time c' = _fist_start_time c
        /\ _is_muted c' = _is_muted c
        /\ mute_toggled r = false).
Proof.
  intros Hs. unfold classify, handled_as_fist, fist_frame, _get_preferred_hand.
  destruct (select_hand (preferred_hand (config c)) ex) as [hand|].
  2:{ eexists _, _. split; [reflexivity|]. split; [reflexivity|].
      split; [reflexivity|]. split; [tauto|]. intros _. repeat split. }
  destruct (length (landmarks hand) <? 21)%nat eqn:Hlen.
  { eexists _, _. split; [reflexivity|]. split; [reflexivity|].
    split; [reflexivity|]. split; [tauto|]. intros _. repeat split. }
  cbn [negb andb].
  destruct (mute_enabled (config c) && _check_fist (landmarks hand)) eqn:Hf.
  - unfold _handle_fist.
    cbn [config _fist_start_time _is_muted _current_volume _last_pinch_distance].
    destruct (PyFloat.leb _ _).
    + eexists _, _. split; [reflexivity|].
      split; [reflexivity|]. split; [reflexivity|]. split; [tauto|].
      intros Hno. rewrite Hno in Hf. discriminate.
    + rewrite div_some.
      * eexists _, _. split; [reflexivity|].
        split; [reflexivity|]. split; [reflexivity|]. split; [tauto|].
        intros Hno. rewrite Hno in Hf. discriminate.
      * destruct Hs as (_ & _ & _ & _ & Hd). unfold Qeq. simpl. lia.
  - rewrite pinch_state_defined by exact Hs. cbn [mapped_volume is_pinched].
    eexists _, _. split; [reflexivity|].
    split; [reflexivity|]. split; [reflexivity|]. split.
    + unfold in_range. cbn [config _current_volume]. intros [Hlo Hhi].
      destruct (mapped_bounds (config c)
                  (landmark_distance
                     (landmark_at (landmarks hand) THUMB_TIP)
                     (landmark_at (landmarks hand) INDEX_TIP)) Hs)
        as (M1 & M2 & _).
      destruct (smoothing_enabled (config c)); [|split; assumption].
      unfold _smooth_volume. cbn [config _current_volume].
      destruct Hs as (_ & _ & Ha0 & Ha1 & _). split; nra.
    + intros _. repeat split.
Qed.

(** Frames that are not handled as a fist leave the hold timer and the
    mute as they are. *)
Lemma open_hand_frames (gap rest : list (Clock * ExtractionResult)) :
  forall c : t,
    sound (config c) ->
    Forall (fun f => handled_as_fist (config c) (snd f) = false) gap ->
    exists c1,
      config c1 = config c
      /\ _fist_start_time c1 = _fist_start_time c
      /\ _is_muted c1 = _is_muted c
      /\ flags mute_toggled (fst (feed_frames (gap ++ rest) c))
         = repeat false (length gap)
           ++ flags mute_toggled (fst (feed_frames rest c1))
      /\ snd (feed_frames (gap ++ rest) c) = snd (feed_frames rest c1).
Proof.
  induction gap as [|f gap IH]; intros c Hs Hgap.
  - exists c. repeat split.
  - inversion Hgap as [|? ? Hf Hgap']; subst.
    destruct (volume_frame c (fst f) (snd f) Hs)
      as (r & c' & Hc & Hcfg & _ & _ & Hkeep).
    destruct (Hkeep Hf) as (K1 & K2 & K3).
    destruct (IH c') as (c1 & R1 & R2 & R3 & R4 & R5).
    { rewrite Hcfg. exact Hs. } { rewrite Hcfg. exact Hgap'. }
    exists c1. split; [congruence|]. split; [congruence|].
    split; [congruence|].
    rewrite <- app_comm_cons, feed_volume_cons, Hc. cbn [fst snd].
    rewrite flags_cons, K3, R4, R5. split; reflexivity.
Qed.

(** X19: opening the hand does not clear the hold timer.  The timer that
    a fist frame starts is cleared only by a toggle (or [reset]); when
    the fist is released and made again, the hold is counted from the
    first fist frame, so a fist frame that comes at least
    [mute_hold_duration_ms] after it toggles the mute at once, although
    no fist was held in between. *)
Theorem released_fist_still_toggles
    (c : t) (first last : Clock * ExtractionResult)
    (gap : list (Clock * ExtractionResult)) :
  sound (config c) ->
  mute_enabled (config c) = true ->
  0 < mute_hold_duration_ms (config c) ->
  _fist_start_time c = None ->
  fist_frame (config c) (snd first) = true ->
  Forall (fun f => fist_frame (config c) (snd f) = false) gap ->
  fist_frame (config c) (snd last) = true ->
  (inject_Z (mute_hold_duration_ms (config c)) <= hold_ms first last)%Q ->
  flags mute_toggled (fst (feed_frames (first :: gap ++ [last]) c))
  = repeat false (S (length gap)) ++ [true]
  /\ _is_muted (snd (feed_frames (first :: gap ++ [last]) c))
     = negb (_is_muted c).
Proof.
  intros Hs Hmute Hpos Hnone Hfirst Hgap Hlast Hheld.
  destruct (fist_frame_waits c (fst first) (snd first) (time_time (fst first))
              Hmute Hpos Hfirst) as (r0 & c0 & Hc0 & Hflag0 & Hcfg0 & Hst0 & Hm0).
  { rewrite Hnone. reflexivity. }
  { assert (H0 : ((time_time (fst first) - time_time (fst first)) * 1000 == 0)%Q)
      by ring.
    rewrite H0. change 0%Q with (inject_Z 0). rewrite <- Zlt_Qlt. exact Hpos. }
  destruct (open_hand_frames gap [last] c0) as (c1 & R1 & R2 & R3 & R4 & R5).
  { rewrite Hcfg0. exact Hs. }
  { rewrite Hcfg0. eapply Forall_impl; [exact Hgap|].
    intros f Hf. unfold handled_as_fist. rewrite Hf. apply andb_false_r. }
  destruct (fist_frame_toggles c1 (fst last) (snd last) (time_time (fst first)))
    as (r2 & c2 & Hc2 & Hflag2 & Hcfg2 & Hst2 & Hm2).
  { rewrite R1, Hcfg0. exact Hmute. }
  { rewrite R1, Hcfg0. exact Hlast. }
  { rewrite R2, Hst0. reflexivity. }
  { rewrite R1, Hcfg0. exact Hheld. }
  rewrite feed_volume_cons, Hc0. cbn [fst snd].
  rewrite flags_cons, Hflag0, R4, R5.
  rewrite (feed_volume_cons last [] c1), Hc2. cbn [fst snd feed_frames].
  rewrite flags_cons, Hflag2. cbn [flags map repeat app].
  split; [reflexivity|]. congruence.
Qed.

End VolumeRange.

Section VolumeRangeExamples.
Import VolumeControlClassifier.

Lemma default_sound : sound default_config.
Proof.
  unfold sound. cbn.
  split; [reflexivity|]. split; [discriminate|]. split; [discriminate|].
  split; discriminate.
Qed.

(** A fist for one frame, an open hand half a second later, and a fist
    again one and a half seconds after the first. *)
Definition fist_released : list (Clock * ExtractionResult) :=
  [(mkClock (1 # 2) 0, frame_with (pinch_hand (1 # 10)))].

Lemma released_fist_still_toggles_witness :
  flags mute_toggled
        (fst (feed_frames (fist_at 0 :: fist_released ++ [fist_at (3 # 2)])
                          volume0))
  = [false; false; true]
  /\ _is_muted (snd (feed_frames
                       (fist_at 0 :: fist_released ++ [fist_at (3 # 2)])
                       volume0))
     = true.
Proof.
  apply (released_fist_still_toggles volume0 (fist_at 0) (fist_at (3 # 2))
           fist_released).
  - exact default_sound.
  - reflexivity.
  - reflexivity.
  - reflexivity.
  - reflexivity.
  - repeat constructor.
  - reflexivity.
  - discriminate.
Defined.

End VolumeRangeExamples.

(** *** The volume range in binary64 *)

Section VolumeBinary64Examples.
Import VolumeControlBinary64.

(** The thresholds 0.02 and 0.15 with the volume range 0.3 to 0.9: an
    open hand is mapped to 0.9000000000000001, above [volume_max],
    where exact arithmetic gives [volume_max]. *)
Example mapped_volume_above_volume_max :
  let cfg := mkConfig 0x1.47ae147ae147bp-6 0x1.3333333333333p-3
                      0x1.3333333333333p-2 0x1.ccccccccccccdp-1
                      0x1.3333333333333p-2 in
  mapped_volume cfg 0x1.999999999999ap-3 = Some 0x1.ccccccccccccep-1%float
  /\ PrimFloat.ltb (volume_max cfg) 0x1.ccccccccccccep-1 = true.
Proof. vm_compute. split; reflexivity. Qed.

(** The volume range 0.0 to 0.8 with smoothing factor 0.2: from the
    constructor's 0.5, 155 frames of an open hand bring the volume to
    0.8000000000000002, above [volume_max]. *)
Example smoothed_volume_above_volume_max :
  let cfg := mkConfig 0x1.47ae147ae147bp-6 0x1.3333333333333p-3
                      0 0x1.999999999999ap-1 0x1.999999999999ap-3 in
  smoothed 155 cfg 0x1.999999999999ap-3 0.5
  = Some 0x1.999999999999bp-1%float
  /\ PrimFloat.ltb (volume_max cfg) 0x1.999999999999bp-1 = true.
Proof. vm_compute. split; reflexivity. Qed.

End VolumeBinary64Examples.

(** ** The volume action on the classifier's results
    (features/volume_control/actions.py) *)

Section VolumeSystem.
Import VolumeControlClassifier VolumeControlActions.

(** A call whose volume is a fraction of the full volume. *)
Definition in_bounds (c : sys_call) : Prop :=
  match c with
  | SetMasterVolumeLevelScalar level => (0 <= level)%Q /\ (level <= 1)%Q
  | OsascriptVolume p | AmixerVolume p | PactlVolume p => 0 <= p <= 100
  | SetMute _ | OsascriptMuted _ | AmixerMute _ => True
  end.

(** The mute state a call asks for. *)
Definition mute_state (c : sys_call) : option bool :=
  match c with
  | SetMute (VBool b) | OsascriptMuted b | AmixerMute b => Some b
  | _ => None
  end.

Definition mutes (log : list sys_call) : list bool := omap mute_state log.

(** [n] mute states in turn, from [b] on. *)
Fixpoint alternate (b : bool) (n : nat) : list bool :=
  match n with
  | O => []
  | S k => b :: alternate (negb b) k
  end.

(** The platforms on which the action initializes. *)
Definition supported (a : VolumeControlActions.t) : Prop :=
  (_platform a = "Windows" /\ _volume_interface a = true)
  \/ _platform a = "Darwin" \/ _platform a = "Linux".

Lemma unit_clamp (level : Q) :
  (0 <= PyFloat.max 0 (PyFloat.min 1 level))%Q
  /\ (PyFloat.max 0 (PyFloat.min 1 level) <= 1)%Q.
Proof.
  unfold PyFloat.max, PyFloat.min.
  destruct (PyFloat.ltb level 1) eqn:E1.
  - apply PyFloat.ltb_lt in E1.
    destruct (PyFloat.ltb 0 level) eqn:E2.
    + apply PyFloat.ltb_lt in E2. lra.
    + lra.
  - destruct (PyFloat.ltb 0 1) eqn:E2; lra.
Qed.

Lemma percent_bounds (level : Q) :
  (0 <= level)%Q -> (level <= 1)%Q -> 0 <= PyFloat.int (level * 100) <= 100.
Proof.
  intros H0 H1. unfold PyFloat.int. destruct level as [n d].
  unfold Qle in H0, H1. cbn in H0, H1 |- *.
  split.
  - apply Z.quot_pos; lia.
  - apply Z.quot_le_upper_bound; lia.
Qed.

Lemma initialized_supported (system_name : string) (pycaw : bool) :
  _initialized (init system_name pycaw) = true ->
  supported (init system_name pycaw).
Proof.
  unfold init, supported.
  destruct (String.eqb system_name "Windows") eqn:Ew.
  { apply String.eqb_eq in Ew. cbn. intros ->. left. split; [exact Ew|reflexivity]. }
  destruct (String.eqb system_name "Darwin") eqn:Ed.
  { apply String.eqb_eq in Ed. cbn. intros _. right. left. exact Ed. }
  destruct (String.eqb system_name "Linux") eqn:El.
  { apply String.eqb_eq in El. cbn. intros _. right. right. exact El. }
  cbn. discriminate.
Qed.

Context (system : list sys_call -> sys_call -> PyExn + Z).

Lemma set_volume_in_bounds (a : VolumeControlActions.t) (level : Q)
    (log : list sys_call) :
  Forall in_bounds log ->
  Forall in_bounds (snd (_set_volume system a level log)).
Proof.
  intros Hlog. unfold _set_volume, call.
  destruct (unit_clamp level) as [H0 H1].
  pose proof (percent_bounds _ H0 H1) as Hp.
  assert (Hsnoc : forall c l, Forall in_bounds l -> in_bounds c ->
                              Forall in_bounds (l ++ [c])).
  { intros c l Hl Hc. apply Forall_app. split; [exact Hl|]. constructor; [exact Hc|constructor]. }
  destruct (String.eqb (_platform a) "Windows").
  { destruct (_volume_interface a); [|exact Hlog].
    destruct (system log _); cbn [snd]; apply Hsnoc; try exact Hlog; split; assumption. }
  destruct (String.eqb (_platform a) "Darwin").
  { destruct (system log _); cbn [snd]; apply Hsnoc; try exact Hlog; exact Hp. }
  destruct (String.eqb (_platform a) "Linux"); [|exact Hlog].
  destruct (system log _) as [e|rc]; cbn [snd].
  { apply Hsnoc; [exact Hlog|exact Hp]. }
  destruct (negb (rc =? 0)); cbn [snd].
  - destruct (system _ _); cbn [snd]; apply Hsnoc; try exact Hp;
      apply Hsnoc; try exact Hlog; exact Hp.
  - apply Hsnoc; [exact Hlog|exact Hp].
Qed.

Lemma set_mute_in_bounds (a : VolumeControlActions.t) (muted : PyVal)
    (log : list sys_call) :
  Forall in_bounds log ->
  Forall in_bounds (snd (_set_mute system a muted log)).
Proof.
  intros Hlog. unfold _set_mute, call.
  assert (Hsnoc : forall c l, Forall in_bounds l -> in_bounds c ->
                              Forall in_bounds (l ++ [c])).
  { intros c l Hl Hc. apply Forall_app. split; [exact Hl|]. constructor; [exact Hc|constructor]. }
  destruct (String.eqb (_platform a) "Windows").
  { destruct (_volume_interface a); [|exact Hlog].
    destruct (system log _); cbn [snd]; apply Hsnoc; try exact Hlog; exact I. }
  destruct (String.eqb (_platform a) "Darwin").
  { destruct (system log _); cbn [snd]; apply Hsnoc; try exact Hlog; exact I. }
  destruct (String.eqb (_platform a) "Linux"); [|exact Hlog].
  destruct (system log _); cbn [snd]; apply Hsnoc; try exact Hlog; exact I.
Qed.

Lemma execute_in_bounds (res : InferenceResult) (a : VolumeControlActions.t)
    (log : list sys_call) :
  Forall in_bounds log ->
  Forall in_bounds (snd (execute system res a log)).
Proof.
  intros Hlog. unfold execute.
  destruct (negb (_initialized a)); [exact Hlog|].
  cbv zeta.
  destruct (truthy _).
  - pose proof (set_mute_in_bounds a
      (default (VBool false) (raw_output res !! "is_muted")) log Hlog) as H.
    destruct (_set_mute _ _ _ _) as [[e|] log']; exact H.
  - destruct (number _) as [level|]; [|exact Hlog].
    destruct (PyFloat.ltb _ _); [|exact Hlog].
    pose proof (set_volume_in_bounds a level log Hlog) as H.
    destruct (_set_volume _ _ _ _) as [[e|] log']; exact H.
Qed.

Lemma drive_in_bounds (results : list (PyExn + InferenceResult)) :
  forall (a : VolumeControlActions.t) (log : list sys_call),
    Forall in_bounds log ->
    Forall in_bounds (snd (drive system results a log)).
Proof.
  induction results as [|[e|res] rest IH]; intros a log Hlog.
  - exact Hlog.
  - apply IH. exact Hlog.
  - cbn [drive].
    pose proof (execute_in_bounds res a log Hlog) as H.
    destruct (execute system res a log) as [[ok a'] log'].
    apply IH. exact H.
Qed.

(** X20: no volume outside the full range is ever sent to the system.
    Whatever the results hold (a [volume_level] of any size or type),
    whatever the platform and whether or not the system calls fail,
    every volume call that the action makes carries a scalar in [0, 1]
    or a percentage in 0..100. *)
Theorem volume_commands_stay_in_range
    (results : list (PyExn + InferenceResult)) (a : VolumeControlActions.t) :
  Forall in_bounds (snd (drive system results a [])).
Proof. apply drive_in_bounds. constructor. Qed.

Hypothesis system_works : forall log c, exists rc, system log c = inr rc.

(** A result that toggles the mute, through [execute]: one mute call
    with the state of the result, and the applied volume as it was. *)
Lemma execute_toggle (res : InferenceResult) (b : bool)
    (a : VolumeControlActions.t) (log : list sys_call) :
  _initialized a = true -> supported a ->
  raw_output res !! "mute_toggled" = Some (VBool true) ->
  raw_output res !! "is_muted" = Some (VBool b) ->
  exists c,
    execute system res a log = (true, a, log ++ [c])
    /\ mute_state c = Some b.
Proof.
  intros Hinit Hsup Ht Hm. unfold execute.
  rewrite Hinit, Ht, Hm. cbn [negb default from_option id truthy].
  unfold _set_mute, call.
  destruct Hsup as [[Hp Hi]|[Hp|Hp]]; rewrite Hp.
  - change (String.eqb "Windows" "Windows") with true. cbv beta iota zeta.
    rewrite Hi.
    destruct (system_works log (SetMute (VBool b))) as [rc ->].
    eexists. split; reflexivity.
  - change (String.eqb "Darwin" "Windows") with false.
    change (String.eqb "Darwin" "Darwin") with true. cbv beta iota zeta.
    cbn [truthy].
    destruct (system_works log (OsascriptMuted b)) as [rc ->].
    eexists. split; reflexivity.
  - change (String.eqb "Linux" "Windows") with false.
    change (String.eqb "Linux" "Darwin") with false.
    change (String.eqb "Linux" "Linux") with true. cbv beta iota zeta.
    cbn [truthy].
    destruct (system_works log (AmixerMute b)) as [rc ->].
    eexists. split; reflexivity.
Qed.

(** A result that does not toggle the mute and holds a volume, through
    [execute]: the applied volume ends within 0.01 of the result's, no
    mute call is made, and nothing at all is done when the volume was
    within 0.01 already. *)
Lemma execute_volume (res : InferenceResult) (v : Q)
    (a : VolumeControlActions.t) (log : list sys_call) :
  _initialized a = true -> supported a ->
  raw_output res !! "mute_toggled" = None ->
  raw_output res !! "volume_level" = Some (VFloat v) ->
  exists ok a' calls,
    execute system res a log = (ok, a', log ++ calls)
    /\ (Qabs (v - _last_volume a') <= 1 # 100)%Q
    /\ _initialized a' = true /\ supported a'
    /\ mutes calls = []
    /\ ((Qabs (v - _last_volume a) <= 1 # 100)%Q ->
        ok = false /\ a' = a /\ calls = [])
    /\ ((1 # 100 < Qabs (v - _last_volume a))%Q ->
        ok = true /\ (_last_volume a' == v)%Q /\ calls <> []).
Proof.
  intros Hinit Hsup Ht Hv. unfold execute.
  rewrite Hinit, Ht, Hv. cbn [negb default from_option id truthy number].
  destruct (PyFloat.ltb _ _) eqn:E.
  2:{ apply PyFloat.ltb_ge in E.
      exists false, a, []. rewrite app_nil_r.
      split; [reflexivity|]. split; [exact E|].
      split; [exact Hinit|]. split; [exact Hsup|]. split; [reflexivity|].
      split; [intros _; repeat split|].
      intros Hlt. apply Qlt_not_le in Hlt. contradiction. }
  apply PyFloat.ltb_lt in E.
  assert (Hzero : (Qabs (v - v) <= 1 # 100)%Q).
  { assert (H0 : (v - v == 0)%Q) by ring.
    rewrite H0. change (Qabs 0) with 0%Q. lra. }
  assert (Hset : exists calls,
             _set_volume system a v log = (None, log ++ calls)
             /\ mutes calls = [] /\ calls <> []).
  { unfold _set_volume, call.
    destruct Hsup as [[Hp Hi]|[Hp|Hp]]; rewrite Hp.
    - change (String.eqb "Windows" "Windows") with true. cbv beta iota zeta.
      rewrite Hi.
      destruct (system_works log (SetMasterVolumeLevelScalar
                  (PyFloat.max 0 (PyFloat.min 1 v)))) as [rc ->].
      eexists [_]. split; [reflexivity|]. split; [reflexivity|discriminate].
    - change (String.eqb "Darwin" "Windows") with false.
      change (String.eqb "Darwin" "Darwin") with true. cbv beta iota zeta.
      destruct (system_works log (OsascriptVolume
                  (PyFloat.int (PyFloat.max 0 (PyFloat.min 1 v) * 100))))
        as [rc ->].
      eexists [_]. split; [reflexivity|]. split; [reflexivity|discriminate].
    - change (String.eqb "Linux" "Windows") with false.
      change (String.eqb "Linux" "Darwin") with false.
      change (String.eqb "Linux" "Linux") with true. cbv beta iota zeta.
      destruct (system_works log (AmixerVolume
                  (PyFloat.int (PyFloat.max 0 (PyFloat.min 1 v) * 100))))
        as [rc ->].
      destruct (negb (rc =? 0)).
      + destruct (system_works
                    (log ++ [AmixerVolume
                       (PyFloat.int (PyFloat.max 0 (PyFloat.min 1 v) * 100))])
                    (PactlVolume
                       (PyFloat.int (PyFloat.max 0 (PyFloat.min 1 v) * 100))))
          as [rc' ->].
        eexists [_; _]. rewrite <- app_assoc.
        split; [reflexivity|]. split; [reflexivity|discriminate].
      + eexists [_]. split; [reflexivity|]. split; [reflexivity|discriminate]. }
  destruct Hset as (calls & -> & Hm & Hne).
  eexists true, _, calls. split; [reflexivity|].
  cbn [_last_volume _initialized].
  split; [exact Hzero|]. split; [reflexivity|]. split; [exact Hsup|].
  split; [exact Hm|]. split.
  - intros Hle. apply Qlt_not_le in E. contradiction.
  - intros _. split; [reflexivity|]. split; [reflexivity|exact Hne].
Qed.

(** What a frame of the classifier puts in [raw_output] for the action:
    either no [mute_toggled] and the volume it holds afterwards, or a
    toggle with the new mute state. *)
Lemma volume_frame_raw (c : VolumeControlClassifier.t) (clk : Clock)
    (ex : ExtractionResult) :
  sound (config c) ->
  exists r c',
    classify c clk ex = (inr r, c')
    /\ config c' = config c
    /\ ((raw_output r !! "mute_toggled" = None
         /\ raw_output r !! "volume_level"
            = Some (VFloat (_current_volume c'))
         /\ mute_toggled r = false
         /\ _is_muted c' = _is_muted c)
        \/ (raw_output r !! "mute_toggled" = Some (VBool true)
            /\ raw_output r !! "is_muted" = Some (VBool (_is_muted c'))
            /\ mute_toggled r = true
            /\ _is_muted c' = negb (_is_muted c))).
Proof.
  intros Hs. unfold classify, _get_preferred_hand.
  destruct (select_hand (preferred_hand (config c)) ex) as [hand|].
  2:{ eexists _, _. split; [reflexivity|]. split; [reflexivity|].
      left. repeat split. }
  destruct (length (landmarks hand) <? 21)%nat.
  { eexists _, _. split; [reflexivity|]. split; [reflexivity|].
    left. repeat split. }
  cbv zeta.
  destruct (mute_enabled (config c) && _check_fist (landmarks hand)).
  - unfold _handle_fist.
    cbn [config _fist_start_time _is_muted _current_volume _last_pinch_distance].
    destruct (PyFloat.leb _ _).
    + eexists _, _. split; [reflexivity|]. split; [reflexivity|].
      right. repeat split.
    + rewrite div_some.
      * eexists _, _. split; [reflexivity|]. split; [reflexivity|].
        left. repeat split.
      * destruct Hs as (_ & _ & _ & _ & Hd). unfold Qeq. simpl. lia.
  - rewrite pinch_state_defined by exact Hs.
    eexists _, _. split; [reflexivity|]. split; [reflexivity|].
    left. repeat split.
Qed.

(** A volume call that carries [v] clamped to the full range: as a
    scalar on Windows, as [int(level * 100)] percent elsewhere. *)
Definition carries (v : Q) (c : sys_call) : Prop :=
  let level := PyFloat.max 0 (PyFloat.min 1 v) in
  match c with
  | SetMasterVolumeLevelScalar l => l = level
  | OsascriptVolume p | AmixerVolume p | PactlVolume p =>
      p = PyFloat.int (level * 100)
  | SetMute _ | OsascriptMuted _ | AmixerMute _ => False
  end.

(** The test of [execute] on the volume:
    [abs(volume_level - self._last_volume) > 0.01]. *)
Definition differs (v last : Q) : bool :=
  PyFloat.ltb (1 # 100) (Qabs (v - last)).

Lemma set_volume_carries (a : VolumeControlActions.t) (v : Q)
    (log : list sys_call) :
  supported a ->
  exists calls,
    _set_volume system a v log = (None, log ++ calls)
    /\ calls <> [] /\ Forall (carries v) calls.
Proof.
  intros Hsup. unfold _set_volume, call.
  destruct Hsup as [[Hp Hi]|[Hp|Hp]]; rewrite Hp.
  - change (String.eqb "Windows" "Windows") with true. cbv beta iota zeta.
    rewrite Hi.
    destruct (system_works log (SetMasterVolumeLevelScalar
                (PyFloat.max 0 (PyFloat.min 1 v)))) as [rc ->].
    eexists [_]. split; [reflexivity|]. split; [discriminate|].
    repeat constructor.
  - change (String.eqb "Darwin" "Windows") with false.
    change (String.eqb "Darwin" "Darwin") with true. cbv beta iota zeta.
    destruct (system_works log (OsascriptVolume
                (PyFloat.int (PyFloat.max 0 (PyFloat.min 1 v) * 100))))
      as [rc ->].
    eexists [_]. split; [reflexivity|]. split; [discriminate|].
    repeat constructor.
  - change (String.eqb "Linux" "Windows") with false.
    change (String.eqb "Linux" "Darwin") with false.
    change (String.eqb "Linux" "Linux") with true. cbv beta iota zeta.
    destruct (system_works log (AmixerVolume
                (PyFloat.int (PyFloat.max 0 (PyFloat.min 1 v) * 100))))
      as [rc ->].
    destruct (negb (rc =? 0)).
    + destruct (system_works
                  (log ++ [AmixerVolume
                     (PyFloat.int (PyFloat.max 0 (PyFloat.min 1 v) * 100))])
                  (PactlVolume
                     (PyFloat.int (PyFloat.max 0 (PyFloat.min 1 v) * 100))))
        as [rc' ->].
      eexists [_; _]. rewrite <- app_assoc.
      split; [reflexivity|]. split; [discriminate|]. repeat constructor.
    + eexists [_]. split; [reflexivity|]. split; [discriminate|].
      repeat constructor.
Qed.

(** X21: [_last_volume] follows the classifier, and the system is asked
    for it in whole percents.  With a sound configuration, a working
    system and an initialized action, a frame raises nothing.  When its
    result does not toggle the mute, the action decides by the test
    [abs(volume_level - self._last_volume) > 0.01] on the volume the
    classifier holds after the frame: when the test fails it returns
    [False], keeps [_last_volume] and makes no call; when it passes it
    returns [True], sets [_last_volume] to that volume, makes no mute
    call, and every call it makes carries that volume clamped to
    [0, 1], as a scalar on Windows and as [int(level * 100)] percent on
    macOS and Linux.  So [_last_volume] is the last level asked for,
    not the level of the system, which off Windows holds whole percents
    only. *)
Theorem last_volume_follows_classifier
    (c : VolumeControlClassifier.t) (clk : Clock) (ex : ExtractionResult)
    (a : VolumeControlActions.t) (log : list sys_call) :
  sound (config c) ->
  _initialized a = true -> supported a ->
  exists r c' ok a' calls,
    classify c clk ex = (inr r, c')
    /\ execute system r a log = (ok, a', log ++ calls)
    /\ (mute_toggled r = false ->
        let v := _current_volume c' in
        mutes calls = []
        /\ (differs v (_last_volume a) = false ->
            ok = false /\ a' = a /\ calls = [])
        /\ (differs v (_last_volume a) = true ->
            ok = true
            /\ a' = VolumeControlActions.mk (_platform a) (_volume_interface a)
                      v (_initialized a)
            /\ calls <> [] /\ Forall (carries v) calls)).
Proof.
  intros Hs Hinit Hsup.
  destruct (volume_frame_raw c clk ex Hs)
    as (r & c' & Hc & _ & [(Ht & Hv & Hf & _)|(Ht & Hm & Hf & _)]).
  - assert (He : execute system r a log
                 = if differs (_current_volume c') (_last_volume a)
                   then match _set_volume system a (_current_volume c') log with
                        | (Some _, log') => (false, a, log')
                        | (None, log') =>
                            (true,
                             VolumeControlActions.mk (_platform a)
                               (_volume_interface a) (_current_volume c')
                               (_initialized a), log')
                        end
                   else (false, a, log)).
    { unfold execute. rewrite Hinit, Ht, Hv. reflexivity. }
    destruct (differs (_current_volume c') (_last_volume a)) eqn:E.
    + destruct (set_volume_carries a (_current_volume c') log Hsup)
        as (calls & Hset & Hne & Hall).
      rewrite Hset in He.
      exists r, c', true, (VolumeControlActions.mk (_platform a)
                             (_volume_interface a) (_current_volume c')
                             (_initialized a)), calls.
      split; [exact Hc|]. split; [exact He|]. intros _. cbv zeta.
      split.
      * clear - Hall. induction Hall as [|x l Hx _ IH]; [reflexivity|].
        unfold mutes in *. cbn [omap list_omap].
        destruct x; cbn in Hx; try contradiction; cbn [mute_state]; exact IH.
      * rewrite E. split; [discriminate|]. intros _. repeat split; assumption.
    + exists r, c', false, a, []. rewrite app_nil_r.
      split; [exact Hc|]. split; [exact He|]. intros _. cbv zeta.
      rewrite E. split; [reflexivity|].
      split; [intros _; repeat split|discriminate].
  - destruct (execute_toggle r (_is_muted c') a log
                Hinit Hsup Ht Hm) as (call & He & _).
    exists r, c', true, a, [call]. split; [exact Hc|]. split; [exact He|].
    intros Hno. rewrite Hno in Hf. discriminate.
Qed.

Lemma mutes_app (l1 l2 : list sys_call) :
  mutes (l1 ++ l2) = mutes l1 ++ mutes l2.
Proof. unfold mutes. apply omap_app. Qed.

Lemma mute_calls_of_stream (frames : list (Clock * ExtractionResult)) :
  forall (c : VolumeControlClassifier.t) (a : VolumeControlActions.t)
         (log : list sys_call),
    sound (config c) ->
    _initialized a = true -> supported a ->
    mutes (snd (drive system (fst (feed_frames frames c)) a log))
    = mutes log
      ++ alternate (negb (_is_muted c)) (toggles (fst (feed_frames frames c))).
Proof.
  induction frames as [|f rest IH]; intros c a log Hs Hinit Hsup.
  - cbn. rewrite app_nil_r. reflexivity.
  - rewrite feed_volume_cons. cbn [fst].
    destruct (volume_frame_raw c (fst f) (snd f) Hs)
      as (r & c' & Hc & Hcfg & [(Ht & Hv & Hf & Hm)|(Ht & Hm & Hf & Hneg)]).
    + rewrite Hc. cbn [fst snd drive].
      destruct (execute_volume r (_current_volume c') a log Hinit Hsup Ht Hv)
        as (ok & a' & calls & He & _ & Hinit' & Hsup' & Hmutes & _).
      rewrite He. rewrite IH; [|rewrite Hcfg; exact Hs|exact Hinit'|exact Hsup'].
      rewrite mutes_app, Hmutes, app_nil_r, Hm.
      unfold toggles. rewrite flags_cons, Hf. reflexivity.
    + rewrite Hc. cbn [fst snd drive].
      destruct (execute_toggle r (_is_muted c') a log Hinit Hsup Ht Hm)
        as (call & He & Hst).
      rewrite He. rewrite IH; [|rewrite Hcfg; exact Hs|exact Hinit|exact Hsup].
      rewrite mutes_app. unfold mutes at 2. cbn [omap list_omap].
      rewrite Hst. cbn [omap list_omap].
      unfold toggles. rewrite flags_cons, Hf. cbn [List.filter length alternate].
      rewrite <- app_assoc, Hneg. reflexivity.
Qed.

(** X22: the system is muted and unmuted as the classifier toggles.
    With a sound configuration, a working system and an initialized
    action, the mute calls that a stream of frames makes on the system
    are as many as the results that toggle the mute, and they ask in
    turn for the opposite of the classifier's mute state at the start,
    then for that state, and so on. *)
Theorem system_mute_follows_toggles
    (frames : list (Clock * ExtractionResult))
    (c : VolumeControlClassifier.t) (a : VolumeControlActions.t) :
  sound (config c) ->
  _initialized a = true -> supported a ->
  mutes (snd (drive system (fst (feed_frames frames c)) a []))
  = alternate (negb (_is_muted c)) (toggles (fst (feed_frames frames c))).
Proof.
  intros Hs Hinit Hsup.
  rewrite (mute_calls_of_stream frames c a [] Hs Hinit Hsup). reflexivity.
Qed.

End VolumeSystem.

Section VolumeSystemExamples.
Import VolumeControlClassifier VolumeControlActions.

(** A system on which every call returns with code 0, and the action as
    constructed on Linux. *)
Definition system_ok (log : list sys_call) (c : sys_call) : PyExn + Z := inr 0.

Definition linux_action : VolumeControlActions.t :=
  VolumeControlActions.init "Linux" false.

Lemma system_ok_works :
  forall log c, exists rc, system_ok log c = inr rc.
Proof. intros log c. exists 0. reflexivity. Qed.

Lemma linux_supported : supported linux_action.
Proof. right. right. reflexivity. Qed.

Lemma last_volume_witness :
  exists r c' ok a' calls,
    classify volume0 clock0 (frame_with (pinch_hand (1 # 10))) = (inr r, c')
    /\ execute system_ok r linux_action [] = (ok, a', [] ++ calls)
    /\ (mute_toggled r = false ->
        let v := _current_volume c' in
        mutes calls = []
        /\ (differs v (_last_volume linux_action) = false ->
            ok = false /\ a' = linux_action /\ calls = [])
        /\ (differs v (_last_volume linux_action) = true ->
            ok = true
            /\ a' = VolumeControlActions.mk (_platform linux_action)
                      (_volume_interface linux_action) v
                      (_initialized linux_action)
            /\ calls <> [] /\ Forall (carries v) calls)).
Proof.
  apply (last_volume_follows_classifier system_ok system_ok_works
           volume0 clock0 (frame_with (pinch_hand (1 # 10))) linux_action []).
  - exact default_sound.
  - reflexivity.
  - exact linux_supported.
Defined.

Lemma system_mute_witness :
  mutes (snd (drive system_ok (fst (feed_frames held_fist volume0))
                linux_action []))
  = [true; false].
Proof.
  apply (system_mute_follows_toggles system_ok system_ok_works held_fist
           volume0 linux_action).
  - exact default_sound.
  - reflexivity.
  - exact linux_supported.
Defined.

End VolumeSystemExamples.

(** ** The mouse classifier over streams (features/virtual_mouse) *)

Section MouseStreams.
Import VirtualMouseClassifier.

(** A frame on which the hand is lost: no hand, too few landmarks, or
    not pointing when the configuration asks for it. *)
Definition lost (cfg : VirtualMouseConfig) (f : Clock * ExtractionResult)
    : Prop :=
  pinch_seen cfg (snd f) = None.

Lemma classify_lost (c : t) (clk : Clock) (ex : ExtractionResult) :
  pinch_seen (config c) ex = None ->
  classify c clk ex
  = (inr (_create_result (with_state c IDLE) (perf_elapsed_ms clk) NONE 0
            no_kwargs),
     with_state c IDLE).
Proof.
  unfold pinch_seen, classify, _get_tracking_hand.
  destruct (select_hand (preferred_hand (config c)) ex) as [hand|];
    [|reflexivity].
  cbv zeta.
  destruct (length (landmarks hand) <? 21)%nat; [reflexivity|].
  destruct (require_pointing_gesture (config c)
            && negb (_check_pointing (landmarks hand))); [reflexivity|].
  discriminate.
Qed.

Lemma emitted_cons (r : PyExn + InferenceResult)
    (rs : list (PyExn + InferenceResult)) :
  emitted (r :: rs)
  = match r with inr res => events res | inl _ => nothing end :: emitted rs.
Proof. reflexivity. Qed.

Lemma lost_frames (gap rest : list (Clock * ExtractionResult)) :
  forall c : t,
    Forall (lost (config c)) gap ->
    exists c1,
      config c1 = config c
      /\ _filter c1 = _filter c
      /\ _click_start_time c1 = _click_start_time c
      /\ _is_dragging c1 = _is_dragging c
      /\ emitted (fst (feed_frames (gap ++ rest) c))
         = repeat nothing (length gap)
           ++ emitted (fst (feed_frames rest c1)).
Proof.
  induction gap as [|f gap IH]; intros c Hgap.
  - exists c. repeat split.
  - inversion Hgap as [|? ? Hf Hgap']; subst.
    destruct (IH (with_state c IDLE) Hgap') as (c1 & R1 & R2 & R3 & R4 & R5).
    exists c1. do 4 (split; [assumption|]).
    rewrite <- app_comm_cons, feed_mouse_cons, (classify_lost c _ _ Hf).
    cbn [fst snd]. rewrite emitted_cons, R5. reflexivity.
Qed.

(** X23: losing the hand does not end a drag.  While a drag is in
    progress, frames on which the hand is lost emit no event and leave
    the drag as it is, however many they are; the [release] is emitted
    on the first frame that shows the hand again without the pinch, and
    a frame that shows it still pinched goes on dragging. *)
Theorem lost_hand_keeps_drag
    (c : t) (gap : list (Clock * ExtractionResult))
    (back : Clock * ExtractionResult) :
  ready c ->
  _is_dragging c = true ->
  is_Some (_click_start_time c) ->
  Forall (lost (config c)) gap ->
  (releasing (config c) back ->
   emitted (fst (feed_frames (gap ++ [back]) c))
   = repeat nothing (length gap) ++ [only_release])
  /\ (pinching (config c) back ->
      emitted (fst (feed_frames (gap ++ [back]) c))
      = repeat nothing (length gap) ++ [only_drag]).
Proof.
  intros Hr Hd Hs Hgap.
  destruct (lost_frames gap [back] c Hgap) as (c1 & R1 & R2 & R3 & R4 & ->).
  assert (Hr1 : ready c1).
  { unfold ready in *. rewrite R1, R2. exact Hr. }
  split; intros Hback; f_equal.
  - destruct (feed_mouse_step c1 back [] false Hr1) as
      (c2 & x & y & E1 & E2 & E3 & _ & ->). { rewrite R1. exact Hback. }
    destruct (release_ends_drag c2 x y (seen_at back)) as (-> & _).
    { congruence. } { rewrite E2, R3. exact Hs. }
    reflexivity.
  - destruct (feed_mouse_step c1 back [] true Hr1) as
      (c2 & x & y & E1 & E2 & E3 & _ & ->). { rewrite R1. exact Hback. }
    destruct (pinch_keeps_dragging c2 x y (seen_at back)) as (-> & _).
    { congruence. }
    reflexivity.
Qed.

(** *** The double click *)

(** The classifier with the time of its last click forgotten. *)
Definition forget_click (c : t) : t :=
  mk (config c) (_screen_width c) (_screen_height c) (_filter c) (_state c)
     (_click_start_time c) 0 (_is_dragging c) (_last_position c).

Lemma classify_forgets (c1 c2 : t) (clk : Clock) (ex : ExtractionResult) :
  forget_click c1 = forget_click c2 ->
  fst (classify c1 clk ex) = fst (classify c2 clk ex)
  /\ forget_click (snd (classify c1 clk ex))
     = forget_click (snd (classify c2 clk ex)).
Proof.
  destruct c1 as [cfg w h flt st cs lc1 dr lp].
  destruct c2 as [cfg2 w2 h2 flt2 st2 cs2 lc2 dr2 lp2].
  unfold forget_click. cbn. intros [= <- <- <- <- <- <- <- <-].
  unfold classify, _get_tracking_hand. cbn [config].
  destruct (select_hand (preferred_hand cfg) ex) as [hand|];
    [|split; reflexivity].
  cbv zeta.
  destruct (length (landmarks hand) <? 21)%nat; [split; reflexivity|].
  destruct (require_pointing_gesture cfg
            && negb (_check_pointing (landmarks hand))); [split; reflexivity|].
  unfold _map_to_screen. cbn [config _screen_width _screen_height].
  destruct (PyFloat.div (_ - fst (gesture_zone_x cfg)) _) as [x'|];
    cbn [mbind option_bind]; [|split; reflexivity].
  destruct (PyFloat.div _ _) as [y'|];
    cbn [mbind option_bind]; [|split; reflexivity].
  cbn [_filter].
  destruct (if smoothing_enabled cfg then _ else _) as [[e|[fx fy]] flt'];
    [split; reflexivity|].
  unfold _update_state.
  cbn [config _click_start_time _is_dragging _state _last_click_time
       _screen_width _screen_height _filter _last_position].
  destruct (PyFloat.ltb _ (click_threshold cfg)).
  - destruct (PyFloat.leb _ _ && negb dr); [split; reflexivity|].
    destruct dr; split; reflexivity.
  - destruct cs as [started|]; [|split; reflexivity].
    destruct dr; [split; reflexivity|].
    destruct (PyFloat.ltb _ _); split; reflexivity.
Qed.

(** X24: no double click.  [_last_click_time] is written at every click
    and read only for a test whose two branches set the same flag, so
    no result depends on it: two classifiers that differ only in the
    time of their last click return the same results on every
    stream. *)
Theorem last_click_time_is_never_used
    (frames : list (Clock * ExtractionResult)) :
  forall c1 c2 : t,
    forget_click c1 = forget_click c2 ->
    fst (feed_frames frames c1) = fst (feed_frames frames c2)
    /\ forget_click (snd (feed_frames frames c1))
       = forget_click (snd (feed_frames frames c2)).
Proof.
  induction frames as [|f rest IH]; intros c1 c2 Hsame.
  - split; [reflexivity|exact Hsame].
  - destruct (classify_forgets c1 c2 (fst f) (snd f) Hsame) as [Hr Hc].
    rewrite !feed_mouse_cons. cbn [fst snd].
    destruct (IH _ _ Hc) as [IH1 IH2]. rewrite Hr, IH1. split; [reflexivity|].
    exact IH2.
Qed.

End MouseStreams.

Section MouseStreamsExamples.
Import VirtualMouseClassifier.

(** The classifier after a pinch held for 250 ms: a drag is in
    progress. *)
Definition dragging_mouse : VirtualMouseClassifier.t :=
  snd (feed_frames [pointing_at true 10; pointing_at true (41 # 4)] mouse0).

Definition hand_lost : list (Clock * ExtractionResult) :=
  [(mkClock 11 0, no_hands); (mkClock 12 0, no_hands)].

Lemma dragging_mouse_ready : ready dragging_mouse.
Proof.
  unfold ready, valid.
  vm_compute.
  repeat split; try reflexivity; intros;
    try discriminate; eexists; reflexivity.
Qed.

Lemma lost_hand_keeps_drag_witness :
  emitted (fst (feed_frames (hand_lost ++ [pointing_at false 13])
                            dragging_mouse))
  = [nothing; nothing; only_release]
  /\ emitted (fst (feed_frames (hand_lost ++ [pointing_at true 13])
                               dragging_mouse))
     = [nothing; nothing; only_drag].
Proof.
  split.
  - apply (lost_hand_keeps_drag dragging_mouse hand_lost
             (pointing_at false 13)).
    + exact dragging_mouse_ready.
    + reflexivity.
    + exists 10%Q. vm_compute. reflexivity.
    + repeat constructor.
    + reflexivity.
  - apply (lost_hand_keeps_drag dragging_mouse hand_lost
             (pointing_at true 13)).
    + exact dragging_mouse_ready.
    + reflexivity.
    + exists 10%Q. vm_compute. reflexivity.
    + repeat constructor.
    + reflexivity.
Defined.

(** The classifier as constructed, and one that clicked a moment ago. *)
Definition clicked_mouse : VirtualMouseClassifier.t :=
  mk (config mouse0) (_screen_width mouse0) (_screen_height mouse0)
     (_filter mouse0) (_state mouse0) (_click_start_time mouse0) 10
     (_is_dragging mouse0) (_last_position mouse0).

Definition tap : list (Clock * ExtractionResult) :=
  [pointing_at true 10; pointing_at true (161 # 16);
   pointing_at false (81 # 8)].

Lemma last_click_time_witness :
  fst (feed_frames tap mouse0) = fst (feed_frames tap clicked_mouse)
  /\ forget_click (snd (feed_frames tap mouse0))
     = forget_click (snd (feed_frames tap clicked_mouse)).
Proof.
  apply (last_click_time_is_never_used tap mouse0 clicked_mouse).
  reflexivity.
Defined.

End MouseStreamsExamples.

(** ** The mouse action on the classifier's results
    (features/virtual_mouse/actions.py) *)

Section MouseButton.
Import VirtualMouseClassifier VirtualMouseActions.

Lemma requested_of_result (c : VirtualMouseClassifier.t) (elapsed : Q)
    (g : GestureType) (conf : Q) (kw : kwargs) :
  requested (_create_result c elapsed g conf kw)
  = events (_create_result c elapsed g conf kw).
Proof.
  destruct kw as [kx ky kc kd kr [pd|]]; reflexivity.
Qed.

(** Every result of the classifier carries its three flags as booleans:
    what the action reads is what the classifier emitted. *)
Lemma classifier_flags (c : VirtualMouseClassifier.t) (clk : Clock)
    (ex : ExtractionResult) (res : InferenceResult) :
  fst (classify c clk ex) = inr res -> requested res = events res.
Proof.
  unfold classify, _get_tracking_hand.
  destruct (select_hand (preferred_hand (config c)) ex) as [hand|].
  2:{ intros [= <-]. apply requested_of_result. }
  cbv zeta.
  destruct (length (landmarks hand) <? 21)%nat.
  { intros [= <-]. apply requested_of_result. }
  destruct (require_pointing_gesture (config c)
            && negb (_check_pointing (landmarks hand))).
  { intros [= <-]. apply requested_of_result. }
  destruct (_map_to_screen c _ _) as [[sx sy]|]; [|discriminate].
  destruct (if smoothing_enabled (config c) then _ else _)
    as [[e|[fx fy]] flt']; [discriminate|].
  destruct (_update_state _ _ _ _ _) as [cmd c3].
  intros [= <-]. apply requested_of_result.
Qed.

Definition from_classifier (r : PyExn + InferenceResult) : Prop :=
  match r with
  | inr res => requested res = events res
  | inl _ => True
  end.

Lemma feed_frames_flags (frames : list (Clock * ExtractionResult)) :
  forall c : VirtualMouseClassifier.t,
    Forall from_classifier (fst (feed_frames frames c)).
Proof.
  induction frames as [|f rest IH]; intros c; [constructor|].
  rewrite feed_mouse_cons. cbn [fst]. constructor; [|apply IH].
  destruct (fst (classify c (fst f) (snd f))) as [e|res] eqn:E; [exact I|].
  apply (classifier_flags c (fst f) (snd f)). exact E.
Qed.

Context (pyautogui : list gui_call -> gui_call -> option PyExn).
Hypothesis pyautogui_works : forall log call, pyautogui log call = None.

Lemma buttons_app (l1 l2 : list gui_call) :
  buttons (l1 ++ l2) = buttons l1 ++ buttons l2.
Proof. unfold buttons. apply List.filter_app. Qed.

(** One result through [execute] when [pyautogui] works. *)
Lemma execute_buttons (res : InferenceResult) (down : bool)
    (log : list gui_call) :
  exists a' log',
    execute pyautogui res (VirtualMouseActions.mk true down) log
    = (true, a', log')
    /\ _initialized a' = true
    /\ match requested res, down with
       | (true, _, _), false =>
           buttons log' = buttons log ++ [Click] /\ _is_mouse_down a' = false
       | (false, true, _), false =>
           buttons log' = buttons log ++ [MouseDown]
           /\ _is_mouse_down a' = true
       | (_, _, true), true =>
           buttons log' = buttons log ++ [MouseUp]
           /\ _is_mouse_down a' = false
       | _, _ => buttons log' = buttons log /\ _is_mouse_down a' = down
       end.
Proof.
  unfold execute, requested. cbn [_initialized _is_mouse_down negb].
  rewrite !pyautogui_works.
  destruct (truthy (default (VBool false) (raw_output res !! "click")));
    destruct (truthy (default (VBool false) (raw_output res !! "drag")));
    destruct (truthy (default (VBool false) (raw_output res !! "release")));
    destruct down; cbn [andb negb];
    eexists _, _; (split; [reflexivity|]); (split; [reflexivity|]);
    rewrite ?buttons_app; cbn [buttons List.filter app _is_mouse_down];
    rewrite ?app_nil_r; split; reflexivity.
Qed.

Lemma drive_cons_result (res : InferenceResult)
    (rest : list (PyExn + InferenceResult)) (a : VirtualMouseActions.t)
    (log : list gui_call) :
  drive pyautogui (inr res :: rest) a log
  = drive pyautogui rest (snd (fst (execute pyautogui res a log)))
      (snd (execute pyautogui res a log)).
Proof.
  cbn [drive]. destruct (execute pyautogui res a log) as [[b a'] log'].
  reflexivity.
Qed.

(** Results that ask for the same thing [k] times. *)
Lemma drive_repeat (want : bool * bool * bool) (down : bool)
    (rs rest : list (PyExn + InferenceResult)) :
  match want, down with
  | (false, false, false), _ | (false, true, false), true => True
  | _, _ => False
  end ->
  Forall from_classifier rs ->
  emitted rs = repeat want (length rs) ->
  forall log,
    exists log',
      drive pyautogui (rs ++ rest) (VirtualMouseActions.mk true down) log
      = drive pyautogui rest (VirtualMouseActions.mk true down) log'
      /\ buttons log' = buttons log.
Proof.
  intros Hwant. induction rs as [|r rs IH]; intros Hall Hem log.
  - exists log. split; reflexivity.
  - inversion Hall as [|? ? Hr Hall']; subst.
    rewrite emitted_cons in Hem. cbn [length repeat] in Hem.
    injection Hem as Hev Hem.
    destruct r as [e|res].
    + cbn [app drive]. apply IH; assumption.
    + cbn [from_classifier] in Hr. rewrite <- Hr in Hev.
      rewrite <- app_comm_cons, drive_cons_result.
      destruct (execute_buttons res down log)
        as (a' & log1 & E & Hinit & Hb).
      rewrite E. cbn [fst snd]. rewrite Hev in Hb.
      destruct a' as [ini dn]. cbn in Hinit. subst ini.
      assert (Hsame : buttons log1 = buttons log /\ dn = down).
      { destruct want as [[[] []] []], down; try contradiction; exact Hb. }
      destruct Hsame as [Hb' ->].
      destruct (IH Hall' Hem log1) as (log' & -> & Hb2).
      exists log'. split; [reflexivity|]. congruence.
Qed.

Lemma emitted_app_inv (rs : list (PyExn + InferenceResult))
    (l1 l2 : list (bool * bool * bool)) :
  emitted rs = l1 ++ l2 ->
  exists rs1 rs2, rs = rs1 ++ rs2 /\ emitted rs1 = l1 /\ emitted rs2 = l2.
Proof. unfold emitted. apply map_eq_app. Qed.

Lemma emitted_repeat_length (rs : list (PyExn + InferenceResult))
    (want : bool * bool * bool) (k : nat) :
  emitted rs = repeat want k -> emitted rs = repeat want (length rs).
Proof.
  intros E. assert (Hlen : length rs = k).
  { rewrite <- (repeat_length want k), <- E. unfold emitted.
    symmetry. apply length_map. }
  rewrite Hlen. exact E.
Qed.

Lemma emitted_single (rs : list (PyExn + InferenceResult))
    (want : bool * bool * bool) :
  Forall from_classifier rs ->
  emitted rs = [want] -> want <> nothing ->
  exists res, rs = [inr res] /\ requested res = want.
Proof.
  intros Hall Hem Hwant. destruct rs as [|r [|? ?]]; try discriminate.
  rewrite emitted_cons in Hem. apply (f_equal (hd nothing)) in Hem.
  cbn [hd] in Hem. destruct r as [e|res]; [congruence|].
  inversion Hall as [|? ? Hres _]; subst. cbn [from_classifier] in Hres.
  exists res. split; [reflexivity|]. rewrite Hres. reflexivity.
Qed.

(** X26: one press and one release of the button per drag.  Although
    the classifier emits [drag] on every frame of a drag, [execute]
    presses the button only when it is not held: on the results of a
    stream whose events are a drag (nothing, then [drag] on one or more
    frames, then [release]), with a working [pyautogui], the button
    calls are one [mouseDown] and one [mouseUp], and the button is not
    held at the end; on the results of a click they are one [click]. *)
Theorem one_button_press_per_drag
    (frames : list (Clock * ExtractionResult))
    (c : VirtualMouseClassifier.t) (n m : nat) :
  let results := fst (feed_frames frames c) in
  let final := drive pyautogui results (VirtualMouseActions.init true) [] in
  (emitted results
   = repeat nothing n ++ repeat only_drag (S m) ++ [only_release] ->
   buttons (snd final) = [MouseDown; MouseUp]
   /\ _is_mouse_down (fst final) = false)
  /\ (emitted results = repeat nothing n ++ [only_click] ->
      buttons (snd final) = [Click]
      /\ _is_mouse_down (fst final) = false).
Proof.
  cbv zeta. pose proof (feed_frames_flags frames c) as Hall.
  set (results := fst (feed_frames frames c)) in *. clearbody results.
  unfold VirtualMouseActions.init. split; intros Hem.
  - apply emitted_app_inv in Hem as (quiet & rest & -> & Hq & Hem).
    change (repeat only_drag (S m)) with ([only_drag] ++ repeat only_drag m)
      in Hem.
    rewrite <- app_assoc in Hem.
    apply emitted_app_inv in Hem as (start & rest' & -> & Hs & Hem).
    apply emitted_app_inv in Hem as (dragging & stop & -> & Hd & Hstop).
    apply Forall_app in Hall as [Hall1 Hall].
    apply Forall_app in Hall as [Hall2 Hall].
    apply Forall_app in Hall as [Hall3 Hall4].
    destruct (drive_repeat nothing false quiet (start ++ dragging ++ stop) I
                Hall1 (emitted_repeat_length _ _ _ Hq) [])
      as (log1 & -> & Hb1).
    destruct (emitted_single start only_drag Hall2 Hs ltac:(discriminate))
      as (res & -> & Hres).
    cbn [app]. rewrite drive_cons_result.
    destruct (execute_buttons res false log1) as (a2 & log2 & E & Hi & Hb2).
    rewrite E, Hres in *. cbn [fst snd]. destruct Hb2 as [Hb2 Hdown].
    destruct a2 as [ini dn]. cbn in Hi, Hdown. subst ini dn.
    destruct (drive_repeat only_drag true dragging stop I
                Hall3 (emitted_repeat_length _ _ _ Hd) log2)
      as (log3 & -> & Hb3).
    destruct (emitted_single stop only_release Hall4 Hstop ltac:(discriminate))
      as (res' & -> & Hres').
    rewrite drive_cons_result.
    destruct (execute_buttons res' true log3) as (a4 & log4 & E4 & Hi4 & Hb4).
    rewrite E4, Hres' in *. cbn [fst snd drive]. destruct Hb4 as [Hb4 Hdown4].
    split; [|exact Hdown4].
    rewrite Hb4, Hb3, Hb2, Hb1. reflexivity.
  - apply emitted_app_inv in Hem as (quiet & stop & -> & Hq & Hstop).
    apply Forall_app in Hall as [Hall1 Hall2].
    destruct (drive_repeat nothing false quiet stop I
                Hall1 (emitted_repeat_length _ _ _ Hq) [])
      as (log1 & -> & Hb1).
    destruct (emitted_single stop only_click Hall2 Hstop ltac:(discriminate))
      as (res & -> & Hres).
    rewrite drive_cons_result.
    destruct (execute_buttons res false log1) as (a2 & log2 & E & Hi & Hb2).
    rewrite E, Hres in *. cbn [fst snd drive]. destruct Hb2 as [Hb2 Hdown].
    split; [|exact Hdown]. rewrite Hb2, Hb1. reflexivity.
Qed.

End MouseButton.

Section MouseButtonErrors.
Import VirtualMouseActions.
Context (pyautogui : list gui_call -> gui_call -> option PyExn).

(** X27: an error never leaves the button held.  Whatever [pyautogui]
    does, when an initialized action returns [False] the button is
    marked as released, and if it was held, [mouseUp] is the last call
    the action made. *)
Theorem failed_execute_releases_button
    (inference : InferenceResult) (a : VirtualMouseActions.t)
    (log : list gui_call) :
  _initialized a = true ->
  fst (fst (execute pyautogui inference a log)) = false ->
  _is_mouse_down (snd (fst (execute pyautogui inference a log))) = false
  /\ (_is_mouse_down a = true ->
      last (snd (execute pyautogui inference a log)) = Some MouseUp).
Proof.
  intros Hinit. unfold execute, on_error. rewrite Hinit. cbn [negb].
  destruct a as [ini down]. cbn [_initialized _is_mouse_down] in *.
  repeat match goal with
         | |- context [pyautogui ?l ?c] => destruct (pyautogui l c)
         | |- context [if truthy ?v && ?b then _ else _] =>
             destruct (truthy v && b)
         | |- context [if down then _ else _] => destruct down
         end;
    cbn [fst snd _is_mouse_down]; intros Hret; try discriminate;
    (split; [reflexivity|]); intros Hdown; try discriminate;
    rewrite last_snoc; reflexivity.
Qed.

End MouseButtonErrors.

Section MouseButtonExamples.
Import VirtualMouseClassifier VirtualMouseActions.

(** A [pyautogui] on which every call returns, and one on which every
    call raises. *)
Definition gui_ok (log : list gui_call) (c : gui_call) : option PyExn := None.

Definition gui_fails (log : list gui_call) (c : gui_call) : option PyExn :=
  Some (RuntimeError "fail-safe").

(** A pinch held for 500 ms and seen every 125 ms, then released. *)
Definition held_pinch : list (Clock * ExtractionResult) :=
  map (pointing_at true) [10%Q; 81 # 8; 41 # 4; 83 # 8; 21 # 2]
  ++ [pointing_at false (85 # 8)].

Lemma one_button_press_witness :
  buttons (snd (drive gui_ok (fst (feed_frames held_pinch mouse0))
                  (VirtualMouseActions.init true) []))
  = [MouseDown; MouseUp]
  /\ buttons (snd (drive gui_ok (fst (feed_frames tap mouse0))
                     (VirtualMouseActions.init true) []))
     = [Click].
Proof.
  split.
  - apply (one_button_press_per_drag gui_ok (fun _ _ => eq_refl)
             held_pinch mouse0 2 2).
    reflexivity.
  - apply (proj2 (one_button_press_per_drag gui_ok (fun _ _ => eq_refl)
                    tap mouse0 2 0)).
    reflexivity.
Defined.

Lemma failed_execute_witness :
  let held := VirtualMouseActions.mk true true in
  let res := _create_result mouse0 0 NONE 0 no_kwargs in
  fst (fst (execute gui_fails res held [])) = false
  /\ _is_mouse_down (snd (fst (execute gui_fails res held []))) = false
  /\ last (snd (execute gui_fails res held [])) = Some MouseUp.
Proof.
  cbv zeta.
  pose proof (failed_execute_releases_button gui_fails
                (_create_result mouse0 0 NONE 0 no_kwargs)
                (VirtualMouseActions.mk true true) [] eq_refl eq_refl)
    as [H1 H2].
  split; [reflexivity|]. split; [exact H1|exact (H2 eq_refl)].
Defined.

End MouseButtonExamples.

(** ** The pipeline finger counter over streams
    (pipelines/inference/classifiers/finger_count.py) *)

Section FingerSmoothing.
Import FingerCountClassifier.

(** The fingers that a frame shows, before smoothing. *)
Definition raw_total (c : t) (ex : ExtractionResult) : Z :=
  foldl Z.add 0
    (map (fun hand => fs_count (_get_finger_states c hand)) (hands ex)).

Lemma raw_total_config (c c' : t) (ex : ExtractionResult) :
  config c' = config c -> raw_total c' ex = raw_total c ex.
Proof.
  intros Hcfg. unfold raw_total. f_equal. apply map_ext. intros hand.
  unfold _get_finger_states. rewrite Hcfg. reflexivity.
Qed.

Lemma feed_finger_cons (f : Clock * ExtractionResult)
    (rest : list (Clock * ExtractionResult)) (c : t) :
  feed_frames (f :: rest) c
  = (fst (classify c (fst f) (snd f))
     :: fst (feed_frames rest (snd (classify c (fst f) (snd f)))),
     snd (feed_frames rest (snd (classify c (fst f) (snd f))))).
Proof. exact (feed_frames_cons f rest c). Qed.

(** [classify] is [_smooth_count] on the fingers of the frame: its
    exception, or a result that carries the smoothed count. *)
Lemma classify_smooths (c : t) (clk : Clock) (ex : ExtractionResult) :
  match _smooth_count c (raw_total c ex) with
  | (inl e, c') => classify c clk ex = (inl e, c')
  | (inr s, c') =>
      exists r,
        classify c clk ex = (inr r, c')
        /\ finger_count r = Some s
        /\ raw_output r !! "total_fingers" = Some (VInt s)
        /\ raw_output r !! "raw_total" = Some (VInt (raw_total c ex))
  end.
Proof.
  unfold classify, raw_total. rewrite !map_map. cbn [fst snd].
  destruct (_smooth_count c _) as [[e|s] c']; [reflexivity|].
  eexists. split; [reflexivity|]. repeat split.
Qed.

(** The history after a count, as [_smooth_count] keeps it. *)
Definition kept (c : t) (count : Z) : list Z :=
  if smoothing_frames (config c) <? Z.of_nat (length (_history c ++ [count]))
  then tl (_history c ++ [count]) else _history c ++ [count].

Lemma mode_repeat (k : Z) (n : nat) : mode (repeat k (S n)) = Some k.
Proof.
  unfold mode. cbn [repeat]. f_equal.
  generalize (k :: repeat k n). intros h.
  induction n as [|n IH]; [reflexivity|].
  cbn [repeat foldl]. rewrite Nat.ltb_irrefl, Z.ltb_irrefl, andb_false_r.
  exact IH.
Qed.

Lemma mode_defined (h : list Z) : h <> [] -> is_Some (mode h).
Proof. destruct h; [congruence|]. intros _. eexists. reflexivity. Qed.

(** With a window of one frame or more, [_smooth_count] returns a
    count, and the history stays within the window. *)
Lemma smooth_count_step (c : t) (count : Z) :
  1 <= smoothing_frames (config c) ->
  Z.of_nat (length (_history c)) <= smoothing_frames (config c) ->
  exists s,
    _smooth_count c count = (inr s, mk (config c) (kept c count))
    /\ Z.of_nat (length (kept c count)) <= smoothing_frames (config c)
    /\ (forall k n, kept c count = repeat k (S n) ->
                    Z.of_nat (S n) = smoothing_frames (config c) -> s = k).
Proof.
  intros Hn Hlen. unfold _smooth_count. fold (kept c count).
  assert (Hne : kept c count <> []).
  { unfold kept. rewrite length_app. cbn [length].
    destruct (_ <? _) eqn:E.
    - apply Z.ltb_lt in E. destruct (_history c) as [|a [|b h]]; cbn in *;
        try lia; discriminate.
    - destruct (_history c); discriminate. }
  assert (Hk : Z.of_nat (length (kept c count)) <= smoothing_frames (config c)).
  { unfold kept. rewrite length_app. cbn [length].
    destruct (_ <? _) eqn:E.
    - destruct (_history c ++ [count]) as [|a h] eqn:Eh.
      + cbn. lia.
      + apply (f_equal (@length Z)) in Eh. rewrite length_app in Eh.
        cbn in Eh |- *. lia.
    - apply Z.ltb_ge in E. rewrite length_app. cbn [length]. exact E. }
  destruct (mode_defined _ Hne) as [m Hm].
  destruct (_ <=? _) eqn:E.
  - rewrite Hm. exists m. split; [reflexivity|]. split; [exact Hk|].
    intros k n Hrep _. rewrite Hrep, mode_repeat in Hm. congruence.
  - exists count. split; [reflexivity|]. split; [exact Hk|].
    intros k n Hrep Hlen'. apply Z.leb_gt in E.
    rewrite Hrep, repeat_length in E. lia.
Qed.

(** One frame with a window of one frame or more. *)
Lemma finger_frame (c : t) (clk : Clock) (ex : ExtractionResult) :
  1 <= smoothing_frames (config c) ->
  Z.of_nat (length (_history c)) <= smoothing_frames (config c) ->
  exists r s,
    classify c clk ex = (inr r, mk (config c) (kept c (raw_total c ex)))
    /\ finger_count r = Some s
    /\ raw_output r !! "total_fingers" = Some (VInt s)
    /\ Z.of_nat (length (kept c (raw_total c ex))) <= smoothing_frames (config c)
    /\ (forall k n, kept c (raw_total c ex) = repeat k (S n) ->
                    Z.of_nat (S n) = smoothing_frames (config c) -> s = k).
Proof.
  intros Hn Hlen.
  destruct (smooth_count_step c (raw_total c ex) Hn Hlen) as (s & Hs & Hk & Hrep).
  pose proof (classify_smooths c clk ex) as Hc. rewrite Hs in Hc.
  destruct Hc as (r & Hc & Hf & Ht & _).
  exists r, s. repeat split; assumption.
Qed.

Definition returned (r : PyExn + InferenceResult) : Prop :=
  exists res, r = inr res.

(** Any frames, with a window of one frame or more: no exception, and
    the history stays within the window. *)
Lemma finger_frames (frames : list (Clock * ExtractionResult)) :
  forall c : t,
    1 <= smoothing_frames (config c) ->
    Z.of_nat (length (_history c)) <= smoothing_frames (config c) ->
    Forall returned (fst (feed_frames frames c))
    /\ config (snd (feed_frames frames c)) = config c
    /\ Z.of_nat (length (_history (snd (feed_frames frames c))))
       <= smoothing_frames (config c).
Proof.
  induction frames as [|f rest IH]; intros c Hn Hlen.
  - cbn. split; [constructor|]. split; [reflexivity|exact Hlen].
  - destruct (finger_frame c (fst f) (snd f) Hn Hlen)
      as (r & s & Hc & _ & _ & Hk & _).
    rewrite feed_finger_cons, Hc. cbn [fst snd].
    destruct (IH (mk (config c) (kept c (raw_total c (snd f)))))
      as (I1 & I2 & I3); [exact Hn|exact Hk|].
    cbn [config] in I2, I3.
    split; [constructor; [exists r; reflexivity|exact I1]|].
    split; assumption.
Qed.

(** Frames that all show [k] fingers: the history ends with as many
    [k], up to the window. *)
Lemma steady_frames (steady : list (Clock * ExtractionResult)) (k : Z) :
  forall (c : t) (pre : list Z) (j : nat),
    1 <= smoothing_frames (config c) ->
    _history c = pre ++ repeat k j ->
    Z.of_nat (length (_history c)) <= smoothing_frames (config c) ->
    Z.of_nat (j + length steady) <= smoothing_frames (config c) ->
    Forall (fun f => raw_total c (snd f) = k) steady ->
    steady <> [] ->
    exists res pre',
      last (fst (feed_frames steady c)) = Some (inr res)
      /\ (Z.of_nat (j + length steady) = smoothing_frames (config c) ->
          finger_count res = Some k
          /\ raw_output res !! "total_fingers" = Some (VInt k))
      /\ _history (snd (feed_frames steady c))
         = pre' ++ repeat k (j + length steady).
Proof.
  induction steady as [|f rest IH]; intros c pre j Hn Hh Hlen Hj Hall Hne;
    [congruence|].
  apply Forall_cons in Hall as [Hf Hrest].
  destruct (finger_frame c (fst f) (snd f) Hn Hlen)
    as (r & s & Hc & Hfc & Hraw & Hk & Hrep).
  rewrite feed_finger_cons, Hc. cbn [fst snd].
  assert (Hkept : exists pre1,
             kept c (raw_total c (snd f)) = pre1 ++ repeat k (S j)).
  { unfold kept. rewrite Hf, Hh, <- app_assoc.
    replace (repeat k j ++ [k]) with (repeat k (S j))
      by (cbn [repeat]; apply repeat_cons).
    destruct (_ <? _) eqn:E; [|exists pre; reflexivity].
    apply Z.ltb_lt in E. rewrite length_app, repeat_length in E.
    cbn [length] in Hj.
    destruct pre as [|a pre]; [cbn [length] in E; lia|].
    exists pre. reflexivity. }
  destruct Hkept as (pre1 & Hkept).
  destruct rest as [|f' rest'].
  - cbn [feed_frames fst snd last length _history].
    exists r, pre1. split; [reflexivity|].
    replace (j + 1)%nat with (S j) by lia. split; [|exact Hkept].
    intros Hfull.
    assert (Hs : s = k).
    { destruct pre1 as [|a pre1].
      - apply (Hrep k j); [exact Hkept|exact Hfull].
      - rewrite Hkept in Hk. cbn [length app] in Hk.
        rewrite length_app, repeat_length in Hk. lia. }
    subst s. split; assumption.
  - destruct (IH (mk (config c) (kept c (raw_total c (snd f)))) pre1 (S j))
      as (res & pre' & L1 & L2 & L3).
    + exact Hn.
    + exact Hkept.
    + exact Hk.
    + cbn [config length] in *. lia.
    + eapply Forall_impl; [exact Hrest|]. intros g Hg. cbn beta in Hg |- *.
      rewrite <- Hg. apply raw_total_config. reflexivity.
    + discriminate.
    + exists res, pre'.
      replace (j + length (f :: f' :: rest'))%nat
        with (S j + length (f' :: rest'))%nat by (cbn [length]; lia).
      split; [|split; [exact L2|exact L3]].
      rewrite <- L1.
      destruct (fst (feed_frames (f' :: rest')
                       (mk (config c) (kept c (raw_total c (snd f)))))) eqn:E1.
      * rewrite feed_finger_cons in E1. discriminate.
      * reflexivity.
Qed.

(** X28: a count that is held is reported.  With a window of one frame
    or more, no frame of any stream raises; and when the last
    [smoothing_frames] frames of a stream all show [k] fingers, the
    result of the last frame reports [k], whatever the frames before
    showed. *)
Theorem steady_count_is_reported
    (c : t) (before steady : list (Clock * ExtractionResult)) (k : Z) :
  1 <= smoothing_frames (config c) ->
  Z.of_nat (length (_history c)) <= smoothing_frames (config c) ->
  Z.of_nat (length steady) = smoothing_frames (config c) ->
  Forall (fun f => raw_total c (snd f) = k) steady ->
  Forall returned (fst (feed_frames (before ++ steady) c))
  /\ exists res,
       last (fst (feed_frames (before ++ steady) c)) = Some (inr res)
       /\ finger_count res = Some k
       /\ raw_output res !! "total_fingers" = Some (VInt k).
Proof.
  intros Hn Hlen Hst Hall.
  split; [apply finger_frames; assumption|].
  revert c Hn Hlen Hst Hall.
  induction before as [|f rest IH]; intros c Hn Hlen Hst Hall.
  - cbn [app].
    destruct (steady_frames steady k c (_history c) 0 Hn) as (res & pre' & L1 & L2 & _).
    + cbn [repeat]. rewrite app_nil_r. reflexivity.
    + exact Hlen.
    + cbn [Nat.add]. lia.
    + exact Hall.
    + intros ->. cbn [length] in Hst. lia.
    + exists res. split; [exact L1|]. apply L2. cbn [Nat.add]. exact Hst.
  - destruct (finger_frame c (fst f) (snd f) Hn Hlen)
      as (r & s & Hc & _ & _ & Hk & _).
    rewrite <- app_comm_cons, feed_finger_cons, Hc. cbn [fst snd].
    destruct (IH (mk (config c) (kept c (raw_total c (snd f)))))
      as (res & L1 & L2); [exact Hn|exact Hk|exact Hst| |].
    + eapply Forall_impl; [exact Hall|]. intros g Hg. cbn beta in Hg |- *.
      rewrite <- Hg. apply raw_total_config. reflexivity.
    + exists res. split; [|exact L2]. rewrite <- L1.
      destruct (fst (feed_frames (rest ++ steady) _)) eqn:E1; [|reflexivity].
      exfalso.
      assert (Hl : length (fst (feed_frames (rest ++ steady)
                     (mk (config c) (kept c (raw_total c (snd f)))))) = 0%nat)
        by (rewrite E1; reflexivity).
      clear -Hl Hst Hn.
      destruct steady as [|g steady]; [cbn [length] in Hst; lia|].
      destruct rest as [|g' rest]; cbn [app] in Hl;
        rewrite feed_finger_cons in Hl; discriminate.
Qed.

(** X29: a window of no frame makes every frame fail.  With
    [smoothing_frames] zero or negative, [_smooth_count] removes the
    count it has just appended and takes the mode of an empty history:
    every [classify] raises [ValueError], and the classifier is left as
    it was. *)
Theorem empty_window_always_raises
    (frames : list (Clock * ExtractionResult)) (c : t) :
  smoothing_frames (config c) <= 0 ->
  _history c = [] ->
  fst (feed_frames frames c) = repeat (inl ValueError) (length frames)
  /\ snd (feed_frames frames c) = c.
Proof.
  intros Hn Hh.
  assert (Hstep : forall clk ex, classify c clk ex = (inl ValueError, c)).
  { intros clk ex. pose proof (classify_smooths c clk ex) as Hc.
    unfold _smooth_count in Hc. rewrite Hh in Hc. cbn [app length tl] in Hc.
    replace (smoothing_frames (config c) <? Z.of_nat 1) with true in Hc
      by (symmetry; apply Z.ltb_lt; lia).
    cbn [tl length] in Hc.
    replace (smoothing_frames (config c) <=? Z.of_nat 0) with true in Hc
      by (symmetry; apply Z.leb_le; lia).
    cbn [mode] in Hc. rewrite Hc. destruct c as [cfg h]. cbn in Hh. subst h.
    reflexivity. }
  induction frames as [|f rest [IH1 IH2]]; [split; reflexivity|].
  rewrite feed_finger_cons, Hstep. cbn [fst snd length repeat].
  rewrite IH1, IH2. split; reflexivity.
Qed.

End FingerSmoothing.

Section FingerSmoothingExamples.
Import FingerCountClassifier.

(** A fist, then one raised finger on three frames. *)
Definition one_finger : Clock * ExtractionResult :=
  (clock0, frame_with (pinch_hand (1 # 10))).

Definition finger0 : FingerCountClassifier.t :=
  FingerCountClassifier.init FingerCountClassifier.default_config.

Lemma steady_count_witness :
  Forall returned
    (fst (feed_frames ([fist_at 0; fist_at 1]
                       ++ [one_finger; one_finger; one_finger]) finger0))
  /\ exists res,
       last (fst (feed_frames ([fist_at 0; fist_at 1]
                               ++ [one_finger; one_finger; one_finger])
                              finger0))
       = Some (inr res)
       /\ finger_count res = Some 1
       /\ raw_output res !! "total_fingers" = Some (VInt 1).
Proof.
  apply (steady_count_is_reported finger0 [fist_at 0; fist_at 1]
           [one_finger; one_finger; one_finger] 1).
  - vm_compute. discriminate.
  - vm_compute. discriminate.
  - reflexivity.
  - repeat constructor.
Defined.

(** A finger counter that is built with [smoothing_frames=0]. *)
Definition no_window : FingerCountClassifier.t :=
  FingerCountClassifier.init (mkConfig (5 # 100) true 0).

Lemma empty_window_witness :
  fst (feed_frames [one_finger; fist_at 1; (clock0, no_hands)] no_window)
  = [inl ValueError; inl ValueError; inl ValueError]
  /\ snd (feed_frames [one_finger; fist_at 1; (clock0, no_hands)] no_window)
     = no_window.
Proof.
  apply (empty_window_always_raises
           [one_finger; fist_at 1; (clock0, no_hands)] no_window).
  - vm_compute. discriminate.
  - reflexivity.
Defined.

End FingerSmoothingExamples.

(** ** The gestures that the classifiers report *)

Section SupportedGestures.

(** A result whose gesture is [NONE] or one that the classifier lists
    in [supported_gestures]; an exception carries none. *)
Definition supported_or_none (gs : list GestureType)
    (r : PyExn + InferenceResult) : Prop :=
  match r with
  | inr res => gesture_type res = NONE \/ In (gesture_type res) gs
  | inl _ => True
  end.

Lemma finger_count_gestures (c : FingerCountClassifier.t) (clk : Clock)
    (ex : ExtractionResult) :
  supported_or_none (supported_gestures c) (fst (classify c clk ex)).
Proof.
  cbn [classify supported_gestures FingerCountClassifier.classifier].
  unfold FingerCountClassifier.classify.
  destruct (FingerCountClassifier._smooth_count c _) as [[e|s] c'];
    [exact I|].
  cbn [fst supported_or_none gesture_type]. right.
  unfold FingerCountClassifier._detect_pose.
  destruct (hands ex) as [|first rest]; [cbn; tauto|].
  destruct (FingerCountClassifier._get_finger_states c first)
    as [[] [] [] [] []]; cbn; tauto.
Qed.

Lemma feature_finger_count_gestures (c : FeatureFingerCountClassifier.t)
    (clk : Clock) (ex : ExtractionResult) :
  supported_or_none (supported_gestures c) (fst (classify c clk ex)).
Proof.
  cbn [classify supported_gestures FeatureFingerCountClassifier.classifier].
  unfold FeatureFingerCountClassifier.classify.
  destruct (_ && _); [left; reflexivity|].
  cbv zeta.
  destruct (if FeatureFingerCountClassifier.smoothing_enabled _ then _ else _)
    as [total c'].
  destruct (map _ (hands ex)) as [|first rest].
  { cbn. tauto. }
  destruct (FeatureFingerCountClassifier.pose_detection_enabled _);
    [|cbn; tauto].
  cbn [fst supported_or_none gesture_type]. right.
  unfold FeatureFingerCountClassifier._pose_to_gesture_type.
  repeat (destruct (String.eqb _ _); [cbn; tauto|]). cbn. tauto.
Qed.

Lemma volume_gestures (c : VolumeControlClassifier.t) (clk : Clock)
    (ex : ExtractionResult) :
  supported_or_none (supported_gestures c) (fst (classify c clk ex)).
Proof.
  cbn [classify supported_gestures VolumeControlClassifier.classifier].
  unfold VolumeControlClassifier.classify.
  destruct (VolumeControlClassifier._get_preferred_hand c ex) as [hand|];
    [|left; reflexivity].
  destruct (_ <? _)%nat; [left; reflexivity|].
  cbv zeta.
  destruct (_ && _).
  - unfold VolumeControlClassifier._handle_fist.
    destruct (PyFloat.leb _ _); [cbn; tauto|].
    destruct (PyFloat.div _ _); [cbn; tauto|exact I].
  - destruct (VolumeControlClassifier._calculate_pinch_state _ _ _)
      as [state|]; [|exact I].
    destruct (VolumeControlClassifier.is_pinched state); cbn; tauto.
Qed.

Lemma mouse_gestures (c : VirtualMouseClassifier.t) (clk : Clock)
    (ex : ExtractionResult) :
  supported_or_none (supported_gestures c) (fst (classify c clk ex)).
Proof.
  cbn [classify supported_gestures VirtualMouseClassifier.classifier].
  unfold VirtualMouseClassifier.classify.
  destruct (VirtualMouseClassifier._get_tracking_hand c ex) as [hand|];
    [|left; reflexivity].
  cbv zeta.
  destruct (_ <? _)%nat; [left; reflexivity|].
  destruct (_ && _); [left; reflexivity|].
  destruct (VirtualMouseClassifier._map_to_screen c _ _) as [[sx sy]|];
    [|exact I].
  destruct (if VirtualMouseClassifier.smoothing_enabled _ then _ else _)
    as [[e|[fx fy]] flt]; [exact I|].
  destruct (VirtualMouseClassifier._update_state _ _ _ _ _) as [cmd c3].
  cbn [fst supported_or_none].
  change (gesture_type (VirtualMouseClassifier._create_result ?a ?b ?g ?d ?k))
    with g.
  destruct (VirtualMouseClassifier.drag cmd); [cbn; tauto|].
  destruct (VirtualMouseClassifier.click cmd); [cbn; tauto|].
  destruct (VirtualMouseClassifier._check_pointing _); cbn; tauto.
Qed.

Lemma any_gestures (a : AnyClassifier) (clk : Clock) (ex : ExtractionResult) :
  supported_or_none (supported_gestures a) (fst (classify a clk ex))
  /\ supported_gestures (snd (classify a clk ex)) = supported_gestures a.
Proof.
  destruct a as [c|c|c|c]; (split; [|reflexivity]).
  - exact (finger_count_gestures c clk ex).
  - exact (feature_finger_count_gestures c clk ex).
  - exact (volume_gestures c clk ex).
  - exact (mouse_gestures c clk ex).
Qed.

(** X30: a classifier reports only gestures that it lists.  For each of
    the four classifiers and every stream of frames, the gesture of
    every result is [NONE] or a member of the classifier's
    [supported_gestures]. *)
Theorem results_carry_supported_gestures
    (frames : list (Clock * ExtractionResult)) (a : AnyClassifier) :
  Forall (supported_or_none (supported_gestures a)) (fst (feed_frames frames a)).
Proof.
  revert a. induction frames as [|f rest IH]; intros a; [constructor|].
  rewrite feed_frames_cons. cbn [fst].
  destruct (any_gestures a (fst f) (snd f)) as [H1 H2].
  constructor; [exact H1|]. rewrite <- H2. apply IH.
Qed.

End SupportedGestures.
